(** * Metacritic enrichment pipeline: a shallow embedding of
      [metacritic_scraper.py] and the properties of its four components
      (key normalizer, document fetcher, field extractor, orchestrator). *)

From Stdlib Require Import List Ascii String NArith ZArith QArith Bool Lia Arith ZifyBool.
Import ListNotations.
Close Scope Q_scope.

Set Implicit Arguments.

(** ** Characters and strings

    A Python [str] is a sequence of code points, here numbers.  The tables
    below are those of CPython 3.11 (Unicode 14), for every code point:
    [str.isalnum], [str.isdecimal], [str.isspace], the lower-case mapping,
    and the properties Cased and Case_Ignorable that [str.lower] reads a
    capital sigma by.  A table is a sorted list; the larger ones are looked
    up through a search tree built from the list. *)

Definition char := N.
Definition str := list char.

(** A character and a string literal. *)
Definition ch (c : ascii) : char := N_of_ascii c.
Definition py (s : string) : str := map ch (list_ascii_of_string s).

Definition in_ranges (c : char) (rs : list (N * N)) : bool :=
  existsb (fun r => (fst r <=? c) && (c <=? snd r))%N rs.

(** A table as a search tree: the intervals of a class, or the pairs of a
    mapping, in the order of their first components. *)
Inductive table : Type :=
| TLeaf
| TNode (l : table) (a b : N) (r : table).

(** The tree of the first [n] entries of a sorted list, and the entries
    left over. *)
Fixpoint table_of (fuel n : nat) (l : list (N * N)) : table * list (N * N) :=
  match fuel, n with
  | S fuel', S n' =>
      let (lt, l1) := table_of fuel' (Nat.div2 n') l in
      match l1 with
      | [] => (lt, [])
      | (a, b) :: l2 =>
          let (rt, l3) := table_of fuel' (n' - Nat.div2 n') l2 in
          (TNode lt a b rt, l3)
      end
  | _, _ => (TLeaf, l)
  end.

Definition index (l : list (N * N)) : table :=
  fst (table_of (List.length l) (List.length l) l).

Fixpoint entries (t : table) : list (N * N) :=
  match t with
  | TLeaf => []
  | TNode l a b r => entries l ++ (a, b) :: entries r
  end.

(** Whether [c] lies in an interval of the table. *)
Fixpoint in_table (c : N) (t : table) : bool :=
  match t with
  | TLeaf => false
  | TNode l a b r =>
      if (c <? a)%N then in_table c l
      else if (b <? c)%N then in_table c r
      else true
  end.

(** What the table maps [c] to. *)
Fixpoint table_find (c : N) (t : table) : option N :=
  match t with
  | TLeaf => None
  | TNode l a b r =>
      if (c <? a)%N then table_find c l
      else if (a <? c)%N then table_find c r
      else Some b
  end.

(** [str.isalnum] on one code point: the intervals of the code points it
    holds of. *)
Definition alnum_ranges : list (N * N) :=
  [ (48, 57); (65, 90); (97, 122); (170, 170); (178, 179); (181, 181);
    (185, 186); (188, 190); (192, 214); (216, 246); (248, 705); (710, 721);
    (736, 740); (748, 748); (750, 750); (880, 884); (886, 887); (890, 893);
    (895, 895); (902, 902); (904, 906); (908, 908); (910, 929); (931, 1013);
    (1015, 1153); (1162, 1327); (1329, 1366); (1369, 1369); (1376, 1416);
    (1488, 1514); (1519, 1522); (1568, 1610); (1632, 1641); (1646, 1647);
    (1649, 1747); (1749, 1749); (1765, 1766); (1774, 1788); (1791, 1791);
    (1808, 1808); (1810, 1839); (1869, 1957); (1969, 1969); (1984, 2026);
    (2036, 2037); (2042, 2042); (2048, 2069); (2074, 2074); (2084, 2084);
    (2088, 2088); (2112, 2136); (2144, 2154); (2160, 2183); (2185, 2190);
    (2208, 2249); (2308, 2361); (2365, 2365); (2384, 2384); (2392, 2401);
    (2406, 2415); (2417, 2432); (2437, 2444); (2447, 2448); (2451, 2472);
    (2474, 2480); (2482, 2482); (2486, 2489); (2493, 2493); (2510, 2510);
    (2524, 2525); (2527, 2529); (2534, 2545); (2548, 2553); (2556, 2556);
    (2565, 2570); (2575, 2576); (2579, 2600); (2602, 2608); (2610, 2611);
    (2613, 2614); (2616, 2617); (2649, 2652); (2654, 2654); (2662, 2671);
    (2674, 2676); (2693, 2701); (2703, 2705); (2707, 2728); (2730, 2736);
    (2738, 2739); (2741, 2745); (2749, 2749); (2768, 2768); (2784, 2785);
    (2790, 2799); (2809, 2809); (2821, 2828); (2831, 2832); (2835, 2856);
    (2858, 2864); (2866, 2867); (2869, 2873); (2877, 2877); (2908, 2909);
    (2911, 2913); (2918, 2927); (2929, 2935); (2947, 2947); (2949, 2954);
    (2958, 2960); (2962, 2965); (2969, 2970); (2972, 2972); (2974, 2975);
    (2979, 2980); (2984, 2986); (2990, 3001); (3024, 3024); (3046, 3058);
    (3077, 3084); (3086, 3088); (3090, 3112); (3114, 3129); (3133, 3133);
    (3160, 3162); (3165, 3165); (3168, 3169); (3174, 3183); (3192, 3198);
    (3200, 3200); (3205, 3212); (3214, 3216); (3218, 3240); (3242, 3251);
    (3253, 3257); (3261, 3261); (3293, 3294); (3296, 3297); (3302, 3311);
    (3313, 3314); (3332, 3340); (3342, 3344); (3346, 3386); (3389, 3389);
    (3406, 3406); (3412, 3414); (3416, 3425); (3430, 3448); (3450, 3455);
    (3461, 3478); (3482, 3505); (3507, 3515); (3517, 3517); (3520, 3526);
    (3558, 3567); (3585, 3632); (3634, 3635); (3648, 3654); (3664, 3673);
    (3713, 3714); (3716, 3716); (3718, 3722); (3724, 3747); (3749, 3749);
    (3751, 3760); (3762, 3763); (3773, 3773); (3776, 3780); (3782, 3782);
    (3792, 3801); (3804, 3807); (3840, 3840); (3872, 3891); (3904, 3911);
    (3913, 3948); (3976, 3980); (4096, 4138); (4159, 4169); (4176, 4181);
    (4186, 4189); (4193, 4193); (4197, 4198); (4206, 4208); (4213, 4225);
    (4238, 4238); (4240, 4249); (4256, 4293); (4295, 4295); (4301, 4301);
    (4304, 4346); (4348, 4680); (4682, 4685); (4688, 4694); (4696, 4696);
    (4698, 4701); (4704, 4744); (4746, 4749); (4752, 4784); (4786, 4789);
    (4792, 4798); (4800, 4800); (4802, 4805); (4808, 4822); (4824, 4880);
    (4882, 4885); (4888, 4954); (4969, 4988); (4992, 5007); (5024, 5109);
    (5112, 5117); (5121, 5740); (5743, 5759); (5761, 5786); (5792, 5866);
    (5870, 5880); (5888, 5905); (5919, 5937); (5952, 5969); (5984, 5996);
    (5998, 6000); (6016, 6067); (6103, 6103); (6108, 6108); (6112, 6121);
    (6128, 6137); (6160, 6169); (6176, 6264); (6272, 6276); (6279, 6312);
    (6314, 6314); (6320, 6389); (6400, 6430); (6470, 6509); (6512, 6516);
    (6528, 6571); (6576, 6601); (6608, 6618); (6656, 6678); (6688, 6740);
    (6784, 6793); (6800, 6809); (6823, 6823); (6917, 6963); (6981, 6988);
    (6992, 7001); (7043, 7072); (7086, 7141); (7168, 7203); (7232, 7241);
    (7245, 7293); (7296, 7304); (7312, 7354); (7357, 7359); (7401, 7404);
    (7406, 7411); (7413, 7414); (7418, 7418); (7424, 7615); (7680, 7957);
    (7960, 7965); (7968, 8005); (8008, 8013); (8016, 8023); (8025, 8025);
    (8027, 8027); (8029, 8029); (8031, 8061); (8064, 8116); (8118, 8124);
    (8126, 8126); (8130, 8132); (8134, 8140); (8144, 8147); (8150, 8155);
    (8160, 8172); (8178, 8180); (8182, 8188); (8304, 8305); (8308, 8313);
    (8319, 8329); (8336, 8348); (8450, 8450); (8455, 8455); (8458, 8467);
    (8469, 8469); (8473, 8477); (8484, 8484); (8486, 8486); (8488, 8488);
    (8490, 8493); (8495, 8505); (8508, 8511); (8517, 8521); (8526, 8526);
    (8528, 8585); (9312, 9371); (9450, 9471); (10102, 10131); (11264, 11492);
    (11499, 11502); (11506, 11507); (11517, 11517); (11520, 11557);
    (11559, 11559); (11565, 11565); (11568, 11623); (11631, 11631);
    (11648, 11670); (11680, 11686); (11688, 11694); (11696, 11702);
    (11704, 11710); (11712, 11718); (11720, 11726); (11728, 11734);
    (11736, 11742); (11823, 11823); (12293, 12295); (12321, 12329);
    (12337, 12341); (12344, 12348); (12353, 12438); (12445, 12447);
    (12449, 12538); (12540, 12543); (12549, 12591); (12593, 12686);
    (12690, 12693); (12704, 12735); (12784, 12799); (12832, 12841);
    (12872, 12879); (12881, 12895); (12928, 12937); (12977, 12991);
    (13312, 19903); (19968, 42124); (42192, 42237); (42240, 42508);
    (42512, 42539); (42560, 42606); (42623, 42653); (42656, 42735);
    (42775, 42783); (42786, 42888); (42891, 42954); (42960, 42961);
    (42963, 42963); (42965, 42969); (42994, 43009); (43011, 43013);
    (43015, 43018); (43020, 43042); (43056, 43061); (43072, 43123);
    (43138, 43187); (43216, 43225); (43250, 43255); (43259, 43259);
    (43261, 43262); (43264, 43301); (43312, 43334); (43360, 43388);
    (43396, 43442); (43471, 43481); (43488, 43492); (43494, 43518);
    (43520, 43560); (43584, 43586); (43588, 43595); (43600, 43609);
    (43616, 43638); (43642, 43642); (43646, 43695); (43697, 43697);
    (43701, 43702); (43705, 43709); (43712, 43712); (43714, 43714);
    (43739, 43741); (43744, 43754); (43762, 43764); (43777, 43782);
    (43785, 43790); (43793, 43798); (43808, 43814); (43816, 43822);
    (43824, 43866); (43868, 43881); (43888, 44002); (44016, 44025);
    (44032, 55203); (55216, 55238); (55243, 55291); (63744, 64109);
    (64112, 64217); (64256, 64262); (64275, 64279); (64285, 64285);
    (64287, 64296); (64298, 64310); (64312, 64316); (64318, 64318);
    (64320, 64321); (64323, 64324); (64326, 64433); (64467, 64829);
    (64848, 64911); (64914, 64967); (65008, 65019); (65136, 65140);
    (65142, 65276); (65296, 65305); (65313, 65338); (65345, 65370);
    (65382, 65470); (65474, 65479); (65482, 65487); (65490, 65495);
    (65498, 65500); (65536, 65547); (65549, 65574); (65576, 65594);
    (65596, 65597); (65599, 65613); (65616, 65629); (65664, 65786);
    (65799, 65843); (65856, 65912); (65930, 65931); (66176, 66204);
    (66208, 66256); (66273, 66299); (66304, 66339); (66349, 66378);
    (66384, 66421); (66432, 66461); (66464, 66499); (66504, 66511);
    (66513, 66517); (66560, 66717); (66720, 66729); (66736, 66771);
    (66776, 66811); (66816, 66855); (66864, 66915); (66928, 66938);
    (66940, 66954); (66956, 66962); (66964, 66965); (66967, 66977);
    (66979, 66993); (66995, 67001); (67003, 67004); (67072, 67382);
    (67392, 67413); (67424, 67431); (67456, 67461); (67463, 67504);
    (67506, 67514); (67584, 67589); (67592, 67592); (67594, 67637);
    (67639, 67640); (67644, 67644); (67647, 67669); (67672, 67702);
    (67705, 67742); (67751, 67759); (67808, 67826); (67828, 67829);
    (67835, 67867); (67872, 67897); (67968, 68023); (68028, 68047);
    (68050, 68096); (68112, 68115); (68117, 68119); (68121, 68149);
    (68160, 68168); (68192, 68222); (68224, 68255); (68288, 68295);
    (68297, 68324); (68331, 68335); (68352, 68405); (68416, 68437);
    (68440, 68466); (68472, 68497); (68521, 68527); (68608, 68680);
    (68736, 68786); (68800, 68850); (68858, 68899); (68912, 68921);
    (69216, 69246); (69248, 69289); (69296, 69297); (69376, 69415);
    (69424, 69445); (69457, 69460); (69488, 69505); (69552, 69579);
    (69600, 69622); (69635, 69687); (69714, 69743); (69745, 69746);
    (69749, 69749); (69763, 69807); (69840, 69864); (69872, 69881);
    (69891, 69926); (69942, 69951); (69956, 69956); (69959, 69959);
    (69968, 70002); (70006, 70006); (70019, 70066); (70081, 70084);
    (70096, 70106); (70108, 70108); (70113, 70132); (70144, 70161);
    (70163, 70187); (70272, 70278); (70280, 70280); (70282, 70285);
    (70287, 70301); (70303, 70312); (70320, 70366); (70384, 70393);
    (70405, 70412); (70415, 70416); (70419, 70440); (70442, 70448);
    (70450, 70451); (70453, 70457); (70461, 70461); (70480, 70480);
    (70493, 70497); (70656, 70708); (70727, 70730); (70736, 70745);
    (70751, 70753); (70784, 70831); (70852, 70853); (70855, 70855);
    (70864, 70873); (71040, 71086); (71128, 71131); (71168, 71215);
    (71236, 71236); (71248, 71257); (71296, 71338); (71352, 71352);
    (71360, 71369); (71424, 71450); (71472, 71483); (71488, 71494);
    (71680, 71723); (71840, 71922); (71935, 71942); (71945, 71945);
    (71948, 71955); (71957, 71958); (71960, 71983); (71999, 71999);
    (72001, 72001); (72016, 72025); (72096, 72103); (72106, 72144);
    (72161, 72161); (72163, 72163); (72192, 72192); (72203, 72242);
    (72250, 72250); (72272, 72272); (72284, 72329); (72349, 72349);
    (72368, 72440); (72704, 72712); (72714, 72750); (72768, 72768);
    (72784, 72812); (72818, 72847); (72960, 72966); (72968, 72969);
    (72971, 73008); (73030, 73030); (73040, 73049); (73056, 73061);
    (73063, 73064); (73066, 73097); (73112, 73112); (73120, 73129);
    (73440, 73458); (73648, 73648); (73664, 73684); (73728, 74649);
    (74752, 74862); (74880, 75075); (77712, 77808); (77824, 78894);
    (82944, 83526); (92160, 92728); (92736, 92766); (92768, 92777);
    (92784, 92862); (92864, 92873); (92880, 92909); (92928, 92975);
    (92992, 92995); (93008, 93017); (93019, 93025); (93027, 93047);
    (93053, 93071); (93760, 93846); (93952, 94026); (94032, 94032);
    (94099, 94111); (94176, 94177); (94179, 94179); (94208, 100343);
    (100352, 101589); (101632, 101640); (110576, 110579); (110581, 110587);
    (110589, 110590); (110592, 110882); (110928, 110930); (110948, 110951);
    (110960, 111355); (113664, 113770); (113776, 113788); (113792, 113800);
    (113808, 113817); (119520, 119539); (119648, 119672); (119808, 119892);
    (119894, 119964); (119966, 119967); (119970, 119970); (119973, 119974);
    (119977, 119980); (119982, 119993); (119995, 119995); (119997, 120003);
    (120005, 120069); (120071, 120074); (120077, 120084); (120086, 120092);
    (120094, 120121); (120123, 120126); (120128, 120132); (120134, 120134);
    (120138, 120144); (120146, 120485); (120488, 120512); (120514, 120538);
    (120540, 120570); (120572, 120596); (120598, 120628); (120630, 120654);
    (120656, 120686); (120688, 120712); (120714, 120744); (120746, 120770);
    (120772, 120779); (120782, 120831); (122624, 122654); (123136, 123180);
    (123191, 123197); (123200, 123209); (123214, 123214); (123536, 123565);
    (123584, 123627); (123632, 123641); (124896, 124902); (124904, 124907);
    (124909, 124910); (124912, 124926); (124928, 125124); (125127, 125135);
    (125184, 125251); (125259, 125259); (125264, 125273); (126065, 126123);
    (126125, 126127); (126129, 126132); (126209, 126253); (126255, 126269);
    (126464, 126467); (126469, 126495); (126497, 126498); (126500, 126500);
    (126503, 126503); (126505, 126514); (126516, 126519); (126521, 126521);
    (126523, 126523); (126530, 126530); (126535, 126535); (126537, 126537);
    (126539, 126539); (126541, 126543); (126545, 126546); (126548, 126548);
    (126551, 126551); (126553, 126553); (126555, 126555); (126557, 126557);
    (126559, 126559); (126561, 126562); (126564, 126564); (126567, 126570);
    (126572, 126578); (126580, 126583); (126585, 126588); (126590, 126590);
    (126592, 126601); (126603, 126619); (126625, 126627); (126629, 126633);
    (126635, 126651); (127232, 127244); (130032, 130041); (131072, 173791);
    (173824, 177976); (177984, 178205); (178208, 183969); (183984, 191456);
    (194560, 195101); (196608, 201546) ]%N.

Definition alnum_index : table := Eval vm_compute in index alnum_ranges.

Definition is_alnum (c : char) : bool := in_table c alnum_index.

(** [str.isdecimal], the class [\d]: the decimal digits of every script, each
    interval a multiple of ten digits from a zero on. *)
Definition digit_ranges : list (N * N) :=
  [ (48, 57); (1632, 1641); (1776, 1785); (1984, 1993); (2406, 2415);
    (2534, 2543); (2662, 2671); (2790, 2799); (2918, 2927); (3046, 3055);
    (3174, 3183); (3302, 3311); (3430, 3439); (3558, 3567); (3664, 3673);
    (3792, 3801); (3872, 3881); (4160, 4169); (4240, 4249); (6112, 6121);
    (6160, 6169); (6470, 6479); (6608, 6617); (6784, 6793); (6800, 6809);
    (6992, 7001); (7088, 7097); (7232, 7241); (7248, 7257); (42528, 42537);
    (43216, 43225); (43264, 43273); (43472, 43481); (43504, 43513);
    (43600, 43609); (44016, 44025); (65296, 65305); (66720, 66729);
    (68912, 68921); (69734, 69743); (69872, 69881); (69942, 69951);
    (70096, 70105); (70384, 70393); (70736, 70745); (70864, 70873);
    (71248, 71257); (71360, 71369); (71472, 71481); (71904, 71913);
    (72016, 72025); (72784, 72793); (73040, 73049); (73120, 73129);
    (92768, 92777); (92864, 92873); (93008, 93017); (120782, 120831);
    (123200, 123209); (123632, 123641); (125264, 125273); (130032, 130041) ]%N.

Definition is_digit (c : char) : bool := in_ranges c digit_ranges.

(** The class [\w]: alphanumeric or underscore. *)
Definition is_word (c : char) : bool := is_alnum c || (c =? ch "_")%N.

(** [str.isspace]: the class [\s], also what [str.strip] removes. *)
Definition space_ranges : list (N * N) :=
  [ (9, 13); (28, 32); (133, 133); (160, 160); (5760, 5760); (8192, 8202);
    (8232, 8233); (8239, 8239); (8287, 8287); (12288, 12288) ]%N.

Definition is_space (c : char) : bool := in_ranges c space_ranges.

(** The simple lower-case mapping, for the code points it moves. *)
Definition lower_table : list (N * N) :=
  [ (65, 97); (66, 98); (67, 99); (68, 100); (69, 101); (70, 102); (71, 103);
    (72, 104); (73, 105); (74, 106); (75, 107); (76, 108); (77, 109);
    (78, 110); (79, 111); (80, 112); (81, 113); (82, 114); (83, 115);
    (84, 116); (85, 117); (86, 118); (87, 119); (88, 120); (89, 121);
    (90, 122); (192, 224); (193, 225); (194, 226); (195, 227); (196, 228);
    (197, 229); (198, 230); (199, 231); (200, 232); (201, 233); (202, 234);
    (203, 235); (204, 236); (205, 237); (206, 238); (207, 239); (208, 240);
    (209, 241); (210, 242); (211, 243); (212, 244); (213, 245); (214, 246);
    (216, 248); (217, 249); (218, 250); (219, 251); (220, 252); (221, 253);
    (222, 254); (256, 257); (258, 259); (260, 261); (262, 263); (264, 265);
    (266, 267); (268, 269); (270, 271); (272, 273); (274, 275); (276, 277);
    (278, 279); (280, 281); (282, 283); (284, 285); (286, 287); (288, 289);
    (290, 291); (292, 293); (294, 295); (296, 297); (298, 299); (300, 301);
    (302, 303); (304, 105); (306, 307); (308, 309); (310, 311); (313, 314);
    (315, 316); (317, 318); (319, 320); (321, 322); (323, 324); (325, 326);
    (327, 328); (330, 331); (332, 333); (334, 335); (336, 337); (338, 339);
    (340, 341); (342, 343); (344, 345); (346, 347); (348, 349); (350, 351);
    (352, 353); (354, 355); (356, 357); (358, 359); (360, 361); (362, 363);
    (364, 365); (366, 367); (368, 369); (370, 371); (372, 373); (374, 375);
    (376, 255); (377, 378); (379, 380); (381, 382); (385, 595); (386, 387);
    (388, 389); (390, 596); (391, 392); (393, 598); (394, 599); (395, 396);
    (398, 477); (399, 601); (400, 603); (401, 402); (403, 608); (404, 611);
    (406, 617); (407, 616); (408, 409); (412, 623); (413, 626); (415, 629);
    (416, 417); (418, 419); (420, 421); (422, 640); (423, 424); (425, 643);
    (428, 429); (430, 648); (431, 432); (433, 650); (434, 651); (435, 436);
    (437, 438); (439, 658); (440, 441); (444, 445); (452, 454); (453, 454);
    (455, 457); (456, 457); (458, 460); (459, 460); (461, 462); (463, 464);
    (465, 466); (467, 468); (469, 470); (471, 472); (473, 474); (475, 476);
    (478, 479); (480, 481); (482, 483); (484, 485); (486, 487); (488, 489);
    (490, 491); (492, 493); (494, 495); (497, 499); (498, 499); (500, 501);
    (502, 405); (503, 447); (504, 505); (506, 507); (508, 509); (510, 511);
    (512, 513); (514, 515); (516, 517); (518, 519); (520, 521); (522, 523);
    (524, 525); (526, 527); (528, 529); (530, 531); (532, 533); (534, 535);
    (536, 537); (538, 539); (540, 541); (542, 543); (544, 414); (546, 547);
    (548, 549); (550, 551); (552, 553); (554, 555); (556, 557); (558, 559);
    (560, 561); (562, 563); (570, 11365); (571, 572); (573, 410);
    (574, 11366); (577, 578); (579, 384); (580, 649); (581, 652); (582, 583);
    (584, 585); (586, 587); (588, 589); (590, 591); (880, 881); (882, 883);
    (886, 887); (895, 1011); (902, 940); (904, 941); (905, 942); (906, 943);
    (908, 972); (910, 973); (911, 974); (913, 945); (914, 946); (915, 947);
    (916, 948); (917, 949); (918, 950); (919, 951); (920, 952); (921, 953);
    (922, 954); (923, 955); (924, 956); (925, 957); (926, 958); (927, 959);
    (928, 960); (929, 961); (931, 963); (932, 964); (933, 965); (934, 966);
    (935, 967); (936, 968); (937, 969); (938, 970); (939, 971); (975, 983);
    (984, 985); (986, 987); (988, 989); (990, 991); (992, 993); (994, 995);
    (996, 997); (998, 999); (1000, 1001); (1002, 1003); (1004, 1005);
    (1006, 1007); (1012, 952); (1015, 1016); (1017, 1010); (1018, 1019);
    (1021, 891); (1022, 892); (1023, 893); (1024, 1104); (1025, 1105);
    (1026, 1106); (1027, 1107); (1028, 1108); (1029, 1109); (1030, 1110);
    (1031, 1111); (1032, 1112); (1033, 1113); (1034, 1114); (1035, 1115);
    (1036, 1116); (1037, 1117); (1038, 1118); (1039, 1119); (1040, 1072);
    (1041, 1073); (1042, 1074); (1043, 1075); (1044, 1076); (1045, 1077);
    (1046, 1078); (1047, 1079); (1048, 1080); (1049, 1081); (1050, 1082);
    (1051, 1083); (1052, 1084); (1053, 1085); (1054, 1086); (1055, 1087);
    (1056, 1088); (1057, 1089); (1058, 1090); (1059, 1091); (1060, 1092);
    (1061, 1093); (1062, 1094); (1063, 1095); (1064, 1096); (1065, 1097);
    (1066, 1098); (1067, 1099); (1068, 1100); (1069, 1101); (1070, 1102);
    (1071, 1103); (1120, 1121); (1122, 1123); (1124, 1125); (1126, 1127);
    (1128, 1129); (1130, 1131); (1132, 1133); (1134, 1135); (1136, 1137);
    (1138, 1139); (1140, 1141); (1142, 1143); (1144, 1145); (1146, 1147);
    (1148, 1149); (1150, 1151); (1152, 1153); (1162, 1163); (1164, 1165);
    (1166, 1167); (1168, 1169); (1170, 1171); (1172, 1173); (1174, 1175);
    (1176, 1177); (1178, 1179); (1180, 1181); (1182, 1183); (1184, 1185);
    (1186, 1187); (1188, 1189); (1190, 1191); (1192, 1193); (1194, 1195);
    (1196, 1197); (1198, 1199); (1200, 1201); (1202, 1203); (1204, 1205);
    (1206, 1207); (1208, 1209); (1210, 1211); (1212, 1213); (1214, 1215);
    (1216, 1231); (1217, 1218); (1219, 1220); (1221, 1222); (1223, 1224);
    (1225, 1226); (1227, 1228); (1229, 1230); (1232, 1233); (1234, 1235);
    (1236, 1237); (1238, 1239); (1240, 1241); (1242, 1243); (1244, 1245);
    (1246, 1247); (1248, 1249); (1250, 1251); (1252, 1253); (1254, 1255);
    (1256, 1257); (1258, 1259); (1260, 1261); (1262, 1263); (1264, 1265);
    (1266, 1267); (1268, 1269); (1270, 1271); (1272, 1273); (1274, 1275);
    (1276, 1277); (1278, 1279); (1280, 1281); (1282, 1283); (1284, 1285);
    (1286, 1287); (1288, 1289); (1290, 1291); (1292, 1293); (1294, 1295);
    (1296, 1297); (1298, 1299); (1300, 1301); (1302, 1303); (1304, 1305);
    (1306, 1307); (1308, 1309); (1310, 1311); (1312, 1313); (1314, 1315);
    (1316, 1317); (1318, 1319); (1320, 1321); (1322, 1323); (1324, 1325);
    (1326, 1327); (1329, 1377); (1330, 1378); (1331, 1379); (1332, 1380);
    (1333, 1381); (1334, 1382); (1335, 1383); (1336, 1384); (1337, 1385);
    (1338, 1386); (1339, 1387); (1340, 1388); (1341, 1389); (1342, 1390);
    (1343, 1391); (1344, 1392); (1345, 1393); (1346, 1394); (1347, 1395);
    (1348, 1396); (1349, 1397); (1350, 1398); (1351, 1399); (1352, 1400);
    (1353, 1401); (1354, 1402); (1355, 1403); (1356, 1404); (1357, 1405);
    (1358, 1406); (1359, 1407); (1360, 1408); (1361, 1409); (1362, 1410);
    (1363, 1411); (1364, 1412); (1365, 1413); (1366, 1414); (4256, 11520);
    (4257, 11521); (4258, 11522); (4259, 11523); (4260, 11524); (4261, 11525);
    (4262, 11526); (4263, 11527); (4264, 11528); (4265, 11529); (4266, 11530);
    (4267, 11531); (4268, 11532); (4269, 11533); (4270, 11534); (4271, 11535);
    (4272, 11536); (4273, 11537); (4274, 11538); (4275, 11539); (4276, 11540);
    (4277, 11541); (4278, 11542); (4279, 11543); (4280, 11544); (4281, 11545);
    (4282, 11546); (4283, 11547); (4284, 11548); (4285, 11549); (4286, 11550);
    (4287, 11551); (4288, 11552); (4289, 11553); (4290, 11554); (4291, 11555);
    (4292, 11556); (4293, 11557); (4295, 11559); (4301, 11565); (5024, 43888);
    (5025, 43889); (5026, 43890); (5027, 43891); (5028, 43892); (5029, 43893);
    (5030, 43894); (5031, 43895); (5032, 43896); (5033, 43897); (5034, 43898);
    (5035, 43899); (5036, 43900); (5037, 43901); (5038, 43902); (5039, 43903);
    (5040, 43904); (5041, 43905); (5042, 43906); (5043, 43907); (5044, 43908);
    (5045, 43909); (5046, 43910); (5047, 43911); (5048, 43912); (5049, 43913);
    (5050, 43914); (5051, 43915); (5052, 43916); (5053, 43917); (5054, 43918);
    (5055, 43919); (5056, 43920); (5057, 43921); (5058, 43922); (5059, 43923);
    (5060, 43924); (5061, 43925); (5062, 43926); (5063, 43927); (5064, 43928);
    (5065, 43929); (5066, 43930); (5067, 43931); (5068, 43932); (5069, 43933);
    (5070, 43934); (5071, 43935); (5072, 43936); (5073, 43937); (5074, 43938);
    (5075, 43939); (5076, 43940); (5077, 43941); (5078, 43942); (5079, 43943);
    (5080, 43944); (5081, 43945); (5082, 43946); (5083, 43947); (5084, 43948);
    (5085, 43949); (5086, 43950); (5087, 43951); (5088, 43952); (5089, 43953);
    (5090, 43954); (5091, 43955); (5092, 43956); (5093, 43957); (5094, 43958);
    (5095, 43959); (5096, 43960); (5097, 43961); (5098, 43962); (5099, 43963);
    (5100, 43964); (5101, 43965); (5102, 43966); (5103, 43967); (5104, 5112);
    (5105, 5113); (5106, 5114); (5107, 5115); (5108, 5116); (5109, 5117);
    (7312, 4304); (7313, 4305); (7314, 4306); (7315, 4307); (7316, 4308);
    (7317, 4309); (7318, 4310); (7319, 4311); (7320, 4312); (7321, 4313);
    (7322, 4314); (7323, 4315); (7324, 4316); (7325, 4317); (7326, 4318);
    (7327, 4319); (7328, 4320); (7329, 4321); (7330, 4322); (7331, 4323);
    (7332, 4324); (7333, 4325); (7334, 4326); (7335, 4327); (7336, 4328);
    (7337, 4329); (7338, 4330); (7339, 4331); (7340, 4332); (7341, 4333);
    (7342, 4334); (7343, 4335); (7344, 4336); (7345, 4337); (7346, 4338);
    (7347, 4339); (7348, 4340); (7349, 4341); (7350, 4342); (7351, 4343);
    (7352, 4344); (7353, 4345); (7354, 4346); (7357, 4349); (7358, 4350);
    (7359, 4351); (7680, 7681); (7682, 7683); (7684, 7685); (7686, 7687);
    (7688, 7689); (7690, 7691); (7692, 7693); (7694, 7695); (7696, 7697);
    (7698, 7699); (7700, 7701); (7702, 7703); (7704, 7705); (7706, 7707);
    (7708, 7709); (7710, 7711); (7712, 7713); (7714, 7715); (7716, 7717);
    (7718, 7719); (7720, 7721); (7722, 7723); (7724, 7725); (7726, 7727);
    (7728, 7729); (7730, 7731); (7732, 7733); (7734, 7735); (7736, 7737);
    (7738, 7739); (7740, 7741); (7742, 7743); (7744, 7745); (7746, 7747);
    (7748, 7749); (7750, 7751); (7752, 7753); (7754, 7755); (7756, 7757);
    (7758, 7759); (7760, 7761); (7762, 7763); (7764, 7765); (7766, 7767);
    (7768, 7769); (7770, 7771); (7772, 7773); (7774, 7775); (7776, 7777);
    (7778, 7779); (7780, 7781); (7782, 7783); (7784, 7785); (7786, 7787);
    (7788, 7789); (7790, 7791); (7792, 7793); (7794, 7795); (7796, 7797);
    (7798, 7799); (7800, 7801); (7802, 7803); (7804, 7805); (7806, 7807);
    (7808, 7809); (7810, 7811); (7812, 7813); (7814, 7815); (7816, 7817);
    (7818, 7819); (7820, 7821); (7822, 7823); (7824, 7825); (7826, 7827);
    (7828, 7829); (7838, 223); (7840, 7841); (7842, 7843); (7844, 7845);
    (7846, 7847); (7848, 7849); (7850, 7851); (7852, 7853); (7854, 7855);
    (7856, 7857); (7858, 7859); (7860, 7861); (7862, 7863); (7864, 7865);
    (7866, 7867); (7868, 7869); (7870, 7871); (7872, 7873); (7874, 7875);
    (7876, 7877); (7878, 7879); (7880, 7881); (7882, 7883); (7884, 7885);
    (7886, 7887); (7888, 7889); (7890, 7891); (7892, 7893); (7894, 7895);
    (7896, 7897); (7898, 7899); (7900, 7901); (7902, 7903); (7904, 7905);
    (7906, 7907); (7908, 7909); (7910, 7911); (7912, 7913); (7914, 7915);
    (7916, 7917); (7918, 7919); (7920, 7921); (7922, 7923); (7924, 7925);
    (7926, 7927); (7928, 7929); (7930, 7931); (7932, 7933); (7934, 7935);
    (7944, 7936); (7945, 7937); (7946, 7938); (7947, 7939); (7948, 7940);
    (7949, 7941); (7950, 7942); (7951, 7943); (7960, 7952); (7961, 7953);
    (7962, 7954); (7963, 7955); (7964, 7956); (7965, 7957); (7976, 7968);
    (7977, 7969); (7978, 7970); (7979, 7971); (7980, 7972); (7981, 7973);
    (7982, 7974); (7983, 7975); (7992, 7984); (7993, 7985); (7994, 7986);
    (7995, 7987); (7996, 7988); (7997, 7989); (7998, 7990); (7999, 7991);
    (8008, 8000); (8009, 8001); (8010, 8002); (8011, 8003); (8012, 8004);
    (8013, 8005); (8025, 8017); (8027, 8019); (8029, 8021); (8031, 8023);
    (8040, 8032); (8041, 8033); (8042, 8034); (8043, 8035); (8044, 8036);
    (8045, 8037); (8046, 8038); (8047, 8039); (8072, 8064); (8073, 8065);
    (8074, 8066); (8075, 8067); (8076, 8068); (8077, 8069); (8078, 8070);
    (8079, 8071); (8088, 8080); (8089, 8081); (8090, 8082); (8091, 8083);
    (8092, 8084); (8093, 8085); (8094, 8086); (8095, 8087); (8104, 8096);
    (8105, 8097); (8106, 8098); (8107, 8099); (8108, 8100); (8109, 8101);
    (8110, 8102); (8111, 8103); (8120, 8112); (8121, 8113); (8122, 8048);
    (8123, 8049); (8124, 8115); (8136, 8050); (8137, 8051); (8138, 8052);
    (8139, 8053); (8140, 8131); (8152, 8144); (8153, 8145); (8154, 8054);
    (8155, 8055); (8168, 8160); (8169, 8161); (8170, 8058); (8171, 8059);
    (8172, 8165); (8184, 8056); (8185, 8057); (8186, 8060); (8187, 8061);
    (8188, 8179); (8486, 969); (8490, 107); (8491, 229); (8498, 8526);
    (8544, 8560); (8545, 8561); (8546, 8562); (8547, 8563); (8548, 8564);
    (8549, 8565); (8550, 8566); (8551, 8567); (8552, 8568); (8553, 8569);
    (8554, 8570); (8555, 8571); (8556, 8572); (8557, 8573); (8558, 8574);
    (8559, 8575); (8579, 8580); (9398, 9424); (9399, 9425); (9400, 9426);
    (9401, 9427); (9402, 9428); (9403, 9429); (9404, 9430); (9405, 9431);
    (9406, 9432); (9407, 9433); (9408, 9434); (9409, 9435); (9410, 9436);
    (9411, 9437); (9412, 9438); (9413, 9439); (9414, 9440); (9415, 9441);
    (9416, 9442); (9417, 9443); (9418, 9444); (9419, 9445); (9420, 9446);
    (9421, 9447); (9422, 9448); (9423, 9449); (11264, 11312); (11265, 11313);
    (11266, 11314); (11267, 11315); (11268, 11316); (11269, 11317);
    (11270, 11318); (11271, 11319); (11272, 11320); (11273, 11321);
    (11274, 11322); (11275, 11323); (11276, 11324); (11277, 11325);
    (11278, 11326); (11279, 11327); (11280, 11328); (11281, 11329);
    (11282, 11330); (11283, 11331); (11284, 11332); (11285, 11333);
    (11286, 11334); (11287, 11335); (11288, 11336); (11289, 11337);
    (11290, 11338); (11291, 11339); (11292, 11340); (11293, 11341);
    (11294, 11342); (11295, 11343); (11296, 11344); (11297, 11345);
    (11298, 11346); (11299, 11347); (11300, 11348); (11301, 11349);
    (11302, 11350); (11303, 11351); (11304, 11352); (11305, 11353);
    (11306, 11354); (11307, 11355); (11308, 11356); (11309, 11357);
    (11310, 11358); (11311, 11359); (11360, 11361); (11362, 619);
    (11363, 7549); (11364, 637); (11367, 11368); (11369, 11370);
    (11371, 11372); (11373, 593); (11374, 625); (11375, 592); (11376, 594);
    (11378, 11379); (11381, 11382); (11390, 575); (11391, 576);
    (11392, 11393); (11394, 11395); (11396, 11397); (11398, 11399);
    (11400, 11401); (11402, 11403); (11404, 11405); (11406, 11407);
    (11408, 11409); (11410, 11411); (11412, 11413); (11414, 11415);
    (11416, 11417); (11418, 11419); (11420, 11421); (11422, 11423);
    (11424, 11425); (11426, 11427); (11428, 11429); (11430, 11431);
    (11432, 11433); (11434, 11435); (11436, 11437); (11438, 11439);
    (11440, 11441); (11442, 11443); (11444, 11445); (11446, 11447);
    (11448, 11449); (11450, 11451); (11452, 11453); (11454, 11455);
    (11456, 11457); (11458, 11459); (11460, 11461); (11462, 11463);
    (11464, 11465); (11466, 11467); (11468, 11469); (11470, 11471);
    (11472, 11473); (11474, 11475); (11476, 11477); (11478, 11479);
    (11480, 11481); (11482, 11483); (11484, 11485); (11486, 11487);
    (11488, 11489); (11490, 11491); (11499, 11500); (11501, 11502);
    (11506, 11507); (42560, 42561); (42562, 42563); (42564, 42565);
    (42566, 42567); (42568, 42569); (42570, 42571); (42572, 42573);
    (42574, 42575); (42576, 42577); (42578, 42579); (42580, 42581);
    (42582, 42583); (42584, 42585); (42586, 42587); (42588, 42589);
    (42590, 42591); (42592, 42593); (42594, 42595); (42596, 42597);
    (42598, 42599); (42600, 42601); (42602, 42603); (42604, 42605);
    (42624, 42625); (42626, 42627); (42628, 42629); (42630, 42631);
    (42632, 42633); (42634, 42635); (42636, 42637); (42638, 42639);
    (42640, 42641); (42642, 42643); (42644, 42645); (42646, 42647);
    (42648, 42649); (42650, 42651); (42786, 42787); (42788, 42789);
    (42790, 42791); (42792, 42793); (42794, 42795); (42796, 42797);
    (42798, 42799); (42802, 42803); (42804, 42805); (42806, 42807);
    (42808, 42809); (42810, 42811); (42812, 42813); (42814, 42815);
    (42816, 42817); (42818, 42819); (42820, 42821); (42822, 42823);
    (42824, 42825); (42826, 42827); (42828, 42829); (42830, 42831);
    (42832, 42833); (42834, 42835); (42836, 42837); (42838, 42839);
    (42840, 42841); (42842, 42843); (42844, 42845); (42846, 42847);
    (42848, 42849); (42850, 42851); (42852, 42853); (42854, 42855);
    (42856, 42857); (42858, 42859); (42860, 42861); (42862, 42863);
    (42873, 42874); (42875, 42876); (42877, 7545); (42878, 42879);
    (42880, 42881); (42882, 42883); (42884, 42885); (42886, 42887);
    (42891, 42892); (42893, 613); (42896, 42897); (42898, 42899);
    (42902, 42903); (42904, 42905); (42906, 42907); (42908, 42909);
    (42910, 42911); (42912, 42913); (42914, 42915); (42916, 42917);
    (42918, 42919); (42920, 42921); (42922, 614); (42923, 604); (42924, 609);
    (42925, 620); (42926, 618); (42928, 670); (42929, 647); (42930, 669);
    (42931, 43859); (42932, 42933); (42934, 42935); (42936, 42937);
    (42938, 42939); (42940, 42941); (42942, 42943); (42944, 42945);
    (42946, 42947); (42948, 42900); (42949, 642); (42950, 7566);
    (42951, 42952); (42953, 42954); (42960, 42961); (42966, 42967);
    (42968, 42969); (42997, 42998); (65313, 65345); (65314, 65346);
    (65315, 65347); (65316, 65348); (65317, 65349); (65318, 65350);
    (65319, 65351); (65320, 65352); (65321, 65353); (65322, 65354);
    (65323, 65355); (65324, 65356); (65325, 65357); (65326, 65358);
    (65327, 65359); (65328, 65360); (65329, 65361); (65330, 65362);
    (65331, 65363); (65332, 65364); (65333, 65365); (65334, 65366);
    (65335, 65367); (65336, 65368); (65337, 65369); (65338, 65370);
    (66560, 66600); (66561, 66601); (66562, 66602); (66563, 66603);
    (66564, 66604); (66565, 66605); (66566, 66606); (66567, 66607);
    (66568, 66608); (66569, 66609); (66570, 66610); (66571, 66611);
    (66572, 66612); (66573, 66613); (66574, 66614); (66575, 66615);
    (66576, 66616); (66577, 66617); (66578, 66618); (66579, 66619);
    (66580, 66620); (66581, 66621); (66582, 66622); (66583, 66623);
    (66584, 66624); (66585, 66625); (66586, 66626); (66587, 66627);
    (66588, 66628); (66589, 66629); (66590, 66630); (66591, 66631);
    (66592, 66632); (66593, 66633); (66594, 66634); (66595, 66635);
    (66596, 66636); (66597, 66637); (66598, 66638); (66599, 66639);
    (66736, 66776); (66737, 66777); (66738, 66778); (66739, 66779);
    (66740, 66780); (66741, 66781); (66742, 66782); (66743, 66783);
    (66744, 66784); (66745, 66785); (66746, 66786); (66747, 66787);
    (66748, 66788); (66749, 66789); (66750, 66790); (66751, 66791);
    (66752, 66792); (66753, 66793); (66754, 66794); (66755, 66795);
    (66756, 66796); (66757, 66797); (66758, 66798); (66759, 66799);
    (66760, 66800); (66761, 66801); (66762, 66802); (66763, 66803);
    (66764, 66804); (66765, 66805); (66766, 66806); (66767, 66807);
    (66768, 66808); (66769, 66809); (66770, 66810); (66771, 66811);
    (66928, 66967); (66929, 66968); (66930, 66969); (66931, 66970);
    (66932, 66971); (66933, 66972); (66934, 66973); (66935, 66974);
    (66936, 66975); (66937, 66976); (66938, 66977); (66940, 66979);
    (66941, 66980); (66942, 66981); (66943, 66982); (66944, 66983);
    (66945, 66984); (66946, 66985); (66947, 66986); (66948, 66987);
    (66949, 66988); (66950, 66989); (66951, 66990); (66952, 66991);
    (66953, 66992); (66954, 66993); (66956, 66995); (66957, 66996);
    (66958, 66997); (66959, 66998); (66960, 66999); (66961, 67000);
    (66962, 67001); (66964, 67003); (66965, 67004); (68736, 68800);
    (68737, 68801); (68738, 68802); (68739, 68803); (68740, 68804);
    (68741, 68805); (68742, 68806); (68743, 68807); (68744, 68808);
    (68745, 68809); (68746, 68810); (68747, 68811); (68748, 68812);
    (68749, 68813); (68750, 68814); (68751, 68815); (68752, 68816);
    (68753, 68817); (68754, 68818); (68755, 68819); (68756, 68820);
    (68757, 68821); (68758, 68822); (68759, 68823); (68760, 68824);
    (68761, 68825); (68762, 68826); (68763, 68827); (68764, 68828);
    (68765, 68829); (68766, 68830); (68767, 68831); (68768, 68832);
    (68769, 68833); (68770, 68834); (68771, 68835); (68772, 68836);
    (68773, 68837); (68774, 68838); (68775, 68839); (68776, 68840);
    (68777, 68841); (68778, 68842); (68779, 68843); (68780, 68844);
    (68781, 68845); (68782, 68846); (68783, 68847); (68784, 68848);
    (68785, 68849); (68786, 68850); (71840, 71872); (71841, 71873);
    (71842, 71874); (71843, 71875); (71844, 71876); (71845, 71877);
    (71846, 71878); (71847, 71879); (71848, 71880); (71849, 71881);
    (71850, 71882); (71851, 71883); (71852, 71884); (71853, 71885);
    (71854, 71886); (71855, 71887); (71856, 71888); (71857, 71889);
    (71858, 71890); (71859, 71891); (71860, 71892); (71861, 71893);
    (71862, 71894); (71863, 71895); (71864, 71896); (71865, 71897);
    (71866, 71898); (71867, 71899); (71868, 71900); (71869, 71901);
    (71870, 71902); (71871, 71903); (93760, 93792); (93761, 93793);
    (93762, 93794); (93763, 93795); (93764, 93796); (93765, 93797);
    (93766, 93798); (93767, 93799); (93768, 93800); (93769, 93801);
    (93770, 93802); (93771, 93803); (93772, 93804); (93773, 93805);
    (93774, 93806); (93775, 93807); (93776, 93808); (93777, 93809);
    (93778, 93810); (93779, 93811); (93780, 93812); (93781, 93813);
    (93782, 93814); (93783, 93815); (93784, 93816); (93785, 93817);
    (93786, 93818); (93787, 93819); (93788, 93820); (93789, 93821);
    (93790, 93822); (93791, 93823); (125184, 125218); (125185, 125219);
    (125186, 125220); (125187, 125221); (125188, 125222); (125189, 125223);
    (125190, 125224); (125191, 125225); (125192, 125226); (125193, 125227);
    (125194, 125228); (125195, 125229); (125196, 125230); (125197, 125231);
    (125198, 125232); (125199, 125233); (125200, 125234); (125201, 125235);
    (125202, 125236); (125203, 125237); (125204, 125238); (125205, 125239);
    (125206, 125240); (125207, 125241); (125208, 125242); (125209, 125243);
    (125210, 125244); (125211, 125245); (125212, 125246); (125213, 125247);
    (125214, 125248); (125215, 125249); (125216, 125250); (125217, 125251) ]%N.

Definition lower_index : table := Eval vm_compute in index lower_table.

(** The lower-case letter of one code point, as [re.IGNORECASE] uses it. *)
Definition unicode_tolower (c : char) : char :=
  match table_find c lower_index with
  | Some l => l
  | None => c
  end.

(** The full lower-case mapping of one code point: the capital I with a dot
    becomes an i and a combining dot. *)
Definition lower_char (c : char) : str :=
  if (c =? 304)%N then [105; 775]%N else [unicode_tolower c].

(** The property Cased: upper-case, lower-case and title-case letters. *)
Definition cased_ranges : list (N * N) :=
  [ (65, 90); (97, 122); (170, 170); (181, 181); (186, 186); (192, 214);
    (216, 246); (248, 442); (444, 447); (452, 659); (661, 696); (704, 705);
    (736, 740); (837, 837); (880, 883); (886, 887); (890, 893); (895, 895);
    (902, 902); (904, 906); (908, 908); (910, 929); (931, 1013); (1015, 1153);
    (1162, 1327); (1329, 1366); (1376, 1416); (4256, 4293); (4295, 4295);
    (4301, 4301); (4304, 4346); (4349, 4351); (5024, 5109); (5112, 5117);
    (7296, 7304); (7312, 7354); (7357, 7359); (7424, 7615); (7680, 7957);
    (7960, 7965); (7968, 8005); (8008, 8013); (8016, 8023); (8025, 8025);
    (8027, 8027); (8029, 8029); (8031, 8061); (8064, 8116); (8118, 8124);
    (8126, 8126); (8130, 8132); (8134, 8140); (8144, 8147); (8150, 8155);
    (8160, 8172); (8178, 8180); (8182, 8188); (8305, 8305); (8319, 8319);
    (8336, 8348); (8450, 8450); (8455, 8455); (8458, 8467); (8469, 8469);
    (8473, 8477); (8484, 8484); (8486, 8486); (8488, 8488); (8490, 8493);
    (8495, 8500); (8505, 8505); (8508, 8511); (8517, 8521); (8526, 8526);
    (8544, 8575); (8579, 8580); (9398, 9449); (11264, 11492); (11499, 11502);
    (11506, 11507); (11520, 11557); (11559, 11559); (11565, 11565);
    (42560, 42605); (42624, 42653); (42786, 42887); (42891, 42894);
    (42896, 42954); (42960, 42961); (42963, 42963); (42965, 42969);
    (42997, 42998); (43000, 43002); (43824, 43866); (43868, 43880);
    (43888, 43967); (64256, 64262); (64275, 64279); (65313, 65338);
    (65345, 65370); (66560, 66639); (66736, 66771); (66776, 66811);
    (66928, 66938); (66940, 66954); (66956, 66962); (66964, 66965);
    (66967, 66977); (66979, 66993); (66995, 67001); (67003, 67004);
    (67456, 67456); (67459, 67461); (67463, 67504); (67506, 67514);
    (68736, 68786); (68800, 68850); (71840, 71903); (93760, 93823);
    (119808, 119892); (119894, 119964); (119966, 119967); (119970, 119970);
    (119973, 119974); (119977, 119980); (119982, 119993); (119995, 119995);
    (119997, 120003); (120005, 120069); (120071, 120074); (120077, 120084);
    (120086, 120092); (120094, 120121); (120123, 120126); (120128, 120132);
    (120134, 120134); (120138, 120144); (120146, 120485); (120488, 120512);
    (120514, 120538); (120540, 120570); (120572, 120596); (120598, 120628);
    (120630, 120654); (120656, 120686); (120688, 120712); (120714, 120744);
    (120746, 120770); (120772, 120779); (122624, 122633); (122635, 122654);
    (125184, 125251); (127280, 127305); (127312, 127337); (127344, 127369) ]%N.

Definition cased_index : table := Eval vm_compute in index cased_ranges.

Definition is_cased (c : char) : bool := in_table c cased_index.

(** The property Case_Ignorable: marks, modifier letters and signs and some
    punctuation, which the final-sigma rule skips. *)
Definition case_ignorable_ranges : list (N * N) :=
  [ (39, 39); (46, 46); (58, 58); (94, 94); (96, 96); (168, 168); (173, 173);
    (175, 175); (180, 180); (183, 184); (688, 879); (884, 885); (890, 890);
    (900, 901); (903, 903); (1155, 1161); (1369, 1369); (1375, 1375);
    (1425, 1469); (1471, 1471); (1473, 1474); (1476, 1477); (1479, 1479);
    (1524, 1524); (1536, 1541); (1552, 1562); (1564, 1564); (1600, 1600);
    (1611, 1631); (1648, 1648); (1750, 1757); (1759, 1768); (1770, 1773);
    (1807, 1807); (1809, 1809); (1840, 1866); (1958, 1968); (2027, 2037);
    (2042, 2042); (2045, 2045); (2070, 2093); (2137, 2139); (2184, 2184);
    (2192, 2193); (2200, 2207); (2249, 2306); (2362, 2362); (2364, 2364);
    (2369, 2376); (2381, 2381); (2385, 2391); (2402, 2403); (2417, 2417);
    (2433, 2433); (2492, 2492); (2497, 2500); (2509, 2509); (2530, 2531);
    (2558, 2558); (2561, 2562); (2620, 2620); (2625, 2626); (2631, 2632);
    (2635, 2637); (2641, 2641); (2672, 2673); (2677, 2677); (2689, 2690);
    (2748, 2748); (2753, 2757); (2759, 2760); (2765, 2765); (2786, 2787);
    (2810, 2815); (2817, 2817); (2876, 2876); (2879, 2879); (2881, 2884);
    (2893, 2893); (2901, 2902); (2914, 2915); (2946, 2946); (3008, 3008);
    (3021, 3021); (3072, 3072); (3076, 3076); (3132, 3132); (3134, 3136);
    (3142, 3144); (3146, 3149); (3157, 3158); (3170, 3171); (3201, 3201);
    (3260, 3260); (3263, 3263); (3270, 3270); (3276, 3277); (3298, 3299);
    (3328, 3329); (3387, 3388); (3393, 3396); (3405, 3405); (3426, 3427);
    (3457, 3457); (3530, 3530); (3538, 3540); (3542, 3542); (3633, 3633);
    (3636, 3642); (3654, 3662); (3761, 3761); (3764, 3772); (3782, 3782);
    (3784, 3789); (3864, 3865); (3893, 3893); (3895, 3895); (3897, 3897);
    (3953, 3966); (3968, 3972); (3974, 3975); (3981, 3991); (3993, 4028);
    (4038, 4038); (4141, 4144); (4146, 4151); (4153, 4154); (4157, 4158);
    (4184, 4185); (4190, 4192); (4209, 4212); (4226, 4226); (4229, 4230);
    (4237, 4237); (4253, 4253); (4348, 4348); (4957, 4959); (5906, 5908);
    (5938, 5939); (5970, 5971); (6002, 6003); (6068, 6069); (6071, 6077);
    (6086, 6086); (6089, 6099); (6103, 6103); (6109, 6109); (6155, 6159);
    (6211, 6211); (6277, 6278); (6313, 6313); (6432, 6434); (6439, 6440);
    (6450, 6450); (6457, 6459); (6679, 6680); (6683, 6683); (6742, 6742);
    (6744, 6750); (6752, 6752); (6754, 6754); (6757, 6764); (6771, 6780);
    (6783, 6783); (6823, 6823); (6832, 6862); (6912, 6915); (6964, 6964);
    (6966, 6970); (6972, 6972); (6978, 6978); (7019, 7027); (7040, 7041);
    (7074, 7077); (7080, 7081); (7083, 7085); (7142, 7142); (7144, 7145);
    (7149, 7149); (7151, 7153); (7212, 7219); (7222, 7223); (7288, 7293);
    (7376, 7378); (7380, 7392); (7394, 7400); (7405, 7405); (7412, 7412);
    (7416, 7417); (7468, 7530); (7544, 7544); (7579, 7679); (8125, 8125);
    (8127, 8129); (8141, 8143); (8157, 8159); (8173, 8175); (8189, 8190);
    (8203, 8207); (8216, 8217); (8228, 8228); (8231, 8231); (8234, 8238);
    (8288, 8292); (8294, 8303); (8305, 8305); (8319, 8319); (8336, 8348);
    (8400, 8432); (11388, 11389); (11503, 11505); (11631, 11631);
    (11647, 11647); (11744, 11775); (11823, 11823); (12293, 12293);
    (12330, 12333); (12337, 12341); (12347, 12347); (12441, 12446);
    (12540, 12542); (40981, 40981); (42232, 42237); (42508, 42508);
    (42607, 42610); (42612, 42621); (42623, 42623); (42652, 42655);
    (42736, 42737); (42752, 42785); (42864, 42864); (42888, 42890);
    (42994, 42996); (43000, 43001); (43010, 43010); (43014, 43014);
    (43019, 43019); (43045, 43046); (43052, 43052); (43204, 43205);
    (43232, 43249); (43263, 43263); (43302, 43309); (43335, 43345);
    (43392, 43394); (43443, 43443); (43446, 43449); (43452, 43453);
    (43471, 43471); (43493, 43494); (43561, 43566); (43569, 43570);
    (43573, 43574); (43587, 43587); (43596, 43596); (43632, 43632);
    (43644, 43644); (43696, 43696); (43698, 43700); (43703, 43704);
    (43710, 43711); (43713, 43713); (43741, 43741); (43756, 43757);
    (43763, 43764); (43766, 43766); (43867, 43871); (43881, 43883);
    (44005, 44005); (44008, 44008); (44013, 44013); (64286, 64286);
    (64434, 64450); (65024, 65039); (65043, 65043); (65056, 65071);
    (65106, 65106); (65109, 65109); (65279, 65279); (65287, 65287);
    (65294, 65294); (65306, 65306); (65342, 65342); (65344, 65344);
    (65392, 65392); (65438, 65439); (65507, 65507); (65529, 65531);
    (66045, 66045); (66272, 66272); (66422, 66426); (67456, 67461);
    (67463, 67504); (67506, 67514); (68097, 68099); (68101, 68102);
    (68108, 68111); (68152, 68154); (68159, 68159); (68325, 68326);
    (68900, 68903); (69291, 69292); (69446, 69456); (69506, 69509);
    (69633, 69633); (69688, 69702); (69744, 69744); (69747, 69748);
    (69759, 69761); (69811, 69814); (69817, 69818); (69821, 69821);
    (69826, 69826); (69837, 69837); (69888, 69890); (69927, 69931);
    (69933, 69940); (70003, 70003); (70016, 70017); (70070, 70078);
    (70089, 70092); (70095, 70095); (70191, 70193); (70196, 70196);
    (70198, 70199); (70206, 70206); (70367, 70367); (70371, 70378);
    (70400, 70401); (70459, 70460); (70464, 70464); (70502, 70508);
    (70512, 70516); (70712, 70719); (70722, 70724); (70726, 70726);
    (70750, 70750); (70835, 70840); (70842, 70842); (70847, 70848);
    (70850, 70851); (71090, 71093); (71100, 71101); (71103, 71104);
    (71132, 71133); (71219, 71226); (71229, 71229); (71231, 71232);
    (71339, 71339); (71341, 71341); (71344, 71349); (71351, 71351);
    (71453, 71455); (71458, 71461); (71463, 71467); (71727, 71735);
    (71737, 71738); (71995, 71996); (71998, 71998); (72003, 72003);
    (72148, 72151); (72154, 72155); (72160, 72160); (72193, 72202);
    (72243, 72248); (72251, 72254); (72263, 72263); (72273, 72278);
    (72281, 72283); (72330, 72342); (72344, 72345); (72752, 72758);
    (72760, 72765); (72767, 72767); (72850, 72871); (72874, 72880);
    (72882, 72883); (72885, 72886); (73009, 73014); (73018, 73018);
    (73020, 73021); (73023, 73029); (73031, 73031); (73104, 73105);
    (73109, 73109); (73111, 73111); (73459, 73460); (78896, 78904);
    (92912, 92916); (92976, 92982); (92992, 92995); (94031, 94031);
    (94095, 94111); (94176, 94177); (94179, 94180); (110576, 110579);
    (110581, 110587); (110589, 110590); (113821, 113822); (113824, 113827);
    (118528, 118573); (118576, 118598); (119143, 119145); (119155, 119170);
    (119173, 119179); (119210, 119213); (119362, 119364); (121344, 121398);
    (121403, 121452); (121461, 121461); (121476, 121476); (121499, 121503);
    (121505, 121519); (122880, 122886); (122888, 122904); (122907, 122913);
    (122915, 122916); (122918, 122922); (123184, 123197); (123566, 123566);
    (123628, 123631); (125136, 125142); (125252, 125259); (127995, 127999);
    (917505, 917505); (917536, 917631); (917760, 917999) ]%N.

Definition case_ignorable_index : table :=
  Eval vm_compute in index case_ignorable_ranges.

Definition is_case_ignorable (c : char) : bool := in_table c case_ignorable_index.

Fixpoint skip_ignorable (s : str) : str :=
  match s with
  | c :: s' => if is_case_ignorable c then skip_ignorable s' else s
  | [] => []
  end.

(** Whether a capital sigma is final in its word: the nearest character
    before it that is not case-ignorable is cased, and the nearest one after
    it is not.  [before] is what stands before the sigma, the last character
    first. *)
Definition final_sigma (before after : str) : bool :=
  match skip_ignorable before with
  | c :: _ =>
      is_cased c
      && match skip_ignorable after with
         | c' :: _ => negb (is_cased c')
         | [] => true
         end
  | [] => false
  end.

(** [str.lower] from one place of the string on: a capital sigma (U+03A3)
    becomes a final sigma (U+03C2) or a sigma (U+03C3) by its context, every
    other character is mapped on its own. *)
Fixpoint lower_from (before s : str) : str :=
  match s with
  | [] => []
  | c :: s' =>
      (if (c =? 931)%N
       then [if final_sigma before s' then 962 else 963]%N
       else lower_char c)
      ++ lower_from (c :: before) s'
  end.

Definition lower (s : str) : str := lower_from [] s.

Fixpoint lstrip (s : str) : str :=
  match s with
  | c :: s' => if is_space c then lstrip s' else s
  | [] => []
  end.

Definition rstrip (s : str) : str := rev (lstrip (rev s)).

Definition strip (s : str) : str := rstrip (lstrip s).

Definition str_eqb (a b : str) : bool :=
  if list_eq_dec N.eq_dec a b then true else false.

(** ** Regular expressions, with the backtracking order of [re] *)

Inductive regex : Type :=
| Eps
| Cls (p : char -> bool)
| Seq (r1 r2 : regex)
| Alt (r1 r2 : regex)
| Star (r : regex)
| Eos
| Grp (n : nat) (r : regex).

Definition captures := list (nat * str).

(** [$] without MULTILINE: the end of the string, or just before a newline
    that ends it. *)
Definition at_eos (s : str) : bool :=
  match s with
  | [] => true
  | [c] => (c =? 10)%N
  | _ => false
  end.

(** The text of a match on [s] that left [rest]. *)
Definition matched_text (s rest : str) : str :=
  firstn (List.length s - List.length rest) s.

(** The greedy loop of [Star]: one more turn of [step] if it consumes
    something and the rest then matches, else straight on to [k].  The fuel
    [n] starts at the length of the string and each turn shortens it. *)
Fixpoint star_loop (A : Type)
         (step : str -> captures -> (str -> captures -> option A) -> option A)
         (k : str -> captures -> option A)
         (n : nat) (s : str) (g : captures) {struct n} : option A :=
  match n with
  | O => k s g
  | S n' =>
      match step s g
              (fun s' g' =>
                 if (List.length s' <? List.length s)%nat
                 then star_loop step k n' s' g' else None)
      with
      | Some x => Some x
      | None => k s g
      end
  end.

(** [rmatch r s g k] matches [r] at the head of [s] and hands the rest of the
    string to the continuation [k]; alternatives are tried left to right and
    [Star] is greedy, so the first success is the match [re] reports. *)
Fixpoint rmatch (A : Type) (r : regex) (s : str) (g : captures)
         (k : str -> captures -> option A) {struct r} : option A :=
  match r with
  | Eps => k s g
  | Cls p =>
      match s with
      | c :: s' => if p c then k s' g else None
      | [] => None
      end
  | Seq r1 r2 => rmatch r1 s g (fun s' g' => rmatch r2 s' g' k)
  | Alt r1 r2 =>
      match rmatch r1 s g k with
      | Some x => Some x
      | None => rmatch r2 s g k
      end
  | Star r1 => star_loop (fun s' g' k' => rmatch r1 s' g' k') k (List.length s) s g
  | Eos => if at_eos s then k s g else None
  | Grp n r1 =>
      rmatch r1 s g
        (fun s' g' => k s' ((n, matched_text s s') :: g'))
  end.

Definition Plus (r : regex) : regex := Seq r (Star r).
Definition Opt (r : regex) : regex := Alt r Eps.
Definition lit (c : char) : regex := Cls (N.eqb c).

(** The other letters a lower-case letter stands for under IGNORECASE,
    beside those that lower-case to it: the dotless i and the long s. *)
Definition extra_cases (c : char) : list char :=
  if (c =? 105)%N then [305]%N
  else if (c =? 115)%N then [383]%N
  else if (c =? 305)%N then [105]%N
  else if (c =? 383)%N then [115]%N
  else [].

(** Whether [x] matches the lower-case literal [c] under IGNORECASE. *)
Definition ci_match (c x : char) : bool :=
  (unicode_tolower x =? c)%N || existsb (N.eqb (unicode_tolower x)) (extra_cases c).

(** A literal under IGNORECASE. *)
Definition ilit (c : char) : regex := Cls (ci_match c).

Fixpoint ilits (s : str) : regex :=
  match s with
  | [] => Eps
  | c :: s' => Seq (ilit c) (ilits s')
  end.

(** [re.match]: the rest of the string after the match, and the groups. *)
Definition re_match (r : regex) (s : str) : option (str * captures) :=
  rmatch r s [] (fun rest g => Some (rest, g)).

Definition group (n : nat) (g : captures) : str :=
  match List.find (fun p => Nat.eqb (fst p) n) g with
  | Some p => snd p
  | None => []
  end.

(** [re.search(r, s).group()]: the text of the leftmost match. *)
Fixpoint re_search (r : regex) (s : str) : option str :=
  match re_match r s with
  | Some (rest, _) => Some (matched_text s rest)
  | None =>
      match s with
      | [] => None
      | _ :: s' => re_search r s'
      end
  end.

(** [re.sub]: [skip] counts the characters of the current match that are
    still to be passed over. *)
Fixpoint sub_from (r : regex) (repl : str) (s : str) (skip : nat) : str :=
  match s with
  | [] =>
      match skip with
      | O => match re_match r [] with Some _ => repl | None => [] end
      | _ => []
      end
  | c :: s' =>
      match skip with
      | S n => sub_from r repl s' n
      | O =>
          match re_match r s with
          | Some (rest, _) =>
              match (List.length s - List.length rest)%nat with
              | O => repl ++ c :: sub_from r repl s' 0
              | S m => repl ++ sub_from r repl s' m
              end
          | None => c :: sub_from r repl s' 0
          end
      end
  end.

Definition re_sub (r : regex) (repl : str) (s : str) : str := sub_from r repl s 0.

(** ** Key normalizer: [create_metacritic_url] *)

Definition BASE_URL : str := py "https://www.metacritic.com/game/".

Definition is_plus (c : char) : bool := (c =? ch "+")%N.
Definition is_hyphen (c : char) : bool := (c =? ch "-")%N.

(** The characters the first substitution keeps: [\w\s+-]. *)
Definition kept (c : char) : bool :=
  is_word c || is_space c || is_plus c || is_hyphen c.

(** [[^\w\s+-]] *)
Definition re_special : regex := Cls (fun c => negb (kept c)).
(** [\s-\s] *)
Definition re_spaced_hyphen : regex := Seq (Cls is_space) (Seq (lit (ch "-")) (Cls is_space)).
(** [\+] *)
Definition re_plus : regex := lit (ch "+").
(** [\s+] *)
Definition re_spaces : regex := Plus (Cls is_space).
(** [-\w+-edition$] under IGNORECASE *)
Definition re_edition : regex :=
  Seq (lit (ch "-")) (Seq (Plus (Cls is_word)) (Seq (lit (ch "-")) (Seq (ilits (py "edition")) Eos))).

Definition step1 (title : str) : str := re_sub re_special [] title.
Definition step2 (s : str) : str := lower (strip s).
Definition step3 (s : str) : str := re_sub re_spaced_hyphen (py " ") s.
Definition step4 (s : str) : str := re_sub re_plus (py "plus") s.
Definition step5 (s : str) : str := re_sub re_spaces (py "-") s.
Definition step6 (s : str) : str := re_sub re_edition [] s.

(** The key segment: [mod_title] at the [return]. *)
Definition normalize (title : str) : str :=
  step6 (step5 (step4 (step3 (step2 (step1 title))))).

Definition create_metacritic_url (title : str) : str :=
  BASE_URL ++ normalize title ++ py "/".

(** ** Exceptions

    The exception classes the program meets, and a result type for code that
    either returns or raises. *)

Inductive request_error : Type :=
| ConnectionError | HTTPError | Timeout | TooManyRedirects
| ChunkedEncodingError | ContentDecodingError.

Inductive exn : Type :=
| AttributeError | ValueError | TypeError | KeyError | ZeroDivisionError
| RequestException (e : request_error)
| KeyboardInterrupt.

Inductive result (A : Type) : Type :=
| Ok (a : A)
| Raise (e : exn).

Arguments Ok {A} a.
Arguments Raise {A} e.

Definition bind (A B : Type) (m : result A) (f : A -> result B) : result B :=
  match m with
  | Ok a => f a
  | Raise e => Raise e
  end.

Declare Scope py_scope.
Delimit Scope py_scope with py.
Notation "x <- m ;; f" := (bind m (fun x => f))
  (at level 61, m at next level, right associativity) : py_scope.
Open Scope py_scope.

(** [try: body / except <class>: handler] *)
Definition try_except (A : Type) (body : result A) (caught : exn -> bool)
           (handler : result A) : result A :=
  match body with
  | Ok a => Ok a
  | Raise e => if caught e then handler else Raise e
  end.

Definition is_AttributeError (e : exn) : bool :=
  match e with AttributeError => true | _ => false end.

Definition is_RequestException (e : exn) : bool :=
  match e with RequestException _ => true | _ => false end.

(** ** Parsed documents: the part of BeautifulSoup the extractor uses *)

#[warnings="-register-all"]
Inductive node : Type :=
| Text (s : str)
| Tag (name : str) (classes : list str) (children : list node).

Fixpoint strs_join (sep : str) (l : list str) : str :=
  match l with
  | [] => []
  | [x] => x
  | x :: l' => x ++ sep ++ strs_join sep l'
  end.

(** The [class_] filter on a tag whose class attribute holds [classes]: the
    string is one of the classes, or it is the whole attribute value. *)
Definition class_matches (q : option str) (classes : list str) : bool :=
  match q with
  | None => true
  | Some q => existsb (str_eqb q) classes || str_eqb (strs_join (py " ") classes) q
  end.

Definition first_some (A B : Type) (f : A -> option B) : list A -> option B :=
  fix go (l : list A) : option B :=
    match l with
    | [] => None
    | x :: l' => match f x with Some r => Some r | None => go l' end
    end.

(** The first tag, in document order, among a node and its descendants. *)
Fixpoint find_from (name : str) (q : option str) (n : node) {struct n} : option node :=
  match n with
  | Text _ => None
  | Tag nm cl ch =>
      if str_eqb nm name && class_matches q cl then Some n
      else first_some (find_from name q) ch
  end.

(** [tag.find(name, class_=q)]: the descendants only. *)
Definition find (name : str) (q : option str) (n : node) : option node :=
  match n with
  | Text _ => None
  | Tag _ _ ch => first_some (find_from name q) ch
  end.

(** [tag.text] *)
Fixpoint text (n : node) : str :=
  match n with
  | Text s => s
  | Tag _ _ ch => List.concat (map text ch)
  end.

(** Attribute access on what may be [None]. *)
Definition dot_find (x : option node) (name : str) (q : option str) : result (option node) :=
  match x with
  | Some n => Ok (find name q n)
  | None => Raise AttributeError
  end.

Definition dot_text (x : option node) : result str :=
  match x with
  | Some n => Ok (text n)
  | None => Raise AttributeError
  end.

(** ** [datetime.strptime(s, '%b %d, %Y')] and [strftime('%d-%m-%Y')] *)

Record date : Type := mkdate { year : nat; month : nat; day : nat }.

Definition months : list str :=
  map py ["jan"; "feb"; "mar"; "apr"; "may"; "jun";
          "jul"; "aug"; "sep"; "oct"; "nov"; "dec"]%string.

Definition alts (l : list regex) : regex :=
  match l with
  | [] => Cls (fun _ => false)
  | r :: l' => fold_left Alt l' r
  end.

Definition re_b : regex := alts (map ilits months).

Definition digit_in (lo hi : N) : regex := Cls (fun c => in_ranges c [(lo, hi)]).
Definition re_digit : regex := Cls is_digit.

(** [3[0-1]|[1-2]\d|0[1-9]|[1-9]| [1-9]] *)
Definition re_d : regex :=
  alts [ Seq (lit (ch "3")) (digit_in 48 49);
         Seq (digit_in 49 50) re_digit;
         Seq (lit (ch "0")) (digit_in 49 57);
         digit_in 49 57;
         Seq (lit (ch " ")) (digit_in 49 57) ].

(** [\d\d\d\d] *)
Definition re_Y : regex := Seq re_digit (Seq re_digit (Seq re_digit re_digit)).

(** The regex [_strptime] builds for ['%b %d, %Y']: each blank run of the
    format becomes [\s+]. *)
Definition re_date : regex :=
  Seq (Grp 1 re_b)
      (Seq (Plus (Cls is_space))
           (Seq (Grp 2 re_d)
                (Seq (lit (ch ",")) (Seq (Plus (Cls is_space)) (Grp 3 re_Y))))).

(** The value of a decimal digit of any script. *)
Definition digit_val (c : char) : nat :=
  match List.find (fun r => (fst r <=? c) && (c <=? snd r))%N digit_ranges with
  | Some r => N.to_nat ((c - fst r) mod 10)
  | None => 0
  end.

(** [int(s)] on blanks followed by decimal digits. *)
Definition int_of (s : str) : nat :=
  fold_left (fun acc c => 10 * acc + digit_val c)%nat (lstrip s) 0%nat.

Fixpoint index_of (x : str) (l : list str) (i : nat) : option nat :=
  match l with
  | [] => None
  | y :: l' => if str_eqb x y then Some i else index_of x l' (i + 1)
  end.

Definition is_leap (y : nat) : bool :=
  ((y mod 4 =? 0) && (negb (y mod 100 =? 0) || (y mod 400 =? 0)))%nat.

Definition days_in_month (y m : nat) : nat :=
  match m with
  | 2 => if is_leap y then 29 else 28
  | 4 | 6 | 9 | 11 => 30
  | _ => 31
  end.

(** The constructor [datetime(year, month, day)]. *)
#[warnings="-abstract-large-number"]
Definition make_date (y m d : nat) : result date :=
  if ((1 <=? y) && (y <=? 9999) && (1 <=? m) && (m <=? 12)
      && (1 <=? d) && (d <=? days_in_month y m))%nat
  then Ok (mkdate y m d)
  else Raise ValueError.

Definition strptime (s : str) : result date :=
  match re_match re_date s with
  | None => Raise ValueError
  | Some (rest, g) =>
      match rest with
      | _ :: _ => Raise ValueError
      | [] =>
          match index_of (lower (group 1 g)) months 1 with
          | None => Raise ValueError
          | Some m => make_date (int_of (group 3 g)) m (int_of (group 2 g))
          end
      end
  end.

Definition digit_char (n : nat) : char := N.of_nat (48 + n mod 10).

(** [%d] and [%m]: two digits. *)
Definition pad2 (n : nat) : str := [digit_char (n / 10); digit_char n].

Fixpoint drop_zeros (s : str) : str :=
  match s with
  | c :: (_ :: _) as s' => if (c =? ch "0")%N then drop_zeros s' else s
  | _ => s
  end.

(** [%Y] as the C library of Linux prints it: a year from 1 to 9999 in
    decimal, without leading zeros. *)
Definition decimal4 (n : nat) : str :=
  drop_zeros [digit_char (n / 1000); digit_char (n / 100); digit_char (n / 10);
              digit_char n].

Definition strftime (d : date) : str :=
  pad2 (day d) ++ py "-" ++ pad2 (month d) ++ py "-" ++ decimal4 (year d).

(** ** Field extractor: [parse_game_info] *)

Record game_info : Type := mk_info {
  meta_score : option str;
  meta_reviews : option str;
  user_score : option str;
  user_reviews : option str;
  release_date : option str;
  publisher : option str;
  genre : option str
}.

Definition cls (s : string) : option str := Some (py s).

Definition except_AttributeError (A : Type) (body : result (option A)) : result (option A) :=
  try_except body is_AttributeError (Ok None).

(** [\d{1,3}(?:,\d{3})*] *)
Definition re_count : regex :=
  Seq (Seq re_digit (Opt (Seq re_digit (Opt re_digit))))
      (Star (Seq (lit (ch ",")) (Seq re_digit (Seq re_digit re_digit)))).

(** [s.replace(',', '')] *)
Definition remove_commas (s : str) : str :=
  filter (fun c => negb (c =? ch ",")%N) s.

(** [re.search(...).group()], where [.group] of a failed search raises. *)
Definition search_group (r : regex) (s : str) : result str :=
  match re_search r s with
  | Some m => Ok m
  | None => Raise AttributeError
  end.

Definition tbd_to_None (score : str) : option str :=
  if str_eqb (lower score) (py "tbd") then None else Some score.

Definition get_meta_score (game : node) : result (option str) :=
  except_AttributeError
    (a <- dot_find (Some game) (py "div")
           (cls "c-productScoreInfo u-clearfix g-inner-spacing-bottom-medium");;
     b <- dot_find a (py "div")
           (cls "c-siteReviewScore_background c-siteReviewScore_background-critic_medium");;
     c <- dot_find b (py "span") None;;
     score <- dot_text c;;
     Ok (tbd_to_None score)).

Definition get_meta_reviews (game : node) : result (option str) :=
  except_AttributeError
    (a <- dot_find (Some game) (py "div")
           (cls "c-productScoreInfo u-clearfix g-inner-spacing-bottom-medium");;
     b <- dot_find a (py "span") (cls "c-productScoreInfo_reviewsTotal u-block");;
     c <- dot_find b (py "span") None;;
     meta_reviews_text <- dot_text c;;
     m <- search_group re_count meta_reviews_text;;
     Ok (Some (remove_commas m))).

Definition get_user_score (game : node) : result (option str) :=
  except_AttributeError
    (a <- dot_find (Some game) (py "div")
           (cls "c-siteReviewScore_background c-siteReviewScore_background-user");;
     b <- dot_find a (py "span") None;;
     score <- dot_text b;;
     Ok (tbd_to_None score)).

Definition get_user_reviews (game : node) : result (option str) :=
  except_AttributeError
    (a <- dot_find (Some game) (py "div") (cls "c-productScoreInfo u-clearfix");;
     b <- dot_find a (py "span") (cls "c-productScoreInfo_reviewsTotal u-block");;
     c <- dot_find b (py "span") None;;
     user_reviews_text <- dot_text c;;
     m <- search_group re_count user_reviews_text;;
     Ok (Some (remove_commas m))).

Definition get_release_date (game : node) : result (option str) :=
  except_AttributeError
    (a <- dot_find (Some game) (py "div")
           (cls "c-gameDetails_ReleaseDate u-flexbox u-flexbox-row");;
     b <- dot_find a (py "span")
           (cls "g-outer-spacing-left-medium-fluid g-color-gray70 u-block");;
     release_date_string <- dot_text b;;
     d <- strptime release_date_string;;
     Ok (Some (strftime d))).

Definition get_publisher (game : node) : result (option str) :=
  except_AttributeError
    (a <- dot_find (Some game) (py "div")
           (cls "c-gameDetails_Distributor u-flexbox u-flexbox-row");;
     b <- dot_find a (py "span")
           (cls "g-outer-spacing-left-medium-fluid g-color-gray70 u-block");;
     t <- dot_text b;;
     Ok (Some t)).

Definition get_genre (game : node) : result (option str) :=
  except_AttributeError
    (a <- dot_find (Some game) (py "li") (cls "c-genreList_item");;
     b <- dot_find a (py "span") (cls "c-globalButton_label");;
     t <- dot_text b;;
     Ok (Some (strip t))).

Definition parse_game_info (game : node) : result game_info :=
  ms <- get_meta_score game;;
  mr <- get_meta_reviews game;;
  us <- get_user_score game;;
  ur <- get_user_reviews game;;
  rd <- get_release_date game;;
  pb <- get_publisher game;;
  gn <- get_genre game;;
  Ok (mk_info ms mr us ur rd pb gn).

(** ** Document fetcher: [get_soup] *)

(** What [requests.get] does: it raises, or it returns a response with a
    status code and a decoded body. *)
Inductive get_outcome : Type :=
| GetRaises (e : exn)
| Response (status_code : Z) (body : str).

(** [Response.raise_for_status] *)
Definition raise_for_status (status_code : Z) : result unit :=
  if ((400 <=? status_code) && (status_code <? 600))%Z
  then Raise (RequestException HTTPError)
  else Ok tt.

Section Fetcher.

(** [BeautifulSoup(text, 'lxml')]: the lenient HTML parser. *)
Variable BeautifulSoup : str -> node.

(** [requests.get(url, headers=headers)] *)
Variable requests_get : str -> list (str * str) -> get_outcome.

Definition get_soup (url : str) (headers : list (str * str)) : result (option node) :=
  try_except
    (match requests_get url headers with
     | GetRaises e => Raise e
     | Response status_code body =>
         _ <- raise_for_status status_code;;
         Ok (Some (BeautifulSoup body))
     end)
    is_RequestException
    (Ok None).

End Fetcher.

(** ** Catalogue records *)

(** The values of a record: JSON scalars and [None]. *)
Inductive pyval : Type :=
| PyNone
| PyStr (s : str)
| PyNum (q : Q).

(** A [dict] with its insertion order. *)
Definition record := list (str * pyval).

Fixpoint dict_get (k : str) (d : record) : option pyval :=
  match d with
  | [] => None
  | (k', v) :: d' => if str_eqb k k' then Some v else dict_get k d'
  end.

(** [d[k] = v]: an existing key keeps its place, a new one goes last. *)
Fixpoint dict_set (k : str) (v : pyval) (d : record) : record :=
  match d with
  | [] => [(k, v)]
  | (k', v') :: d' => if str_eqb k k' then (k, v) :: d' else (k', v') :: dict_set k v d'
  end.

(** [d.update(other)] *)
Definition dict_update (d : record) (other : record) : record :=
  fold_left (fun acc kv => dict_set (fst kv) (snd kv) acc) other d.

(** [game['title']], as the string [re.sub] needs. *)
Definition get_title (game : record) : result str :=
  match dict_get (py "title") game with
  | None => Raise KeyError
  | Some (PyStr s) => Ok s
  | Some _ => Raise TypeError
  end.

Definition of_field (f : option str) : pyval :=
  match f with
  | Some s => PyStr s
  | None => PyNone
  end.

Definition NA : pyval := PyStr (py "N/A").

Definition enrichment_keys : list str :=
  map py ["meta_score"; "meta_reviews"; "user_score"; "user_reviews";
          "release_date"; "publisher"; "genre"]%string.

Definition info_dict (i : game_info) : record :=
  [ (py "meta_score", of_field (meta_score i));
    (py "meta_reviews", of_field (meta_reviews i));
    (py "user_score", of_field (user_score i));
    (py "user_reviews", of_field (user_reviews i));
    (py "release_date", of_field (release_date i));
    (py "publisher", of_field (publisher i));
    (py "genre", of_field (genre i)) ].

Definition na_dict : record := map (fun k => (k, NA)) enrichment_keys.

(** ** Orchestrator: [scrape_game_info] *)

Definition User_Agent : str :=
  py "Mozilla/5.0 (Windows NT 10.0; Win64; x64) AppleWebKit/537.36 (KHTML, like Gecko) Chrome/113.0.0.0 Safari/537.36".

Definition request_headers : list (str * str) := [(py "User-Agent", User_Agent)].

(** [total_game_info_scraped / len(catalogue)] *)
Definition true_div (a b : nat) : result Q :=
  match b with
  | O => Raise ZeroDivisionError
  | _ => Ok (Qmake (Z.of_nat a) (Pos.of_nat b))
  end.

Record statistics : Type := mk_stats {
  total_game_info_scraped : nat;
  scrape_success_rate : Q
}.

Section Orchestrator.

Variable BeautifulSoup : str -> node.

(** The network: what the [i]-th request of the run, for [url] with
    [headers], comes back with. *)
Variable requests_get : nat -> str -> list (str * str) -> get_outcome.

(** One turn of the [for game in catalogue] loop; [i] counts the turns and
    [n] is [total_game_info_scraped]. *)
Definition enrich (i : nat) (game : record) (n : nat) : result (record * nat) :=
  title <- get_title game;;
  let url := create_metacritic_url title in
  soup <- get_soup BeautifulSoup (requests_get i) url request_headers;;
  match soup with
  | Some doc =>
      game_info <- parse_game_info doc;;
      Ok (dict_update game (info_dict game_info), S n)
  | None => Ok (dict_update game na_dict, n)
  end.

Fixpoint enrich_loop (i : nat) (catalogue : list record) (n : nat)
  : result (list record * nat) :=
  match catalogue with
  | [] => Ok ([], n)
  | game :: rest =>
      r <- enrich i game n;;
      r' <- enrich_loop (S i) rest (snd r);;
      Ok (fst r :: fst r', snd r')
  end.

(** The rows written to the CSV file, and the statistics printed. *)
Definition scrape_game_info (catalogue : list record)
  : result (list record * statistics) :=
  r <- enrich_loop 0 catalogue 0;;
  rate <- true_div (snd r) (List.length catalogue);;
  Ok (fst r, mk_stats (snd r) rate).

End Orchestrator.

(** * Vocabulary of the properties *)

(** ** The language of a regex

    [lang r m rest]: [r] can match [m] when [rest] follows it. *)

Inductive lang : regex -> str -> str -> Prop :=
| L_Eps rest : lang Eps [] rest
| L_Cls p c rest : p c = true -> lang (Cls p) [c] rest
| L_Seq r1 r2 m1 m2 rest :
    lang r1 m1 (m2 ++ rest) -> lang r2 m2 rest -> lang (Seq r1 r2) (m1 ++ m2) rest
| L_AltL r1 r2 m rest : lang r1 m rest -> lang (Alt r1 r2) m rest
| L_AltR r1 r2 m rest : lang r2 m rest -> lang (Alt r1 r2) m rest
| L_Star0 r rest : lang (Star r) [] rest
| L_StarS r m1 m2 rest :
    lang r m1 (m2 ++ rest) -> lang (Star r) m2 rest -> lang (Star r) (m1 ++ m2) rest
| L_Eos rest : at_eos rest = true -> lang Eos [] rest
| L_Grp n r m rest : lang r m rest -> lang (Grp n r) m rest.

(** What a successful run of a matcher on [s] with continuation [k] tells. *)
Definition sound_for (A : Type) (r : regex)
           (f : str -> captures -> (str -> captures -> option A) -> option A) : Prop :=
  forall s g k x,
    f s g k = Some x ->
    exists m rest g', s = m ++ rest /\ lang r m rest /\ k rest g' = Some x.

(** ** Tables *)

(** The code points of a list of intervals. *)
Definition points (rs : list (N * N)) : list N :=
  flat_map (fun r => map N.of_nat
                         (seq (N.to_nat (fst r))
                              (S (N.to_nat (snd r) - N.to_nat (fst r))))) rs.

(** The intervals are in order and apart. *)
Fixpoint sorted_ranges (l : list (N * N)) : bool :=
  match l with
  | [] => true
  | r :: l' =>
      (fst r <=? snd r)%N
      && match l' with
         | [] => true
         | r' :: _ => (snd r <? fst r')%N
         end
      && sorted_ranges l'
  end.

(** The pairs of a mapping are in the order of the code points mapped. *)
Definition sorted_keys (l : list (N * N)) : bool :=
  sorted_ranges (map (fun kv => (fst kv, fst kv)) l).

(** The pair of a code point in a list of pairs. *)
Fixpoint assoc (c : N) (l : list (N * N)) : option N :=
  match l with
  | [] => None
  | (k, v) :: l' => if (c =? k)%N then Some v else assoc c l'
  end.

(** What [str.lower] can make of one character: its lower-case mapping,
    and for the capital sigma the final sigma as well. *)
Definition lower_images (c : char) : list char :=
  if (c =? 931)%N then [963; 962]%N else lower_char c.

(** ** Characters of a key *)

Definition no_space (c : char) : Prop := is_space c = false.
Definition no_plus (c : char) : Prop := is_plus c = false.
Definition lower_fixed (c : char) : Prop := lower_char c = [c].

(** A word character or a hyphen. *)
Definition key_char (c : char) : Prop := is_word c || is_hyphen c = true.

(** [e] reads as the lower-case word [l] under IGNORECASE. *)
Definition reads_ci (e l : str) : Prop :=
  Forall2 (fun x c => ci_match c x = true) e l.

(** The key ends in a hyphen, a run of word characters, a hyphen and the
    word "edition" in any case. *)
Definition ends_with_edition (k : str) : Prop :=
  exists p w e,
    w <> [] /\ Forall (fun c => is_word c = true) w
    /\ reads_ci e (py "edition")
    /\ k = p ++ py "-" ++ w ++ py "-" ++ e.

(** Where a character of a key comes from: a hyphen, the word "plus", or
    the lower case of a word character of the title. *)
Definition from_title (title : str) (x : char) : Prop :=
  x = ch "-" \/ In x (py "plus")
  \/ exists c, In c title /\ is_word c = true /\ In x (lower_images c).



(** The classes the specification lists for the first step: letter, digit,
    whitespace, hyphen, plus. *)
Definition spec_step1_keeps (c : char) : bool :=
  is_alnum c || is_space c || is_hyphen c || is_plus c.

(** ** Regions of a document *)

(** The tag a chain of [find] calls ends at, when each call finds one. *)
Fixpoint locate (path : list (str * option str)) (n : node) : option node :=
  match path with
  | [] => Some n
  | (name, q) :: path' =>
      match find name q n with
      | Some n' => locate path' n'
      | None => None
      end
  end.

(** The text of a region, when the region is found. *)
Definition region_text (path : list (str * option str)) (game : node) : option str :=
  option_map text (locate path game).

Definition meta_score_path : list (str * option str) :=
  [ (py "div", cls "c-productScoreInfo u-clearfix g-inner-spacing-bottom-medium");
    (py "div", cls "c-siteReviewScore_background c-siteReviewScore_background-critic_medium");
    (py "span", None) ].

Definition meta_reviews_path : list (str * option str) :=
  [ (py "div", cls "c-productScoreInfo u-clearfix g-inner-spacing-bottom-medium");
    (py "span", cls "c-productScoreInfo_reviewsTotal u-block");
    (py "span", None) ].

Definition user_score_path : list (str * option str) :=
  [ (py "div", cls "c-siteReviewScore_background c-siteReviewScore_background-user");
    (py "span", None) ].

Definition user_reviews_path : list (str * option str) :=
  [ (py "div", cls "c-productScoreInfo u-clearfix");
    (py "span", cls "c-productScoreInfo_reviewsTotal u-block");
    (py "span", None) ].

Definition release_date_path : list (str * option str) :=
  [ (py "div", cls "c-gameDetails_ReleaseDate u-flexbox u-flexbox-row");
    (py "span", cls "g-outer-spacing-left-medium-fluid g-color-gray70 u-block") ].

Definition publisher_path : list (str * option str) :=
  [ (py "div", cls "c-gameDetails_Distributor u-flexbox u-flexbox-row");
    (py "span", cls "g-outer-spacing-left-medium-fluid g-color-gray70 u-block") ].

Definition genre_path : list (str * option str) :=
  [ (py "li", cls "c-genreList_item"); (py "span", cls "c-globalButton_label") ].

Definition eq_ignore_case (a b : str) : bool := str_eqb (lower a) (lower b).

(** Code that raises nothing but [AttributeError]. *)
Definition only_AttributeError (A : Type) (m : result A) : Prop :=
  forall e, m = Raise e -> e = AttributeError.

(** ** Sample documents *)

Definition classes (l : list string) : list str := map py l.

Definition span (cl : list string) (t : string) : node :=
  Tag (py "span") (classes cl) [Text (py t)].

Definition div (cl : list string) (children : list node) : node :=
  Tag (py "div") (classes cl) children.

Definition document (children : list node) : node := Tag (py "[document]") [] children.

Definition release_date_block (t : string) : node :=
  div ["c-gameDetails_ReleaseDate"; "u-flexbox"; "u-flexbox-row"]%string
      [ span ["g-color-gray50"]%string "Released On: ";
        span ["g-outer-spacing-left-medium-fluid"; "g-color-gray70"; "u-block"]%string t ].

Definition publisher_block (t : string) : node :=
  div ["c-gameDetails_Distributor"; "u-flexbox"; "u-flexbox-row"]%string
      [ span ["g-color-gray50"]%string "Publisher: ";
        span ["g-outer-spacing-left-medium-fluid"; "g-color-gray70"; "u-block"]%string t ].

Definition critic_block (score reviews : string) : node :=
  div ["c-productScoreInfo"; "u-clearfix"; "g-inner-spacing-bottom-medium"]%string
      [ div ["c-siteReviewScore_background";
             "c-siteReviewScore_background-critic_medium"]%string
            [ div ["c-siteReviewScore"]%string [span [] score] ];
        Tag (py "span") (classes ["c-productScoreInfo_reviewsTotal"; "u-block"]%string)
            [ Tag (py "a") [] [span [] reviews] ] ].

Definition user_block (score reviews : string) : node :=
  div ["c-productScoreInfo"; "u-clearfix"]%string
      [ div ["c-siteReviewScore_background";
             "c-siteReviewScore_background-user"]%string
            [ div ["c-siteReviewScore"]%string [span [] score] ];
        Tag (py "span") (classes ["c-productScoreInfo_reviewsTotal"; "u-block"]%string)
            [ Tag (py "a") [] [span [] reviews] ] ].

Definition genre_block (t : string) : node :=
  Tag (py "li") (classes ["c-genreList_item"]%string)
      [ Tag (py "a") (classes ["c-globalButton_container"]%string)
            [ span ["c-globalButton_label"]%string t ] ].

(** A page with every region, one whose release date is still to be
    announced, and one whose only region is a distributor reading "N/A". *)
Definition full_page : node :=
  document [ critic_block "87" "Based on 1,234 Critic Reviews";
             user_block "tbd" "Based on 56 User Ratings";
             release_date_block "Jan 05, 2024";
             publisher_block "Nintendo";
             genre_block "  Platformer  " ].

Definition tba_page : node :=
  document [ critic_block "tbd" ""; release_date_block "TBA"; publisher_block "Nintendo" ].

Definition na_publisher_page : node := document [ publisher_block "N/A" ].

(** ** Fetches and records *)



(** A parser for examples: the body as one text node. *)
Definition plain_text_parser (body : str) : node := document [Text body].







(** A record after its turn of the loop: the seven fields written over the
    record it was, every other key as before. *)
Definition augmented (game rec : record) : Prop :=
  exists fields,
    map fst fields = enrichment_keys
    /\ rec = dict_update game fields
    /\ (forall k v, In (k, v) fields -> dict_get k rec = Some v)
    /\ (forall k, ~ In k enrichment_keys -> dict_get k rec = dict_get k game).

Definition titled (t : string) : record := [(py "title", PyStr (py t))].

(** A run of two records: the first page is fetched, the second is not
    found. *)
Definition two_games : list record :=
  [ [(py "title", PyStr (py "Super Mario Bros. Wonder")); (py "price", PyNum (Qmake 7995 100))];
    titled "No Such Game - Deluxe Edition" ].

Definition first_found (i : nat) (url : str) (headers : list (str * str)) : get_outcome :=
  match i with
  | O => Response 200 (py "<html>...</html>")
  | _ => Response 404 (py "Not Found")
  end.


Definition two_games_enriched : list record :=
  [ [ (py "title", PyStr (py "Super Mario Bros. Wonder"));
      (py "price", PyNum (Qmake 7995 100));
      (py "meta_score", PyStr (py "87")); (py "meta_reviews", PyStr (py "1234"));
      (py "user_score", PyNone); (py "user_reviews", PyStr (py "56"));
      (py "release_date", PyStr (py "05-01-2024"));
      (py "publisher", PyStr (py "Nintendo")); (py "genre", PyStr (py "Platformer")) ];
    [ (py "title", PyStr (py "No Such Game - Deluxe Edition"));
      (py "meta_score", NA); (py "meta_reviews", NA); (py "user_score", NA);
      (py "user_reviews", NA); (py "release_date", NA); (py "publisher", NA);
      (py "genre", NA) ] ].

(** A network on which every request is answered with status 200. *)
Definition always_found (i : nat) (url : str) (headers : list (str * str)) : get_outcome :=
  Response 200 (py "<html>...</html>").

(** ** Further vocabulary *)

(** Every character class of the pattern lies within [P]. *)
Fixpoint classes_in (P : char -> Prop) (r : regex) : Prop :=
  match r with
  | Cls p => forall c, p c = true -> P c
  | Seq r1 r2 | Alt r1 r2 => classes_in P r1 /\ classes_in P r2
  | Star r1 | Grp _ r1 => classes_in P r1
  | Eps | Eos => True
  end.

(** A date of the calendar. *)
#[warnings="-abstract-large-number"]
Definition valid_date (d : date) : Prop :=
  (1 <= year d <= 9999 /\ 1 <= month d <= 12
   /\ 1 <= day d <= days_in_month (year d) (month d))%nat.

(** The value is the string 'N/A'. *)
Definition is_NA (v : pyval) : bool :=
  match v with
  | PyStr s => str_eqb s (py "N/A")
  | _ => false
  end.

(** A row whose seven enrichment fields all read 'N/A'. *)
Definition marker_row (rec : record) : bool :=
  forallb (fun k => match dict_get k rec with
                    | Some v => is_NA v
                    | None => false
                    end) enrichment_keys.

(** [k in d] *)
Definition has_key (k : str) (keys : list str) : bool := existsb (str_eqb k) keys.

(** The keys of a record, in the order of the columns. *)
Definition keys_of (d : record) : list str := map fst d.

(** A network that answers no request: the connection fails, or the page is
    not found. *)
Definition all_down (i : nat) (url : str) (headers : list (str * str)) : get_outcome :=
  match i with
  | O => GetRaises (RequestException ConnectionError)
  | _ => Response 404 (py "Not Found")
  end.


(** The seven paths of the extractor, in the order of its blocks. *)
Definition region_paths : list (list (str * option str)) :=
  [ meta_score_path; meta_reviews_path; user_score_path; user_reviews_path;
    release_date_path; publisher_path; genre_path ].

(** The record with no field found. *)
Definition no_info : game_info := mk_info None None None None None None None.

(** A page without any of the regions: a heading and a paragraph. *)
Definition error_page : node :=
  document [ Tag (py "h1") [] [Text (py "Page not found")];
             Tag (py "p") (classes ["c-error"]%string) [Text (py "Try again.")] ].

(** A string without blanks at either end. *)
Definition trimmed (s : str) : Prop :=
  (forall c s', s = c :: s' -> is_space c = false)
  /\ (forall s' c, s = s' ++ [c] -> is_space c = false).

(** A page whose distributor text has blanks around it. *)
Definition padded_publisher_page : node := document [ publisher_block "  Nintendo  " ].

(** A record without the key 'title'. *)
Definition untitled : record := [(py "name", PyStr (py "Some Game"))].

(** The status is one that [raise_for_status] raises on. *)
Definition is_http_error (status_code : Z) : bool :=
  ((400 <=? status_code) && (status_code <? 600))%Z.

(** The columns of a record after its turn: its own, then those of the
    seven fields it did not have. *)
Definition columns_after (game : record) : list str :=
  keys_of game ++ filter (fun k => negb (has_key k (keys_of game))) enrichment_keys.

(** A record of the shop that has a genre of its own. *)
Definition with_genre : record :=
  [ (py "genre", PyStr (py "Action")); (py "title", PyStr (py "Some Game")) ].

(** * Properties *)

(** ** Character classes *)

(** *** The search trees agree with the tables *)

Lemma sorted_cons (r : N * N) (l : list (N * N)) :
  sorted_ranges (r :: l) = true ->
  (fst r <= snd r)%N /\ Forall (fun r' => (snd r < fst r')%N) l
  /\ sorted_ranges l = true.
Proof.
  revert r. induction l as [|r' l IH]; intros r; cbn [sorted_ranges].
  - rewrite !andb_true_r. intros H. apply N.leb_le in H. auto.
  - intros H. apply andb_prop in H. destruct H as [H Hs].
    apply andb_prop in H. destruct H as [H1 H2].
    apply N.leb_le in H1. apply N.ltb_lt in H2.
    destruct (IH r' Hs) as (H3 & H4 & _).
    split; [exact H1|]. split; [|exact Hs].
    constructor; [exact H2|].
    eapply Forall_impl; [|exact H4]. cbv beta. intros r'' Hr. lia.
Qed.

Lemma sorted_app (l1 : list (N * N)) (r : N * N) (l2 : list (N * N)) :
  sorted_ranges (l1 ++ r :: l2) = true ->
  Forall (fun r' => (snd r' < fst r)%N) l1 /\ sorted_ranges l1 = true
  /\ sorted_ranges (r :: l2) = true.
Proof.
  induction l1 as [|x l1 IH]; cbn [app]; [auto|].
  intros H. pose proof (sorted_cons _ _ H) as (Hx & Hall & Hs).
  destruct (IH Hs) as (H1 & H2 & H3).
  apply Forall_app in Hall. destruct Hall as [Hall1 Hall2].
  inversion Hall2 as [|? ? Hr _]; subst.
  split; [constructor; assumption|]. split; [|exact H3].
  cbn [sorted_ranges]. rewrite H2, andb_true_r.
  apply andb_true_intro. split; [apply N.leb_le, Hx|].
  destruct l1 as [|y l1]; [reflexivity|].
  inversion Hall1; subst. apply N.ltb_lt. assumption.
Qed.

Lemma in_ranges_above (c : N) (l : list (N * N)) :
  Forall (fun r => (c < fst r)%N) l -> in_ranges c l = false.
Proof.
  induction 1 as [|r l Hr _ IH]; [reflexivity|].
  unfold in_ranges in *. cbn [existsb]. rewrite IH, orb_false_r.
  apply andb_false_intro1. apply N.leb_gt, Hr.
Qed.

Lemma in_ranges_below (c : N) (l : list (N * N)) :
  Forall (fun r => (snd r < c)%N) l -> in_ranges c l = false.
Proof.
  induction 1 as [|r l Hr _ IH]; [reflexivity|].
  unfold in_ranges in *. cbn [existsb]. rewrite IH, orb_false_r.
  apply andb_false_intro2. apply N.leb_gt, Hr.
Qed.

(** A tree whose intervals are in order holds what the list of them holds. *)
Lemma in_table_ranges (c : N) (t : table) :
  sorted_ranges (entries t) = true -> in_table c t = in_ranges c (entries t).
Proof.
  induction t as [|l IHl a b r IHr]; cbn [entries in_table]; [reflexivity|].
  intros H. apply sorted_app in H. destruct H as (Hl & Hsl & H).
  apply sorted_cons in H. destruct H as (Hab & Hr & Hsr).
  cbn [fst snd] in *.
  unfold in_ranges. rewrite existsb_app. cbn [existsb fst snd].
  fold (in_ranges c (entries l)). fold (in_ranges c (entries r)).
  destruct (N.ltb_spec c a) as [Hca|Hca].
  - rewrite (IHl Hsl).
    rewrite (@in_ranges_above c (entries r))
      by (eapply Forall_impl; [|exact Hr]; cbv beta; intros; lia).
    replace (a <=? c)%N with false by (symmetry; apply N.leb_gt; lia).
    cbn [andb orb]. rewrite orb_false_r. reflexivity.
  - rewrite (@in_ranges_below c (entries l))
      by (eapply Forall_impl; [|exact Hl]; cbv beta; intros; lia).
    replace (a <=? c)%N with true by (symmetry; apply N.leb_le; lia).
    cbn [andb orb]. destruct (N.ltb_spec b c) as [Hbc|Hbc].
    + rewrite (IHr Hsr).
      replace (c <=? b)%N with false by (symmetry; apply N.leb_gt; lia).
      reflexivity.
    + replace (c <=? b)%N with true by (symmetry; apply N.leb_le; lia).
      reflexivity.
Qed.

Lemma assoc_app (c : N) (l1 l2 : list (N * N)) :
  assoc c (l1 ++ l2)
  = match assoc c l1 with Some v => Some v | None => assoc c l2 end.
Proof.
  induction l1 as [|[k v] l1 IH]; cbn [app assoc]; [reflexivity|].
  destruct (c =? k)%N; [reflexivity|exact IH].
Qed.

Lemma assoc_none (c : N) (l : list (N * N)) :
  Forall (fun kv => c <> fst kv) l -> assoc c l = None.
Proof.
  induction 1 as [|[k v] l Hk _ IH]; cbn [assoc]; [reflexivity|].
  cbn [fst] in Hk. apply N.eqb_neq in Hk. rewrite Hk. exact IH.
Qed.

(** A tree whose pairs are in order maps as the list of them does. *)
Lemma table_find_assoc (c : N) (t : table) :
  sorted_keys (entries t) = true -> table_find c t = assoc c (entries t).
Proof.
  unfold sorted_keys.
  induction t as [|l IHl a b r IHr]; cbn [entries table_find]; [reflexivity|].
  rewrite map_app. cbn [map fst]. intros H.
  apply sorted_app in H. destruct H as (Hl & Hsl & H).
  apply sorted_cons in H. destruct H as (_ & Hr & Hsr).
  rewrite Forall_map in Hl, Hr. cbn [fst snd] in Hl, Hr.
  rewrite assoc_app. cbn [assoc].
  destruct (N.ltb_spec c a) as [Hca|Hca].
  - rewrite (IHl Hsl).
    replace (c =? a)%N with false by (symmetry; apply N.eqb_neq; lia).
    rewrite (@assoc_none c (entries r))
      by (eapply Forall_impl; [|exact Hr]; cbv beta; intros; lia).
    destruct (assoc c (entries l)); reflexivity.
  - rewrite (@assoc_none c (entries l))
      by (eapply Forall_impl; [|exact Hl]; cbv beta; intros; lia).
    destruct (N.ltb_spec a c) as [Hac|Hac].
    + replace (c =? a)%N with false by (symmetry; apply N.eqb_neq; lia).
      exact (IHr Hsr).
    + replace (c =? a)%N with true by (symmetry; apply N.eqb_eq; lia).
      reflexivity.
Qed.

Lemma alnum_index_entries : entries alnum_index = alnum_ranges.
Proof. vm_compute. reflexivity. Qed.

Lemma lower_index_entries : entries lower_index = lower_table.
Proof. vm_compute. reflexivity. Qed.

Lemma cased_index_entries : entries cased_index = cased_ranges.
Proof. vm_compute. reflexivity. Qed.

Lemma case_ignorable_index_entries :
  entries case_ignorable_index = case_ignorable_ranges.
Proof. vm_compute. reflexivity. Qed.

(** [is_alnum] is membership in the table of [str.isalnum]. *)
Lemma is_alnum_ranges (c : char) : is_alnum c = in_ranges c alnum_ranges.
Proof.
  unfold is_alnum. rewrite <- alnum_index_entries. apply in_table_ranges.
  vm_compute. reflexivity.
Qed.

Lemma is_cased_ranges (c : char) : is_cased c = in_ranges c cased_ranges.
Proof.
  unfold is_cased. rewrite <- cased_index_entries. apply in_table_ranges.
  vm_compute. reflexivity.
Qed.

Lemma is_case_ignorable_ranges (c : char) :
  is_case_ignorable c = in_ranges c case_ignorable_ranges.
Proof.
  unfold is_case_ignorable. rewrite <- case_ignorable_index_entries.
  apply in_table_ranges. vm_compute. reflexivity.
Qed.

(** [unicode_tolower] reads the table of the lower-case mapping. *)
Lemma unicode_tolower_table (c : char) :
  unicode_tolower c = match assoc c lower_table with Some l => l | None => c end.
Proof.
  unfold unicode_tolower. rewrite <- lower_index_entries.
  rewrite table_find_assoc by (vm_compute; reflexivity). reflexivity.
Qed.

(** The decimal digits come in tens: each interval of the table starts at
    a zero and holds a multiple of ten digits. *)
Lemma digit_ranges_tens :
  forallb (fun r => ((snd r - fst r + 1) mod 10 =? 0)%N) digit_ranges = true.
Proof. vm_compute. reflexivity. Qed.

(** *** Classes *)

Lemma in_ranges_points (c : N) (rs : list (N * N)) :
  in_ranges c rs = true -> In c (points rs).
Proof.
  unfold in_ranges, points. intros H. apply existsb_exists in H.
  destruct H as (r & Hr & H). apply andb_prop in H. destruct H as [H1 H2].
  apply N.leb_le in H1. apply N.leb_le in H2.
  apply in_flat_map. exists r. split; [exact Hr|].
  apply in_map_iff. exists (N.to_nat c). split; [apply N2Nat.id|].
  apply in_seq. lia.
Qed.

(** A fact about whitespace is checked on its twenty-five characters. *)
Lemma by_space_points (P : char -> bool) :
  forallb P (points space_ranges) = true ->
  forall c, is_space c = true -> P c = true.
Proof.
  intros H c Hc. rewrite forallb_forall in H. apply H.
  apply in_ranges_points, Hc.
Qed.

Lemma key_char_no_space (c : char) : key_char c -> no_space c.
Proof.
  unfold key_char, no_space. intros Hk.
  destruct (is_space c) eqn:E; [|reflexivity].
  assert (H : negb (is_word c || is_hyphen c) = true).
  { revert c E Hk. intros c E _. revert c E.
    apply (@by_space_points (fun x => negb (is_word x || is_hyphen x))).
    vm_compute. reflexivity. }
  rewrite Hk in H. discriminate H.
Qed.

Lemma key_char_no_plus (c : char) : key_char c -> no_plus c.
Proof.
  unfold key_char, no_plus, is_plus. intros Hk.
  destruct (N.eqb_spec c (ch "+")) as [->|_]; [|reflexivity].
  vm_compute in Hk. discriminate Hk.
Qed.

Lemma key_char_kept (c : char) : key_char c -> kept c = true.
Proof.
  unfold key_char, kept. intros Hk.
  destruct (is_word c), (is_hyphen c), (is_space c), (is_plus c);
    try reflexivity; discriminate Hk.
Qed.

Lemma str_eqb_eq (a b : str) : str_eqb a b = true <-> a = b.
Proof.
  unfold str_eqb. destruct (list_eq_dec N.eq_dec a b); split; congruence.
Qed.

Lemma str_eqb_refl (a : str) : str_eqb a a = true.
Proof. apply str_eqb_eq. reflexivity. Qed.

Lemma str_eqb_neq (a b : str) : a <> b -> str_eqb a b = false.
Proof.
  unfold str_eqb. destruct (list_eq_dec N.eq_dec a b); congruence.
Qed.

Lemma table_find_In (c v : N) (t : table) :
  table_find c t = Some v -> In (c, v) (entries t).
Proof.
  induction t as [|l IHl a b r IHr]; cbn [table_find entries]; [discriminate|].
  destruct (N.ltb_spec c a) as [Hlt|Hge].
  - intros H. apply in_or_app. left. exact (IHl H).
  - destruct (N.ltb_spec a c) as [Hgt|Hle].
    + intros H. apply in_or_app. right. right. exact (IHr H).
    + intros [= <-]. apply in_or_app. right. left. f_equal. lia.
Qed.

(** A code point is moved by the lower-case table, or lower-casing leaves
    it. *)
Lemma lower_char_cases (c : char) :
  (exists v, In (c, v) lower_table) \/ lower_char c = [c].
Proof.
  unfold lower_char, unicode_tolower.
  destruct (table_find c lower_index) as [v|] eqn:E.
  - left. exists v. rewrite <- lower_index_entries. apply table_find_In, E.
  - right. destruct (c =? 304)%N eqn:E304; [|reflexivity].
    apply N.eqb_eq in E304. subst c. vm_compute in E. discriminate E.
Qed.

(** A fact about lower-casing: checked on each entry of the table, and
    proved where lower-casing changes nothing. *)
Lemma by_lower_table (P : char -> bool) :
  forallb (fun kv => P (fst kv)) lower_table = true ->
  (forall c, lower_char c = [c] -> P c = true) ->
  forall c, P c = true.
Proof.
  intros Htable Hfixed c. destruct (lower_char_cases c) as [[v Hin]|Hc].
  - rewrite forallb_forall in Htable. exact (Htable (c, v) Hin).
  - exact (Hfixed c Hc).
Qed.

(** Lower-casing a character gives characters that lower-casing leaves. *)
Lemma lower_char_images_fixed (c : char) :
  forallb (fun x => str_eqb (lower_char x) [x]) (lower_char c) = true.
Proof.
  revert c. apply by_lower_table; [vm_compute; reflexivity|].
  intros c Hc. rewrite Hc. cbn [forallb]. rewrite Hc, str_eqb_refl. reflexivity.
Qed.

(** But for the capital I with a dot, lower-casing a kept character gives
    a kept character. *)
Lemma lower_char_kept (c : char) :
  (c =? 304)%N || implb (kept c) (forallb kept (lower_char c)) = true.
Proof.
  revert c. apply by_lower_table; [vm_compute; reflexivity|].
  intros c Hc. rewrite Hc. cbn [forallb].
  destruct (kept c); [apply orb_true_r|apply orb_true_r].
Qed.

(** A kept character that lower-cases to something else than a blank or a
    plus sign is a word character, unless it is the hyphen. *)
Lemma kept_lower_char (c : char) :
  implb (kept c)
        (forallb (fun x => is_space x || is_plus x || is_word c || is_hyphen x)
                 (lower_char c)) = true.
Proof.
  revert c. apply by_lower_table; [vm_compute; reflexivity|].
  intros c Hc. rewrite Hc. cbn [forallb]. unfold kept.
  destruct (is_word c), (is_space c), (is_plus c), (is_hyphen c); reflexivity.
Qed.

(** *** [str.lower] *)

(** Every character of a lower-cased string is an image of one of the
    string. *)
Lemma lower_from_images (x : char) (s : str) : forall before,
  In x (lower_from before s) -> exists c, In c s /\ In x (lower_images c).
Proof.
  induction s as [|c s IH]; intros before; cbn [lower_from]; [intros []|].
  intros H. apply in_app_or in H. destruct H as [H|H].
  - exists c. split; [left; reflexivity|]. unfold lower_images.
    destruct (c =? 931)%N; [|exact H].
    destruct (final_sigma before s); destruct H as [<-|[]]; cbn; auto.
  - destruct (IH _ H) as (c' & Hc' & Hx). exists c'. split; [right|]; assumption.
Qed.

(** Without a capital sigma, lower-casing goes character by character. *)
Lemma lower_from_flat_map (s : str) : forall before,
  ~ In 931%N s -> lower_from before s = flat_map lower_char s.
Proof.
  induction s as [|c s IH]; intros before H; cbn [lower_from flat_map];
    [reflexivity|].
  destruct (N.eqb_spec c 931) as [->|_]; [exfalso; apply H; left; reflexivity|].
  f_equal. apply IH. intros Hin. apply H. right. exact Hin.
Qed.

#[local] Hint Constructors lang : core.

(** ** Soundness of the matcher *)

Section Soundness.

Variable A : Type.

Lemma star_loop_sound (r : regex) f :
  sound_for (A := A) r f ->
  forall k n s g x,
    star_loop f k n s g = Some x ->
    exists m rest g', s = m ++ rest /\ lang (Star r) m rest /\ k rest g' = Some x.
Proof.
  intros Hf k n. induction n as [|n IH]; intros s g x H; simpl in H.
  - exists [], s, g. auto.
  - destruct (f s g _) as [y|] eqn:E.
    + inversion H; subst y; clear H.
      apply Hf in E. destruct E as (m1 & rest1 & g1 & -> & L1 & K1).
      destruct (List.length rest1 <? List.length (m1 ++ rest1))%nat; [|discriminate].
      apply IH in K1. destruct K1 as (m2 & rest & g2 & -> & L2 & K2).
      exists (m1 ++ m2), rest, g2. rewrite <- app_assoc. eauto.
    + exists [], s, g. auto.
Qed.

Lemma rmatch_sound (r : regex) : sound_for (A := A) r (fun s g k => rmatch r s g k).
Proof.
  induction r as [|p|r1 IH1 r2 IH2|r1 IH1 r2 IH2|r1 IH1| |n r1 IH1];
    intros s g k x H; simpl in H.
  - exists [], s, g. auto.
  - destruct s as [|c s']; [discriminate|].
    destruct (p c) eqn:Pc; [|discriminate].
    exists [c], s', g. auto.
  - apply IH1 in H. destruct H as (m1 & rest1 & g1 & -> & L1 & K1).
    apply IH2 in K1. destruct K1 as (m2 & rest & g2 & -> & L2 & K2).
    exists (m1 ++ m2), rest, g2. rewrite <- app_assoc. eauto.
  - destruct (rmatch r1 s g k) as [y|] eqn:E.
    + inversion H; subst y. apply IH1 in E.
      destruct E as (m & rest & g' & -> & L & K). eauto 8.
    + apply IH2 in H. destruct H as (m & rest & g' & -> & L & K). eauto 8.
  - eapply star_loop_sound in H; eauto.
  - destruct (at_eos s) eqn:E; [|discriminate].
    exists [], s, g. auto.
  - apply IH1 in H. destruct H as (m & rest & g' & -> & L & K). eauto 8.
Qed.

End Soundness.

Lemma re_match_sound (r : regex) (s rest : str) (g : captures) :
  re_match r s = Some (rest, g) -> exists m, s = m ++ rest /\ lang r m rest.
Proof.
  unfold re_match. intros H. apply rmatch_sound in H.
  destruct H as (m & rest' & g' & -> & L & K). inversion K; subst. eauto.
Qed.

Lemma matched_prefix (m rest : str) : matched_text (m ++ rest) rest = m.
Proof.
  unfold matched_text. rewrite length_app, Nat.add_sub. rewrite firstn_app, Nat.sub_diag, firstn_all.
  simpl. apply app_nil_r.
Qed.

Lemma re_search_eq (r : regex) (s : str) :
  re_search r s =
  match re_match r s with
  | Some (rest, _) => Some (matched_text s rest)
  | None => match s with [] => None | _ :: s' => re_search r s' end
  end.
Proof. destruct s; reflexivity. Qed.

Lemma re_search_sound (r : regex) (s m : str) :
  re_search r s = Some m -> exists rest, lang r m rest.
Proof.
  induction s as [|c s IH]; rewrite re_search_eq;
    (destruct (re_match r _) as [[rest g]|] eqn:E; [|try discriminate; try exact IH]);
    intros [= <-];
    apply re_match_sound in E; destruct E as (m & Hm & L);
    rewrite Hm, matched_prefix; eauto.
Qed.

(** Inversion of [lang] on the shapes the program's patterns are built of. *)

Lemma lang_Cls p m rest : lang (Cls p) m rest -> exists c, m = [c] /\ p c = true.
Proof. inversion 1; subst; eauto. Qed.

Lemma lang_Seq r1 r2 m rest :
  lang (Seq r1 r2) m rest ->
  exists m1 m2, m = m1 ++ m2 /\ lang r1 m1 (m2 ++ rest) /\ lang r2 m2 rest.
Proof. inversion 1; subst; eauto. Qed.

Lemma lang_Eos m rest : lang Eos m rest -> m = [] /\ at_eos rest = true.
Proof. inversion 1; subst; auto. Qed.

Lemma lang_Eps m rest : lang Eps m rest -> m = [].
Proof. inversion 1; subst; auto. Qed.

Lemma lang_Star_Cls p m rest :
  lang (Star (Cls p)) m rest -> Forall (fun c => p c = true) m.
Proof.
  intros H. remember (Star (Cls p)) as r eqn:Hr.
  induction H; try discriminate; inversion Hr; subst.
  - constructor.
  - apply lang_Cls in H. destruct H as (c & -> & Pc).
    simpl. constructor; auto.
Qed.

Lemma lang_Plus_Cls p m rest :
  lang (Plus (Cls p)) m rest ->
  exists c m', m = c :: m' /\ p c = true /\ Forall (fun c => p c = true) m'.
Proof.
  intros H. apply lang_Seq in H. destruct H as (m1 & m2 & -> & L1 & L2).
  apply lang_Cls in L1. destruct L1 as (c & -> & Pc).
  apply lang_Star_Cls in L2. simpl. eauto.
Qed.

Lemma lang_ilits e m rest : lang (ilits e) m rest -> reads_ci m e.
Proof.
  revert m rest. induction e as [|c e IH]; intros m rest H; simpl in H.
  - apply lang_Eps in H. subst. constructor.
  - apply lang_Seq in H. destruct H as (m1 & m2 & -> & L1 & L2).
    apply lang_Cls in L1. destruct L1 as (x & -> & Px).
    simpl. constructor; [exact Px|exact (IH _ _ L2)].
Qed.

(** ** Substitution *)

Lemma sub_from_cons0 (r : regex) (repl : str) (c : char) (s' : str) :
  sub_from r repl (c :: s') 0 =
  match re_match r (c :: s') with
  | Some (rest, _) =>
      match (List.length (c :: s') - List.length rest)%nat with
      | O => repl ++ c :: sub_from r repl s' 0
      | S m => repl ++ sub_from r repl s' m
      end
  | None => c :: sub_from r repl s' 0
  end.
Proof. reflexivity. Qed.

Lemma length_cons_sub (c : char) (s : str) :
  (List.length (c :: s) - List.length s = 1)%nat.
Proof. simpl List.length. lia. Qed.

(** Where the pattern matches something at a character, that character is
    not copied; what is copied, and the replacement, make up the result. *)
Lemma sub_from_Forall_gen (P Q : char -> Prop) (r : regex) (repl : str) :
  Forall Q repl ->
  (forall c s', P c ->
     Q c \/ exists rest g, re_match r (c :: s') = Some (rest, g)
                           /\ (List.length rest < List.length (c :: s'))%nat) ->
  forall s n, Forall P s -> Forall Q (sub_from r repl s n).
Proof.
  intros Hrepl Hstep s. induction s as [|c s' IH]; intros n HP.
  - simpl. destruct n; [destruct (re_match r [])|]; auto.
  - inversion HP as [|? ? Pc HP']; subst.
    destruct n as [|n]; [|simpl; auto].
    rewrite sub_from_cons0.
    destruct (Hstep c s' Pc) as [Qc|(rest & g & E & Hlen)].
    + destruct (re_match r (c :: s')) as [[rest g]|].
      * destruct (List.length (c :: s') - List.length rest)%nat;
          apply Forall_app; auto.
      * auto.
    + rewrite E.
      destruct (List.length (c :: s') - List.length rest)%nat eqn:D; [lia|].
      apply Forall_app; auto.
Qed.

Lemma sub_from_Forall (P : char -> Prop) (r : regex) (repl : str) (s : str) (n : nat) :
  Forall P repl -> Forall P s -> Forall P (sub_from r repl s n).
Proof.
  intros Hrepl. apply sub_from_Forall_gen; auto.
Qed.

(** A pattern that matches at no position leaves the string as it is. *)
Lemma sub_from_id (r : regex) (repl : str) (s : str) :
  (forall p t, s = p ++ t -> re_match r t = None) -> sub_from r repl s 0 = s.
Proof.
  induction s as [|c s' IH]; intros H.
  - simpl. rewrite (H [] []); reflexivity.
  - rewrite sub_from_cons0, (H [] (c :: s')) by reflexivity.
    f_equal. apply IH. intros p t ->. apply (H (c :: p) t). reflexivity.
Qed.

Lemma Forall_suffix (P : char -> Prop) (p t : str) : Forall P (p ++ t) -> Forall P t.
Proof. intros H. apply Forall_app in H. tauto. Qed.

(** ** The steps of the normalizer *)

Lemma step1_filter (title : str) : step1 title = filter kept title.
Proof.
  unfold step1, re_sub. induction title as [|c s IH]; [reflexivity|].
  rewrite sub_from_cons0. unfold re_match, re_special. cbn [rmatch filter].
  destruct (kept c); cbn [negb].
  - f_equal. exact IH.
  - rewrite length_cons_sub. exact IH.
Qed.

Lemma lstrip_Forall (P : char -> Prop) (s : str) : Forall P s -> Forall P (lstrip s).
Proof.
  induction 1 as [|c s Pc Hs IH]; simpl; auto.
  destruct (is_space c); auto.
Qed.

Lemma strip_Forall (P : char -> Prop) (s : str) : Forall P s -> Forall P (strip s).
Proof.
  intros H. unfold strip, rstrip.
  apply Forall_rev, lstrip_Forall, Forall_rev, lstrip_Forall, H.
Qed.

Lemma lower_images_cases (c x : char) :
  In x (lower_images c) -> In x (lower_char c) \/ (c = 931%N /\ x = 962%N).
Proof.
  unfold lower_images. destruct (N.eqb_spec c 931) as [->|_]; [|auto].
  intros [<-|[<-|[]]]; [left; vm_compute; auto|right; auto].
Qed.

Lemma lower_Forall (P Q : char -> Prop) (s : str) :
  (forall c x, P c -> In x (lower_images c) -> Q x) ->
  Forall P s -> Forall Q (lower s).
Proof.
  intros H Hs. unfold lower. apply Forall_forall. intros x Hx.
  apply lower_from_images in Hx. destruct Hx as (c & Hc & Hx).
  rewrite Forall_forall in Hs. eauto.
Qed.

Lemma lstrip_id (s : str) : Forall no_space s -> lstrip s = s.
Proof.
  destruct 1 as [|c s Hc _]; simpl; [reflexivity|].
  unfold no_space in Hc. rewrite Hc. reflexivity.
Qed.

Lemma strip_id (s : str) : Forall no_space s -> strip s = s.
Proof.
  intros H. unfold strip, rstrip.
  rewrite (lstrip_id H), (lstrip_id (Forall_rev H)). apply rev_involutive.
Qed.

Lemma lower_id (s : str) : Forall lower_fixed s -> lower s = s.
Proof.
  intros H. unfold lower. rewrite lower_from_flat_map.
  - induction H as [|c s Hc _ IH]; cbn [flat_map]; [reflexivity|].
    unfold lower_fixed in Hc. rewrite Hc. cbn [app]. f_equal. exact IH.
  - intros Hin. rewrite Forall_forall in H. specialize (H _ Hin).
    vm_compute in H. discriminate H.
Qed.

(** A greedy loop in front of a continuation that always succeeds, succeeds. *)
Lemma star_loop_total (A : Type) f (k : str -> captures -> option A) :
  (forall s g, k s g <> None) -> forall n s g, star_loop f k n s g <> None.
Proof.
  intros Hk n. destruct n as [|n]; intros s g; simpl; [apply Hk|].
  destruct (f s g _); [discriminate|apply Hk].
Qed.

Lemma re_spaces_matches (c : char) (s' : str) :
  is_space c = true ->
  exists rest g, re_match re_spaces (c :: s') = Some (rest, g)
                 /\ (List.length rest < List.length (c :: s'))%nat.
Proof.
  intros Hc.
  destruct (re_match re_spaces (c :: s')) as [[rest g]|] eqn:E.
  - exists rest, g. split; [reflexivity|].
    apply re_match_sound in E. destruct E as (m & Hm & L).
    apply lang_Plus_Cls in L. destruct L as (x & m' & -> & _ & _).
    rewrite Hm. simpl. rewrite length_app. lia.
  - exfalso. revert E. unfold re_match, re_spaces, Plus. cbn [rmatch]. rewrite Hc.
    apply star_loop_total. discriminate.
Qed.

Lemma re_plus_matches (c : char) (s' : str) :
  is_plus c = true ->
  exists rest g, re_match re_plus (c :: s') = Some (rest, g)
                 /\ (List.length rest < List.length (c :: s'))%nat.
Proof.
  intros Hp. exists s', []. unfold re_match, re_plus, lit. cbn [rmatch].
  unfold is_plus in Hp. rewrite N.eqb_sym, Hp. split; [reflexivity|simpl; lia].
Qed.

(** After step 4 a property of the characters still holds if "plus" has it,
    and there is no plus sign. *)
Lemma step4_chars (P : char -> Prop) (s : str) :
  Forall P (py "plus") -> Forall P s ->
  Forall (fun c => P c /\ no_plus c) (step4 s).
Proof.
  intros Hplus. apply sub_from_Forall_gen.
  - eapply Forall_impl; [|apply Forall_and; [exact Hplus|]].
    + intros c H. exact H.
    + repeat constructor.
  - intros c s' Pc. destruct (is_plus c) eqn:Hp.
    + right. apply re_plus_matches, Hp.
    + left. split; assumption.
Qed.

(** After step 5 a property of the characters still holds if the hyphen has
    it, and there is no whitespace. *)
Lemma step5_chars (P : char -> Prop) (s : str) :
  P (ch "-") -> Forall P s -> Forall (fun c => P c /\ no_space c) (step5 s).
Proof.
  intros Hh. apply sub_from_Forall_gen.
  - repeat constructor. exact Hh.
  - intros c s' Pc. destruct (is_space c) eqn:Hs.
    + right. apply re_spaces_matches, Hs.
    + left. split; assumption.
Qed.

Lemma step3_chars (P : char -> Prop) (s : str) :
  P (ch " ") -> Forall P s -> Forall P (step3 s).
Proof. intros Hsp. apply sub_from_Forall. repeat constructor. exact Hsp. Qed.

Lemma step6_chars (P : char -> Prop) (s : str) : Forall P s -> Forall P (step6 s).
Proof. apply sub_from_Forall. constructor. Qed.


(** Lower-casing leaves every character of a key as it is. *)
Lemma normalize_lower_fixed (title : str) : Forall lower_fixed (normalize title).
Proof.
  unfold normalize. apply step6_chars.
  apply (Forall_impl (P := fun c => lower_fixed c /\ no_space c));
    [intros c [H _]; exact H|].
  apply step5_chars; [reflexivity|].
  apply (Forall_impl (P := fun c => lower_fixed c /\ no_plus c));
    [intros c [H _]; exact H|].
  apply step4_chars; [repeat constructor|].
  apply step3_chars; [reflexivity|].
  unfold step2. apply (lower_Forall (P := fun _ => True)).
  - intros c x _ Hx. apply lower_images_cases in Hx.
    destruct Hx as [Hx|[_ ->]]; [|reflexivity].
    pose proof (lower_char_images_fixed c) as F.
    rewrite forallb_forall in F. apply F in Hx. apply str_eqb_eq in Hx. exact Hx.
  - apply Forall_forall. intros; exact I.
Qed.

(** Where the characters of a key come from. *)
Lemma normalize_from_title (title : str) : Forall (from_title title) (normalize title).
Proof.
  set (low := fun x => exists c, In c title /\ kept c = true /\ In x (lower_images c)).
  assert (H2 : Forall low (step2 (step1 title))).
  { unfold step2.
    apply (lower_Forall (P := fun c => In c title /\ kept c = true)).
    - intros c x [Hin Hk] Hx. exists c. auto.
    - apply strip_Forall. rewrite step1_filter. apply Forall_forall.
      intros c Hc. apply filter_In in Hc. exact Hc. }
  assert (H5 : Forall (fun x => ((x = ch " " \/ x = ch "-" \/ In x (py "plus") \/ low x)
                                 /\ no_plus x) /\ no_space x)
                      (step5 (step4 (step3 (step2 (step1 title)))))).
  { apply step5_chars; [split; [auto|reflexivity]|].
    apply step4_chars; [apply Forall_forall; intros x Hx; auto|].
    apply step3_chars; [auto|].
    eapply Forall_impl; [|exact H2]. intros x Hx. auto. }
  unfold normalize. apply step6_chars.
  eapply Forall_impl; [|exact H5].
  intros x [[[Hsp|[Hh|[Hp|(c & Hin & Hk & Hx)]]] Hnp] Hns]; unfold from_title.
  - subst x. discriminate Hns.
  - auto.
  - auto.
  - destruct (is_word c) eqn:Hw; [right; right; exists c; auto|].
    apply lower_images_cases in Hx. destruct Hx as [Hx|[-> _]];
      [|vm_compute in Hw; discriminate Hw].
    pose proof (kept_lower_char c) as F. rewrite Hk in F. cbn [implb] in F.
    rewrite forallb_forall in F. specialize (F x Hx).
    unfold no_plus in Hnp. unfold no_space in Hns. rewrite Hns, Hnp, Hw in F.
    cbn [orb] in F. left. unfold is_hyphen in F. apply N.eqb_eq in F. exact F.
Qed.

(** The key of a title without the capital I with a dot is made of word
    characters and hyphens. *)
Lemma normalize_key_chars (title : str) :
  ~ In 304%N title -> Forall key_char (normalize title).
Proof.
  intros Hno.
  assert (H2 : Forall (fun c => kept c = true) (step2 (step1 title))).
  { unfold step2.
    apply (lower_Forall (P := fun c => c <> 304%N /\ kept c = true)).
    - intros c x [Hne Hk] Hx. apply lower_images_cases in Hx.
      destruct Hx as [Hx|[_ ->]]; [|reflexivity].
      pose proof (lower_char_kept c) as F.
      apply N.eqb_neq in Hne. rewrite Hne, Hk in F. cbn [orb implb] in F.
      rewrite forallb_forall in F. exact (F x Hx).
    - apply strip_Forall. rewrite step1_filter. apply Forall_forall.
      intros c Hc. apply filter_In in Hc. destruct Hc as [Hin Hk].
      split; [intros ->; exact (Hno Hin)|exact Hk]. }
  unfold normalize. apply step6_chars.
  eapply Forall_impl;
    [|apply step5_chars;
      [|apply step4_chars; [|apply step3_chars; [|exact H2]]]].
  - intros c [[Hk Hp] Hs]. unfold key_char, kept in *.
    unfold no_plus in Hp. unfold no_space in Hs. rewrite Hp, Hs in Hk.
    destruct (is_word c), (is_hyphen c); auto.
  - split; reflexivity.
  - repeat constructor.
  - reflexivity.
Qed.

(** ** Keys are fixed points of the first five steps *)

Lemma filter_id (f : char -> bool) (s : str) :
  Forall (fun c => f c = true) s -> filter f s = s.
Proof.
  induction 1 as [|c s Hc _ IH]; simpl; [reflexivity|].
  rewrite Hc, IH. reflexivity.
Qed.

Lemma head_class_no_match (p : char -> bool) (r : regex) (t : str) :
  Forall (fun c => p c = false) t -> re_match (Seq (Cls p) r) t = None.
Proof.
  unfold re_match. cbn [rmatch].
  destruct 1 as [|c t Hc _]; [reflexivity|]. rewrite Hc. reflexivity.
Qed.


Lemma step3_id (k : str) : Forall no_space k -> step3 k = k.
Proof.
  intros H. apply sub_from_id. intros p t ->.
  apply head_class_no_match. apply Forall_suffix in H. exact H.
Qed.

Lemma step4_id (k : str) : Forall no_plus k -> step4 k = k.
Proof.
  intros H. apply sub_from_id. intros p t ->.
  apply Forall_suffix in H. unfold re_match, re_plus, lit. cbn [rmatch].
  destruct H as [|c t Hc _]; [reflexivity|].
  unfold no_plus, is_plus in Hc. rewrite N.eqb_sym, Hc. reflexivity.
Qed.

Lemma step5_id (k : str) : Forall no_space k -> step5 k = k.
Proof.
  intros H. apply sub_from_id. intros p t ->.
  apply head_class_no_match. apply Forall_suffix in H. exact H.
Qed.

Lemma lang_lit c m rest : lang (lit c) m rest -> m = [c].
Proof.
  intros H. apply lang_Cls in H. destruct H as (x & -> & Hx).
  apply N.eqb_eq in Hx. subst. reflexivity.
Qed.

Lemma at_eos_key (rest : str) : Forall key_char rest -> at_eos rest = true -> rest = [].
Proof.
  destruct rest as [|c [|d rest]]; simpl; try discriminate; [reflexivity|].
  intros H E. inversion H as [|? ? Hc _]; subst.
  apply N.eqb_eq in E. subst c. discriminate Hc.
Qed.

(** A match of the edition pattern inside a key shows the suffix. *)
Lemma re_edition_match_suffix (p t rest : str) (g : captures) :
  Forall key_char (p ++ t) ->
  re_match re_edition t = Some (rest, g) ->
  ends_with_edition (p ++ t).
Proof.
  intros Hk E. apply re_match_sound in E. destruct E as (m & -> & L).
  unfold re_edition in L.
  apply lang_Seq in L. destruct L as (h1 & m1 & -> & Lh1 & L).
  apply lang_lit in Lh1. subst h1.
  apply lang_Seq in L. destruct L as (w & m2 & -> & Lw & L).
  apply lang_Plus_Cls in Lw. destruct Lw as (c & w' & -> & Hc & Hw').
  apply lang_Seq in L. destruct L as (h2 & m3 & -> & Lh2 & L).
  apply lang_lit in Lh2. subst h2.
  apply lang_Seq in L. destruct L as (e & m4 & -> & Le & L).
  apply lang_ilits in Le.
  apply lang_Eos in L. destruct L as [-> Eos].
  rewrite app_nil_r in *.
  assert (Hr : Forall key_char rest).
  { repeat rewrite Forall_app in Hk. tauto. }
  apply at_eos_key in Eos; [|exact Hr]. subst rest.
  exists p, (c :: w'), e. split; [discriminate|]. split; [constructor; assumption|].
  split; [exact Le|]. rewrite app_nil_r. reflexivity.
Qed.

Lemma step6_id (k : str) :
  Forall key_char k -> ~ ends_with_edition k -> step6 k = k.
Proof.
  intros Hk Hno. apply sub_from_id. intros p t ->.
  destruct (re_match re_edition t) as [[rest g]|] eqn:E; [|reflexivity].
  exfalso. apply Hno. eapply re_edition_match_suffix; eauto.
Qed.

Lemma normalize_fixed (k : str) :
  Forall key_char k -> Forall lower_fixed k ->
  ~ ends_with_edition k -> normalize k = k.
Proof.
  intros Hk Hl Hno.
  assert (Hs : Forall no_space k).
  { eapply Forall_impl; [|exact Hk]. apply key_char_no_space. }
  assert (Hp : Forall no_plus k).
  { eapply Forall_impl; [|exact Hk]. apply key_char_no_plus. }
  assert (Hkept : Forall (fun c => kept c = true) k).
  { eapply Forall_impl; [|exact Hk]. apply key_char_kept. }
  unfold normalize.
  rewrite step1_filter, (filter_id _ Hkept).
  unfold step2. rewrite (strip_id Hs), (lower_id Hl).
  rewrite (step3_id Hs), (step4_id Hp), (step5_id Hs).
  apply step6_id; assumption.
Qed.

(** ** What steps four and five write *)







(** ** Key normalizer: results *)

Example normalize_rally_x :
  normalize (py "Arcade Archives NEW RALLY-X") = py "arcade-archives-new-rally-x".
Proof. vm_compute. reflexivity. Qed.

Example normalize_overcooked :
  normalize (py "Overcooked! 2 - Gourmet Edition") = py "overcooked-2".
Proof. vm_compute. reflexivity. Qed.

(** C3, as amended: the title "Notes + Stickers Complete Edition" gives the
    key segment [notes-plus-stickers]: the blank before the plus sign becomes
    a hyphen between "notes" and "plus", and the suffix "-complete-edition"
    is dropped. *)
Theorem normalize_notes_stickers :
  normalize (py "Notes + Stickers Complete Edition") = py "notes-plus-stickers"
  /\ create_metacritic_url (py "Notes + Stickers Complete Edition")
     = py "https://www.metacritic.com/game/notes-plus-stickers/".
Proof. split; vm_compute; reflexivity. Qed.

(** C3, as stated, fails: the key segment is not [notesplus-stickers]. *)
Lemma normalize_notes_stickers_not_joined :
  normalize (py "Notes + Stickers Complete Edition") <> py "notesplus-stickers".
Proof. vm_compute. discriminate. Qed.

(** C4, as stated, fails: an underscore is none of letter, digit, whitespace,
    hyphen, plus, and it passes step 1 and reaches the key. *)
Lemma underscore_survives :
  spec_step1_keeps (ch "_") = false
  /\ step1 (py "a_b") <> filter spec_step1_keeps (py "a_b")
  /\ In (ch "_") (normalize (py "a_b")).
Proof.
  split; [reflexivity|]. split; [vm_compute; discriminate|].
  vm_compute. right. left. reflexivity.
Qed.

(** C4, as amended: step 1 keeps, in order, exactly the characters that are a
    word character (letter, digit or underscore), whitespace, a hyphen or a
    plus sign, and removes every other one; every character of the derived
    key is a hyphen, a letter of "plus", or comes from lower-casing a word
    character of the title. *)
Theorem step1_keeps_word_space_plus_hyphen (title : str) :
  step1 title
  = filter (fun c => is_alnum c || (c =? ch "_")%N
                     || is_space c || is_plus c || is_hyphen c) title
  /\ forall x, In x (normalize title) ->
       x = ch "-" \/ In x (py "plus")
       \/ exists c, In c title
                    /\ (is_alnum c || (c =? ch "_")%N = true)
                    /\ In x (lower_images c).
Proof.
  split.
  - apply step1_filter.
  - intros x Hx. pose proof (normalize_from_title title) as H.
    rewrite Forall_forall in H. exact (H x Hx).
Qed.

(** Lower-casing a capital I with a dot leaves a combining dot in the key,
    which is no word character; step 1 removes it the second time. *)
Example normalize_dotted_I :
  normalize [304%N] = [105; 775]%N /\ normalize [105; 775]%N = [105%N]
  /\ is_word 304%N = true /\ is_word 775%N = false.
Proof. repeat split; vm_compute; reflexivity. Qed.

(** A dotless i counts as an i under IGNORECASE. *)
Example normalize_dotless_edition :
  normalize (py "A B " ++ [101; 100; 305; 116; 305; 111; 110]%N) = py "a".
Proof. vm_compute. reflexivity. Qed.

(** A key can still end in an edition suffix, and then it is normalized
    further. *)
Example normalize_twice_edition :
  normalize (py "A B Edition C Edition") = py "a-b-edition"
  /\ normalize (py "a-b-edition") = py "a".
Proof. split; vm_compute; reflexivity. Qed.

Lemma reads_ci_edition (e : str) :
  reads_ci e (py "edition") ->
  exists e' x, e = e' ++ [x] /\ ci_match (ch "n") x = true.
Proof.
  unfold reads_ci. set (l := py "edition"). vm_compute in l. subst l. intros H.
  repeat match goal with
         | H : Forall2 _ _ (_ :: _) |- _ => inversion H; subst; clear H
         end.
  match goal with H : Forall2 _ _ [] |- _ => inversion H; subst; clear H end.
  match goal with
  | H : ci_match 110%N ?x = true |- exists e' y, [?a; ?b; ?c; ?d; ?f; ?g; ?x] = _ /\ _ =>
      exists [a; b; c; d; f; g], x; split; [reflexivity|exact H]
  end.
Qed.

(** A key whose last character is no n in any case has no edition suffix. *)
Lemma no_edition_suffix (k : str) :
  (forall x t, rev k = x :: t -> ci_match (ch "n") x = false) ->
  ~ ends_with_edition k.
Proof.
  intros H (p & w & e & _ & _ & He & Hk).
  apply reads_ci_edition in He. destruct He as (e' & x & -> & Hx).
  apply (f_equal (@rev char)) in Hk. rewrite !rev_app_distr in Hk. simpl in Hk.
  rewrite (H _ _ Hk) in Hx. discriminate Hx.
Qed.

(** C7, as stated, fails: the key of the title made of the one letter
    U+0130 (a capital I with a dot) is an i and a combining dot; it ends in
    no edition suffix, and normalizing it again gives "i". *)
Lemma dotted_I_key_not_fixed :
  [105; 775]%N = normalize [304%N]
  /\ ~ ends_with_edition [105; 775]%N
  /\ normalize [105; 775]%N <> [105; 775]%N.
Proof.
  split; [vm_compute; reflexivity|]. split.
  - apply no_edition_suffix. intros x t [= <- _]. reflexivity.
  - vm_compute. discriminate.
Qed.

(** C7, as amended: a key produced by [normalize] that is made of word
    characters and hyphens only and does not end in a hyphen-joined
    "-something-edition" suffix is returned unchanged by [normalize]. *)
Theorem normalize_idempotent_on_keys (title k : str) :
  k = normalize title ->
  Forall (fun c => is_word c || is_hyphen c = true) k ->
  ~ ends_with_edition k ->
  normalize k = k.
Proof.
  intros -> Hk Hno. apply normalize_fixed; [exact Hk|apply normalize_lower_fixed|exact Hno].
Qed.

Lemma normalize_idempotent_on_keys_witness :
  py "overcooked-2" = normalize (py "Overcooked! 2 - Gourmet Edition")
  /\ Forall (fun c => is_word c || is_hyphen c = true) (py "overcooked-2")
  /\ ~ ends_with_edition (py "overcooked-2")
  /\ normalize (py "overcooked-2") = py "overcooked-2".
Proof.
  assert (H1 : py "overcooked-2" = normalize (py "Overcooked! 2 - Gourmet Edition"))
    by (vm_compute; reflexivity).
  assert (H2 : Forall (fun c => is_word c || is_hyphen c = true) (py "overcooked-2"))
    by (repeat constructor).
  assert (H3 : ~ ends_with_edition (py "overcooked-2")).
  { apply no_edition_suffix. intros x t H.
    vm_compute in H. injection H as <- _. reflexivity. }
  split; [exact H1|]. split; [exact H2|]. split; [exact H3|].
  exact (@normalize_idempotent_on_keys _ _ H1 H2 H3).
Defined.


(** ** Field extractor: each field on its own *)

Lemma only_Ok (A : Type) (a : A) : only_AttributeError (Ok a).
Proof. intros e H. discriminate H. Qed.

Lemma only_bind (A B : Type) (m : result A) (f : A -> result B) :
  only_AttributeError m -> (forall a, only_AttributeError (f a)) ->
  only_AttributeError (bind m f).
Proof.
  intros Hm Hf e. destruct m as [a|e']; simpl.
  - apply Hf.
  - intros [= <-]. apply Hm. reflexivity.
Qed.

Lemma only_dot_find x name q : only_AttributeError (dot_find x name q).
Proof. intros e. destruct x; simpl; [discriminate|intros [= <-]; reflexivity]. Qed.

Lemma only_dot_text x : only_AttributeError (dot_text x).
Proof. intros e. destruct x; simpl; [discriminate|intros [= <-]; reflexivity]. Qed.

Lemma only_search_group r s : only_AttributeError (search_group r s).
Proof.
  intros e. unfold search_group.
  destruct (re_search r s); [discriminate|intros [= <-]; reflexivity].
Qed.

Create HintDb fields.
#[local] Hint Resolve only_Ok only_dot_find only_dot_text only_search_group : fields.

Ltac only_attr :=
  repeat (apply only_bind; [auto with fields|intro]); auto with fields.

(** A guarded block whose body raises nothing but [AttributeError] returns. *)
Lemma except_AttributeError_returns (A : Type) (body : result (option A)) :
  only_AttributeError body -> exists v, except_AttributeError body = Ok v.
Proof.
  intros H. unfold except_AttributeError, try_except.
  destruct body as [v|e]; [eauto|].
  rewrite (H e eq_refl). simpl. eauto.
Qed.

Lemma get_meta_score_returns game : exists v, get_meta_score game = Ok v.
Proof. apply except_AttributeError_returns. only_attr. Qed.

Lemma get_meta_reviews_returns game : exists v, get_meta_reviews game = Ok v.
Proof. apply except_AttributeError_returns. only_attr. Qed.

Lemma get_user_score_returns game : exists v, get_user_score game = Ok v.
Proof. apply except_AttributeError_returns. only_attr. Qed.

Lemma get_user_reviews_returns game : exists v, get_user_reviews game = Ok v.
Proof. apply except_AttributeError_returns. only_attr. Qed.

Lemma get_publisher_returns game : exists v, get_publisher game = Ok v.
Proof. apply except_AttributeError_returns. only_attr. Qed.

Lemma get_genre_returns game : exists v, get_genre game = Ok v.
Proof. apply except_AttributeError_returns. only_attr. Qed.

(** Reading a region by a chain of [.find] calls and [.text]. *)
Ltac follow_path :=
  unfold region_text, except_AttributeError;
  cbn [locate option_map bind dot_find dot_text try_except];
  repeat match goal with
         | |- context [find ?n ?q ?g] =>
             destruct (find n q g);
             cbn [locate option_map bind dot_find dot_text try_except is_AttributeError]
         end.

Lemma get_meta_score_found game t :
  region_text meta_score_path game = Some t ->
  get_meta_score game = Ok (tbd_to_None t).
Proof.
  unfold get_meta_score, meta_score_path. follow_path;
    try discriminate; intros [= <-]; reflexivity.
Qed.

Lemma get_user_score_found game t :
  region_text user_score_path game = Some t ->
  get_user_score game = Ok (tbd_to_None t).
Proof.
  unfold get_user_score, user_score_path. follow_path;
    try discriminate; intros [= <-]; reflexivity.
Qed.

Lemma get_release_date_found game t :
  region_text release_date_path game = Some t ->
  get_release_date game =
  match strptime t with
  | Ok d => Ok (Some (strftime d))
  | Raise e => if is_AttributeError e then Ok None else Raise e
  end.
Proof.
  unfold get_release_date, release_date_path. follow_path;
    try discriminate; intros [= <-]; destruct (strptime _); reflexivity.
Qed.

Lemma get_release_date_absent game :
  region_text release_date_path game = None ->
  get_release_date game = Ok None.
Proof.
  unfold get_release_date, release_date_path. follow_path;
    try discriminate; reflexivity.
Qed.

Lemma get_publisher_found game t :
  region_text publisher_path game = Some t ->
  get_publisher game = Ok (Some t).
Proof.
  unfold get_publisher, publisher_path. follow_path;
    try discriminate; intros [= <-]; reflexivity.
Qed.

Lemma get_meta_reviews_found game t :
  region_text meta_reviews_path game = Some t ->
  get_meta_reviews game = Ok (option_map remove_commas (re_search re_count t)).
Proof.
  unfold get_meta_reviews, meta_reviews_path, search_group. follow_path;
    try discriminate; intros [= <-]; destruct (re_search _ _); reflexivity.
Qed.

Lemma get_user_reviews_found game t :
  region_text user_reviews_path game = Some t ->
  get_user_reviews game = Ok (option_map remove_commas (re_search re_count t)).
Proof.
  unfold get_user_reviews, user_reviews_path, search_group. follow_path;
    try discriminate; intros [= <-]; destruct (re_search _ _); reflexivity.
Qed.

Lemma get_genre_found game t :
  region_text genre_path game = Some t ->
  get_genre game = Ok (Some (strip t)).
Proof.
  unfold get_genre, genre_path. follow_path;
    try discriminate; intros [= <-]; reflexivity.
Qed.

Example count_1234_ratings :
  option_map remove_commas (re_search re_count (py "1,234 Ratings")) = Some (py "1234").
Proof. vm_compute. reflexivity. Qed.

Lemma make_date_raises y m d e : make_date y m d = Raise e -> e = ValueError.
Proof.
  unfold make_date. destruct (_ && _)%bool; [discriminate|]. intros [= <-]. reflexivity.
Qed.

(** [strptime] raises nothing but [ValueError]. *)
Lemma strptime_raises t e : strptime t = Raise e -> e = ValueError.
Proof.
  unfold strptime.
  destruct (re_match re_date t) as [[[|c rest] g]|]; try (intros [= <-]; reflexivity).
  destruct (index_of _ _ _); [apply make_date_raises|intros [= <-]; reflexivity].
Qed.

(** The fields of a returned record are what the seven blocks returned. *)
Lemma parse_game_info_fields game info :
  parse_game_info game = Ok info ->
  get_meta_score game = Ok (meta_score info)
  /\ get_meta_reviews game = Ok (meta_reviews info)
  /\ get_user_score game = Ok (user_score info)
  /\ get_user_reviews game = Ok (user_reviews info)
  /\ get_release_date game = Ok (release_date info)
  /\ get_publisher game = Ok (publisher info)
  /\ get_genre game = Ok (genre info).
Proof.
  unfold parse_game_info.
  destruct (get_meta_score game); [|discriminate].
  destruct (get_meta_reviews game); [|discriminate].
  destruct (get_user_score game); [|discriminate].
  destruct (get_user_reviews game); [|discriminate].
  destruct (get_release_date game); [|discriminate].
  destruct (get_publisher game); [|discriminate].
  destruct (get_genre game); [|discriminate].
  cbn [bind]. intros [= <-]. cbn. repeat split; reflexivity.
Qed.

(** The extractor raises exactly what the release-date block raises. *)
Lemma parse_game_info_raises game e :
  parse_game_info game = Raise e <-> get_release_date game = Raise e.
Proof.
  unfold parse_game_info.
  destruct (get_meta_score_returns game) as [v1 ->].
  destruct (get_meta_reviews_returns game) as [v2 ->].
  destruct (get_user_score_returns game) as [v3 ->].
  destruct (get_user_reviews_returns game) as [v4 ->].
  destruct (get_publisher_returns game) as [v6 ->].
  destruct (get_genre_returns game) as [v7 ->].
  cbn [bind]. destruct (get_release_date game) as [v5|e5]; cbn [bind].
  - split; discriminate.
  - split; intros [= ->]; reflexivity.
Qed.

(** The extractor returns whenever the release date is absent or parses. *)
Lemma parse_game_info_returns game :
  (forall t, region_text release_date_path game = Some t ->
             exists d, strptime t = Ok d) ->
  exists info, parse_game_info game = Ok info.
Proof.
  intros H. destruct (parse_game_info game) as [info|e] eqn:E; [eauto|].
  exfalso. apply parse_game_info_raises in E.
  destruct (region_text release_date_path game) as [t|] eqn:R.
  - rewrite (get_release_date_found _ R) in E.
    destruct (H t eq_refl) as [d Hd]. rewrite Hd in E. discriminate E.
  - rewrite (get_release_date_absent _ R) in E. discriminate E.
Qed.

(** ** Field extractor: results *)

Example full_page_fields :
  parse_game_info full_page
  = Ok (mk_info (Some (py "87")) (Some (py "1234")) None (Some (py "56"))
                (Some (py "05-01-2024")) (Some (py "Nintendo")) (Some (py "Platformer"))).
Proof. vm_compute. reflexivity. Qed.

Example strptime_jan_05 :
  strptime (py "Jan 05, 2024") = Ok (mkdate 2024 1 5)
  /\ strftime (mkdate 2024 1 5) = py "05-01-2024".
Proof. split; vm_compute; reflexivity. Qed.

(** C1, on the code: when the release-date element is found and its text does
    not parse in the format "%b %d, %Y", [parse_game_info] raises
    [ValueError], which its [except AttributeError] does not catch; the claim
    has the field null and nothing raised. *)
Theorem unparseable_release_date_raises (game : node) (t : str) :
  region_text release_date_path game = Some t ->
  (forall d, strptime t <> Ok d) ->
  parse_game_info game = Raise ValueError.
Proof.
  intros R Hno. apply parse_game_info_raises.
  rewrite (get_release_date_found _ R).
  destruct (strptime t) as [d|e] eqn:E.
  - destruct (Hno d). reflexivity.
  - rewrite (strptime_raises _ E). reflexivity.
Qed.

Lemma unparseable_release_date_raises_witness :
  region_text release_date_path tba_page = Some (py "TBA")
  /\ (forall d, strptime (py "TBA") <> Ok d)
  /\ parse_game_info tba_page = Raise ValueError.
Proof.
  assert (H1 : region_text release_date_path tba_page = Some (py "TBA"))
    by (vm_compute; reflexivity).
  assert (H2 : forall d, strptime (py "TBA") <> Ok d)
    by (intros d; vm_compute; discriminate).
  split; [exact H1|]. split; [exact H2|].
  exact (@unparseable_release_date_raises tba_page (py "TBA") H1 H2).
Defined.

(** C9: when the score region of the critics (of the users) is found, the
    field is null if the text of the region equals "tbd" up to case, and the
    text itself otherwise. *)
Theorem score_tbd_is_null (game : node) :
  (forall t, region_text meta_score_path game = Some t ->
     get_meta_score game
     = Ok (if eq_ignore_case t (py "tbd") then None else Some t)
     /\ forall info, parse_game_info game = Ok info ->
          meta_score info = if eq_ignore_case t (py "tbd") then None else Some t)
  /\ (forall t, region_text user_score_path game = Some t ->
     get_user_score game
     = Ok (if eq_ignore_case t (py "tbd") then None else Some t)
     /\ forall info, parse_game_info game = Ok info ->
          user_score info = if eq_ignore_case t (py "tbd") then None else Some t).
Proof.
  split; intros t R.
  - pose proof (get_meta_score_found _ R) as H. split; [exact H|].
    intros info Hi. apply parse_game_info_fields in Hi.
    destruct Hi as (H1 & _). rewrite H1 in H. injection H as H. exact H.
  - pose proof (get_user_score_found _ R) as H. split; [exact H|].
    intros info Hi. apply parse_game_info_fields in Hi.
    destruct Hi as (_ & _ & H3 & _). rewrite H3 in H. injection H as H. exact H.
Qed.

Lemma score_tbd_is_null_witness :
  region_text meta_score_path full_page = Some (py "87")
  /\ get_meta_score full_page = Ok (Some (py "87"))
  /\ region_text user_score_path full_page = Some (py "tbd")
  /\ get_user_score full_page = Ok None.
Proof.
  assert (H1 : region_text meta_score_path full_page = Some (py "87"))
    by (vm_compute; reflexivity).
  assert (H2 : region_text user_score_path full_page = Some (py "tbd"))
    by (vm_compute; reflexivity).
  split; [exact H1|]. split.
  - exact (proj1 (proj1 (score_tbd_is_null full_page) _ H1)).
  - split; [exact H2|].
    exact (proj1 (proj2 (score_tbd_is_null full_page) _ H2)).
Defined.

(** ** Document fetcher: results *)


Lemma get_soup_cases (BeautifulSoup : str -> node)
      (requests_get : str -> list (str * str) -> get_outcome)
      (url : str) (headers : list (str * str)) :
  match requests_get url headers with
  | GetRaises e =>
      if is_RequestException e
      then get_soup BeautifulSoup requests_get url headers = Ok None
      else get_soup BeautifulSoup requests_get url headers = Raise e
  | Response status_code body =>
      if ((400 <=? status_code) && (status_code <? 600))%Z
      then get_soup BeautifulSoup requests_get url headers = Ok None
      else get_soup BeautifulSoup requests_get url headers
           = Ok (Some (BeautifulSoup body))
  end.
Proof.
  unfold get_soup, try_except.
  destruct (requests_get url headers) as [e|status_code body].
  - destruct (is_RequestException e); reflexivity.
  - unfold raise_for_status.
    destruct ((400 <=? status_code) && (status_code <? 600))%Z; reflexivity.
Qed.


(** ** Records *)

Lemma dict_get_set_same (k : str) (v : pyval) (d : record) :
  dict_get k (dict_set k v d) = Some v.
Proof.
  induction d as [|[k' v'] d IH]; simpl.
  - rewrite str_eqb_refl. reflexivity.
  - destruct (str_eqb k k') eqn:E; simpl.
    + rewrite str_eqb_refl. reflexivity.
    + rewrite E. exact IH.
Qed.

Lemma dict_get_set_other (k k' : str) (v : pyval) (d : record) :
  k <> k' -> dict_get k (dict_set k' v d) = dict_get k d.
Proof.
  intros Hne. induction d as [|[k0 v0] d IH]; simpl.
  - rewrite (str_eqb_neq Hne). reflexivity.
  - destruct (str_eqb k' k0) eqn:E; simpl.
    + apply str_eqb_eq in E. subst k0. rewrite (str_eqb_neq Hne). reflexivity.
    + destruct (str_eqb k k0); [reflexivity|exact IH].
Qed.

Lemma dict_get_not_in (k : str) (d : record) :
  ~ In k (map fst d) -> dict_get k d = None.
Proof.
  induction d as [|[k' v'] d IH]; simpl; [reflexivity|].
  intros H. rewrite str_eqb_neq by (intros ->; apply H; left; reflexivity).
  apply IH. intros Hin. apply H. right. exact Hin.
Qed.

Lemma dict_get_in (k : str) (v : pyval) (d : record) :
  NoDup (map fst d) -> In (k, v) d -> dict_get k d = Some v.
Proof.
  induction d as [|[k' v'] d IH]; simpl; [tauto|].
  intros Hnd [[= -> ->]|Hin].
  - rewrite str_eqb_refl. reflexivity.
  - inversion Hnd as [|? ? Hk' Hnd']; subst.
    rewrite str_eqb_neq; [apply IH; assumption|].
    intros ->. apply Hk'. apply (in_map fst) in Hin. exact Hin.
Qed.

(** After [d.update(other)] a key reads as in [other], or else as before. *)
Lemma dict_get_update (k : str) (other d : record) :
  NoDup (map fst other) ->
  dict_get k (dict_update d other)
  = match dict_get k other with
    | Some v => Some v
    | None => dict_get k d
    end.
Proof.
  unfold dict_update. revert d.
  induction other as [|[k1 v1] other IH]; intros d Hnd; [reflexivity|].
  inversion Hnd as [|? ? Hk1 Hnd']; subst.
  cbn [fold_left fst snd]. rewrite IH by assumption. cbn [dict_get].
  destruct (str_eqb k k1) eqn:E.
  - apply str_eqb_eq in E. subst k1.
    rewrite (dict_get_not_in _ _ Hk1). apply dict_get_set_same.
  - destruct (dict_get k other); [reflexivity|].
    apply dict_get_set_other. intros ->. rewrite str_eqb_refl in E. discriminate.
Qed.

Lemma enrichment_keys_NoDup : NoDup enrichment_keys.
Proof.
  vm_compute. repeat constructor; simpl; intuition discriminate.
Qed.

Lemma info_dict_keys (i : game_info) : map fst (info_dict i) = enrichment_keys.
Proof. reflexivity. Qed.

Lemma na_dict_keys : map fst na_dict = enrichment_keys.
Proof. reflexivity. Qed.

(** Writing seven fields over a record augments it. *)
Lemma dict_update_augmented (game fields : record) :
  map fst fields = enrichment_keys -> augmented game (dict_update game fields).
Proof.
  intros Hk. exists fields.
  assert (Hnd : NoDup (map fst fields)) by (rewrite Hk; apply enrichment_keys_NoDup).
  split; [exact Hk|]. split; [reflexivity|]. split.
  - intros k v Hin. rewrite (dict_get_update _ _ _ Hnd).
    rewrite (dict_get_in _ _ _ Hnd Hin). reflexivity.
  - intros k Hout. rewrite (dict_get_update _ _ _ Hnd).
    rewrite dict_get_not_in; [reflexivity|]. rewrite Hk. exact Hout.
Qed.

(** ** The review count is a number *)

Lemma lang_re_count m rest :
  lang re_count m rest -> exists d m', m = d :: m' /\ is_digit d = true.
Proof.
  unfold re_count. intros L.
  apply lang_Seq in L. destruct L as (m1 & m2 & -> & L1 & _).
  apply lang_Seq in L1. destruct L1 as (a & b & -> & La & _).
  apply lang_Cls in La. destruct La as (d & -> & Hd).
  simpl. eauto.
Qed.

Lemma digit_not_comma (d : char) :
  is_digit d = true -> negb (d =? ch ",")%N = true /\ d <> ch "N".
Proof.
  intros H. split.
  - apply negb_true_iff, N.eqb_neq. intros ->. vm_compute in H. discriminate H.
  - intros ->. vm_compute in H. discriminate H.
Qed.

Lemma count_not_NA (txt m : str) :
  re_search re_count txt = Some m -> remove_commas m <> py "N/A".
Proof.
  intros H. apply re_search_sound in H. destruct H as (rest & L).
  apply lang_re_count in L. destruct L as (d & m' & -> & Hd).
  apply digit_not_comma in Hd. destruct Hd as [Hc Hn].
  unfold remove_commas. cbn [filter]. rewrite Hc.
  intros [= E _]. apply Hn, E.
Qed.

Lemma get_meta_reviews_not_NA (game : node) :
  get_meta_reviews game <> Ok (Some (py "N/A")).
Proof.
  unfold get_meta_reviews. follow_path; try discriminate.
  unfold search_group. destruct (re_search re_count _) as [m|] eqn:E;
    cbn [bind try_except is_AttributeError]; [|discriminate].
  intros [= H]. exact (count_not_NA _ E H).
Qed.

(** ** Orchestrator: results *)


Section OrchestratorFacts.

Variable BeautifulSoup : str -> node.
Variable requests_get : nat -> str -> list (str * str) -> get_outcome.

(** One turn writes the marker and leaves the count, or writes what the
    extractor returned and adds one. *)
Lemma enrich_cases i game n rec n' :
  enrich BeautifulSoup requests_get i game n = Ok (rec, n') ->
  (rec = dict_update game na_dict /\ n' = n)
  \/ (exists doc info,
        parse_game_info doc = Ok info
        /\ rec = dict_update game (info_dict info) /\ n' = S n).
Proof.
  unfold enrich.
  destruct (get_title game) as [title|e]; [|discriminate]. cbn [bind].
  destruct (get_soup _ _ _ _) as [[doc|]|e]; [| |discriminate]; cbn [bind].
  - destruct (parse_game_info doc) as [info|e] eqn:E; [|discriminate].
    cbn [bind]. intros [= <- <-]. right. eauto.
  - intros [= <- <-]. left. auto.
Qed.

Lemma enrich_loop_turns catalogue : forall i n out n',
  enrich_loop BeautifulSoup requests_get i catalogue n = Ok (out, n') ->
  Forall2 (fun game rec => exists j m m', enrich BeautifulSoup requests_get j game m = Ok (rec, m'))
          catalogue out.
Proof.
  induction catalogue as [|game rest IH]; intros i n out n'; cbn [enrich_loop].
  - intros [= <- <-]. constructor.
  - destruct (enrich BeautifulSoup requests_get i game n) as [[rec m]|e] eqn:E; [|discriminate].
    cbn [bind fst snd].
    destruct (enrich_loop BeautifulSoup requests_get (S i) rest m) as [[out' m']|e] eqn:E';
      [|discriminate].
    cbn [bind fst snd]. intros [= <- <-].
    constructor; [exists i, n, m; exact E|]. eapply IH. exact E'.
Qed.

Lemma scrape_game_info_turns catalogue out st :
  scrape_game_info BeautifulSoup requests_get catalogue = Ok (out, st) ->
  Forall2 (fun game rec => exists j m m', enrich BeautifulSoup requests_get j game m = Ok (rec, m'))
          catalogue out.
Proof.
  unfold scrape_game_info.
  destruct (enrich_loop BeautifulSoup requests_get 0 catalogue 0) as [[out' n']|e] eqn:E;
    [|discriminate].
  cbn [bind fst snd]. destruct (true_div _ _); [|discriminate].
  cbn [bind]. intros [= <- _]. eapply enrich_loop_turns. exact E.
Qed.

(** C2, on the code: on an empty catalogue the division by
    [len(catalogue)] raises [ZeroDivisionError], before any row is written;
    the claim has the rate well defined there. *)
Theorem empty_catalogue_raises :
  scrape_game_info BeautifulSoup requests_get [] = Raise ZeroDivisionError.
Proof. reflexivity. Qed.

(** On a run that ends, the rate is the count over the number of records. *)
Lemma success_rate_is_quotient catalogue out st :
  scrape_game_info BeautifulSoup requests_get catalogue = Ok (out, st) ->
  (0 < List.length catalogue)%nat
  /\ scrape_success_rate st
     = Qmake (Z.of_nat (total_game_info_scraped st))
             (Pos.of_nat (List.length catalogue)).
Proof.
  unfold scrape_game_info.
  destruct (enrich_loop BeautifulSoup requests_get 0 catalogue 0) as [[out' n']|e];
    [|discriminate].
  cbn [bind fst snd]. unfold true_div.
  destruct (List.length catalogue) as [|len]; [discriminate|].
  cbn [bind]. intros [= _ <-]. split; [lia|reflexivity].
Qed.


(** C6: the run gives as many records as it was given, in the same order:
    the record at each place is the input record at that place with the
    seven fields written over it, every other key as before. *)
Theorem output_keeps_count_and_order catalogue out st :
  scrape_game_info BeautifulSoup requests_get catalogue = Ok (out, st) ->
  List.length out = List.length catalogue /\ Forall2 augmented catalogue out.
Proof.
  intros H. apply scrape_game_info_turns in H. split.
  - symmetry. eapply Forall2_length. exact H.
  - eapply Forall2_impl; [|exact H].
    intros game rec (j & m & m' & Hturn). apply enrich_cases in Hturn.
    destruct Hturn as [[-> _]|(doc & info & _ & -> & _)].
    + apply dict_update_augmented, na_dict_keys.
    + apply dict_update_augmented, info_dict_keys.
Qed.

End OrchestratorFacts.

(** The run ends when the catalogue is not empty, every record has a title
    string, the network fails only the way [requests] does, and no fetched
    page shows a release date that does not parse. *)
Lemma scrape_game_info_returns
      (BeautifulSoup : str -> node)
      (requests_get : nat -> str -> list (str * str) -> get_outcome)
      (catalogue : list record) :
  catalogue <> [] ->
  Forall (fun game => exists title, get_title game = Ok title) catalogue ->
  (forall i url,
     match requests_get i url request_headers with
     | GetRaises e => is_RequestException e = true
     | Response _ body =>
         forall t, region_text release_date_path (BeautifulSoup body) = Some t ->
                   exists d, strptime t = Ok d
     end) ->
  exists out st, scrape_game_info BeautifulSoup requests_get catalogue = Ok (out, st).
Proof.
  intros Hne Ht Hnet.
  assert (Hturn : forall i game n,
             (exists title, get_title game = Ok title) ->
             exists rec n', enrich BeautifulSoup requests_get i game n = Ok (rec, n')).
  { intros i game n [title Htitle]. unfold enrich. rewrite Htitle. cbn [bind].
    pose proof (get_soup_cases BeautifulSoup (requests_get i)
                  (create_metacritic_url title) request_headers) as Hs.
    pose proof (Hnet i (create_metacritic_url title)) as Hn.
    destruct (requests_get i (create_metacritic_url title) request_headers)
      as [e|status_code body].
    - rewrite Hn in Hs. rewrite Hs. cbn [bind]. eauto.
    - destruct ((400 <=? status_code) && (status_code <? 600))%Z;
        rewrite Hs; cbn [bind]; [eauto|].
      destruct (parse_game_info_returns _ Hn) as [info ->]. cbn [bind]. eauto. }
  assert (Hloop : forall i n,
             exists out n', enrich_loop BeautifulSoup requests_get i catalogue n
                            = Ok (out, n')).
  { clear Hne. induction Ht as [|game rest Hg _ IH]; intros i n; cbn [enrich_loop].
    - eauto.
    - destruct (Hturn i game n Hg) as (rec & m & ->). cbn [bind fst snd].
      destruct (IH (S i) m) as (out & n' & ->). cbn [bind fst snd]. eauto. }
  unfold scrape_game_info. destruct (Hloop 0%nat 0%nat) as (out & n' & ->).
  cbn [bind fst snd]. unfold true_div.
  destruct catalogue as [|game rest]; [congruence|]. cbn [List.length bind]. eauto.
Qed.

Example two_games_run :
  scrape_game_info (fun _ => full_page) first_found two_games
  = Ok (two_games_enriched, mk_stats 1 (Qmake 1 2)).
Proof. vm_compute. reflexivity. Qed.



Lemma output_keeps_count_and_order_witness :
  scrape_game_info (fun _ => full_page) first_found two_games
  = Ok (two_games_enriched, mk_stats 1 (Qmake 1 2))
  /\ List.length two_games_enriched = List.length two_games
  /\ Forall2 augmented two_games two_games_enriched.
Proof.
  assert (H : scrape_game_info (fun _ => full_page) first_found two_games
              = Ok (two_games_enriched, mk_stats 1 (Qmake 1 2)))
    by (vm_compute; reflexivity).
  split; [exact H|].
  exact (@output_keeps_count_and_order _ _ _ _ _ H).
Defined.

(** * Further properties *)

(** ** Key normalizer *)

(** X1: a key is in lower case: lower-casing it changes nothing. *)
Theorem key_is_lower_case (title : str) : lower (normalize title) = normalize title.
Proof. apply lower_id, normalize_lower_fixed. Qed.

Lemma filter_kept_drop (a b : str) (c : char) :
  kept c = false -> filter kept (a ++ c :: b) = filter kept (a ++ b).
Proof.
  intros Hc. rewrite !filter_app. cbn [filter]. rewrite Hc. reflexivity.
Qed.

Lemma normalize_by_step1 (t1 t2 : str) :
  step1 t1 = step1 t2 -> normalize t1 = normalize t2.
Proof. intros H. unfold normalize. rewrite H. reflexivity. Qed.

(** X2: a character that step 1 removes (punctuation, a symbol) leaves no
    trace: the title with it and the title without it have the same key. *)
Theorem normalize_ignores_symbols (a b : str) (c : char) :
  kept c = false -> normalize (a ++ c :: b) = normalize (a ++ b).
Proof.
  intros Hc. apply normalize_by_step1. rewrite !step1_filter.
  apply filter_kept_drop, Hc.
Qed.

Lemma normalize_ignores_symbols_witness :
  kept (ch "!") = false
  /\ normalize (py "Overcooked" ++ ch "!" :: py " 2") = normalize (py "Overcooked" ++ py " 2").
Proof.
  assert (H : kept (ch "!") = false) by reflexivity.
  split; [exact H|]. exact (@normalize_ignores_symbols _ _ _ H).
Defined.

Lemma lstrip_app_spaces (ws s : str) :
  Forall (fun c => is_space c = true) ws -> lstrip (ws ++ s) = lstrip s.
Proof.
  induction 1 as [|c ws Hc _ IH]; [reflexivity|]. simpl. rewrite Hc. exact IH.
Qed.

Lemma lstrip_all_spaces (ws : str) :
  Forall (fun c => is_space c = true) ws -> lstrip ws = [].
Proof.
  intros H. rewrite <- (app_nil_r ws). rewrite (lstrip_app_spaces _ H). reflexivity.
Qed.

Lemma rstrip_app_spaces (s ws : str) :
  Forall (fun c => is_space c = true) ws -> rstrip (s ++ ws) = rstrip s.
Proof.
  intros H. unfold rstrip. rewrite rev_app_distr.
  rewrite lstrip_app_spaces by (apply Forall_rev, H). reflexivity.
Qed.

Lemma lstrip_app_keep (s z : str) :
  lstrip s <> [] -> lstrip (s ++ z) = lstrip s ++ z.
Proof.
  induction s as [|c s IH]; simpl; [congruence|].
  destruct (is_space c); [exact IH|reflexivity].
Qed.

Lemma strip_app_spaces (ws s ws' : str) :
  Forall (fun c => is_space c = true) ws ->
  Forall (fun c => is_space c = true) ws' ->
  strip (ws ++ s ++ ws') = strip s.
Proof.
  intros H H'. unfold strip. rewrite (lstrip_app_spaces _ H).
  destruct (lstrip s) as [|c r] eqn:E.
  - assert (Hs : lstrip (s ++ ws') = []).
    { clear H. induction s as [|x s IH]; simpl in *.
      - apply lstrip_all_spaces, H'.
      - destruct (is_space x); [apply IH, E|discriminate E]. }
    rewrite Hs. reflexivity.
  - rewrite lstrip_app_keep by (rewrite E; discriminate).
    rewrite E. apply rstrip_app_spaces, H'.
Qed.

Lemma space_kept (c : char) : is_space c = true -> kept c = true.
Proof. unfold kept. intros ->. rewrite orb_true_r. reflexivity. Qed.

(** X3: whitespace around a title does not count: the title with blanks
    before and after it has the key of the title itself. *)
Theorem normalize_ignores_outer_space (ws title ws' : str) :
  Forall (fun c => is_space c = true) ws ->
  Forall (fun c => is_space c = true) ws' ->
  normalize (ws ++ title ++ ws') = normalize title.
Proof.
  intros H H'. unfold normalize. rewrite !step1_filter, !filter_app.
  rewrite (filter_id kept (s := ws)), (filter_id kept (s := ws')).
  - unfold step2. rewrite (strip_app_spaces _ H H'). reflexivity.
  - eapply Forall_impl; [|exact H']. apply space_kept.
  - eapply Forall_impl; [|exact H]. apply space_kept.
Qed.

Lemma normalize_ignores_outer_space_witness :
  Forall (fun c => is_space c = true) (py "  ")
  /\ Forall (fun c => is_space c = true) [9; 10]%N
  /\ normalize (py "  " ++ py "Hades II" ++ [9; 10]%N) = normalize (py "Hades II").
Proof.
  assert (H : Forall (fun c => is_space c = true) (py "  ")) by (repeat constructor).
  assert (H' : Forall (fun c => is_space c = true) [9; 10]%N) by (repeat constructor).
  split; [exact H|]. split; [exact H'|].
  exact (@normalize_ignores_outer_space _ (py "Hades II") _ H H').
Defined.

(** X4: a title without a word character, a plus sign or a hyphen has the
    empty key, and its URL is the base path and a slash. *)
Theorem normalize_symbols_only (title : str) :
  Forall (fun c => is_word c = false /\ is_plus c = false /\ is_hyphen c = false) title ->
  normalize title = []
  /\ create_metacritic_url title = py "https://www.metacritic.com/game//".
Proof.
  intros H.
  assert (Hs : Forall (fun c => is_space c = true) (step1 title)).
  { rewrite step1_filter. apply Forall_forall. intros c Hc.
    apply filter_In in Hc. destruct Hc as [Hin Hk].
    rewrite Forall_forall in H. destruct (H c Hin) as (Hw & Hp & Hh).
    unfold kept in Hk. rewrite Hw, Hp, Hh in Hk.
    destruct (is_space c); [reflexivity|discriminate Hk]. }
  assert (Hn : normalize title = []).
  { unfold normalize, step2, strip. rewrite (lstrip_all_spaces Hs). reflexivity. }
  split; [exact Hn|]. unfold create_metacritic_url. rewrite Hn. reflexivity.
Qed.

Lemma normalize_symbols_only_witness :
  Forall (fun c => is_word c = false /\ is_plus c = false /\ is_hyphen c = false)
         (py "?! ...")
  /\ normalize (py "?! ...") = []
  /\ create_metacritic_url (py "?! ...") = py "https://www.metacritic.com/game//".
Proof.
  assert (H : Forall (fun c => is_word c = false /\ is_plus c = false
                               /\ is_hyphen c = false) (py "?! ..."))
    by (repeat constructor).
  split; [exact H|]. exact (@normalize_symbols_only _ H).
Defined.

(** *** Step 6 on a string with an edition suffix *)

(** In front of a continuation that accepts what follows a run of [p], the
    greedy loop takes the whole run. *)
Lemma star_loop_run (A : Type) (p : char -> bool) (k : str -> captures -> option A)
      (w rest : str) (g : captures) (x : A) :
  Forall (fun c => p c = true) w ->
  match rest with [] => True | c :: _ => p c = false end ->
  k rest g = Some x ->
  forall n, (List.length (w ++ rest) <= n)%nat ->
  star_loop (fun s' g' k' => rmatch (Cls p) s' g' k') k n (w ++ rest) g = Some x.
Proof.
  intros Hw Hrest Hk. induction Hw as [|c w Hc _ IH]; intros n Hn.
  - cbn [app] in *. destruct n as [|n]; [exact Hk|].
    cbn [star_loop rmatch]. destruct rest as [|c rest]; [exact Hk|].
    rewrite Hrest. exact Hk.
  - destruct n as [|n]; [simpl in Hn; lia|].
    cbn [star_loop rmatch app]. rewrite Hc.
    replace (List.length (w ++ rest) <? List.length (c :: w ++ rest))%nat with true
      by (symmetry; apply Nat.ltb_lt; simpl; lia).
    rewrite IH by (simpl in Hn; lia). reflexivity.
Qed.

Lemma rmatch_ilits (A : Type) (e l rest : str) (g : captures)
      (k : str -> captures -> option A) :
  reads_ci e l -> rmatch (ilits l) (e ++ rest) g k = k rest g.
Proof.
  intros H. induction H as [|x c e l Hx _ IH]; [reflexivity|].
  cbn [ilits rmatch app]. unfold ilit. cbn [rmatch]. rewrite Hx. exact IH.
Qed.

(** The edition pattern matches a suffix as a whole. *)
Lemma re_edition_matches (w e : str) :
  w <> [] -> Forall (fun c => is_word c = true) w -> reads_ci e (py "edition") ->
  re_match re_edition (ch "-" :: w ++ ch "-" :: e) = Some ([], []).
Proof.
  intros Hne Hw He. destruct Hw as [|c w Hc Hw]; [congruence|].
  unfold re_match, re_edition, Plus, lit. cbn [rmatch app].
  rewrite N.eqb_refl, Hc.
  apply star_loop_run; [exact Hw|reflexivity| |lia].
  cbn [rmatch]. rewrite N.eqb_refl.
  rewrite <- (app_nil_r e). rewrite rmatch_ilits by exact He. reflexivity.
Qed.

Lemma app_same_length (a c b d : str) :
  List.length b = List.length d -> a ++ b = c ++ d -> a = c /\ b = d.
Proof.
  intros Hlen H.
  assert (Hl : List.length a = List.length c).
  { apply (f_equal (@List.length char)) in H. rewrite !length_app in H. lia. }
  revert c Hl H. induction a as [|x a IH]; intros [|y c] Hl H; try discriminate Hl.
  - auto.
  - injection H as -> H. injection Hl as Hl.
    destruct (IH c Hl H) as [-> ->]. auto.
Qed.

(** What a match of the edition pattern is made of. *)
Lemma re_edition_lang (t rest : str) (g : captures) :
  re_match re_edition t = Some (rest, g) ->
  exists W E,
    Forall (fun c => is_word c = true) W /\ reads_ci E (py "edition")
    /\ at_eos rest = true /\ t = ch "-" :: W ++ ch "-" :: E ++ rest.
Proof.
  intros E0. apply re_match_sound in E0. destruct E0 as (m & -> & L).
  unfold re_edition in L.
  apply lang_Seq in L. destruct L as (h1 & m1 & -> & Lh1 & L).
  apply lang_lit in Lh1. subst h1.
  apply lang_Seq in L. destruct L as (w & m2 & -> & Lw & L).
  apply lang_Plus_Cls in Lw. destruct Lw as (c & w' & -> & Hc & Hw').
  apply lang_Seq in L. destruct L as (h2 & m3 & -> & Lh2 & L).
  apply lang_lit in Lh2. subst h2.
  apply lang_Seq in L. destruct L as (e & m4 & -> & Le & L).
  apply lang_ilits in Le.
  apply lang_Eos in L. destruct L as [-> Eos].
  exists (c :: w'), e. split; [constructor; assumption|]. split; [exact Le|].
  split; [exact Eos|]. rewrite app_nil_r. cbn [app].
  repeat rewrite <- app_assoc. reflexivity.
Qed.

Lemma reads_ci_length (e l : str) : reads_ci e l -> List.length e = List.length l.
Proof. apply Forall2_length. Qed.

(** Before the suffix the edition pattern finds nothing. *)
Lemma re_edition_no_earlier (p2 w e : str) :
  p2 <> [] -> Forall (fun c => is_word c = true) w -> reads_ci e (py "edition") ->
  re_match re_edition (p2 ++ ch "-" :: w ++ ch "-" :: e) = None.
Proof.
  intros Hp2 Hw He.
  destruct (re_match re_edition _) as [[rest g]|] eqn:E0; [exfalso|reflexivity].
  apply re_edition_lang in E0. destruct E0 as (W & E & HW & HE & Heos & Heq).
  pose proof (reads_ci_edition He) as (e' & x & He' & Hx).
  assert (Hrest : rest = []).
  { destruct rest as [|r [|r' rest]]; [reflexivity| |discriminate Heos].
    cbn [at_eos] in Heos. apply N.eqb_eq in Heos. subst r. exfalso.
    subst e.
    assert (Hx10 : x = 10%N).
    { apply (@app_inj_tail char (p2 ++ ch "-" :: w ++ ch "-" :: e')
                           (ch "-" :: W ++ ch "-" :: E)).
      cbn [app]. repeat (rewrite <- app_assoc; cbn [app]). exact Heq. }
    subst x. discriminate Hx. }
  subst rest. rewrite app_nil_r in Heq.
  assert (Hlen : List.length e = List.length E).
  { rewrite (reads_ci_length He), (reads_ci_length HE). reflexivity. }
  assert (Heq' : ((p2 ++ ch "-" :: w) ++ [ch "-"]) ++ e
                 = ((ch "-" :: W) ++ [ch "-"]) ++ E).
  { cbn [app]. repeat (rewrite <- app_assoc; cbn [app]). exact Heq. }
  clear Heq. apply app_same_length in Heq'; [|exact Hlen].
  destruct Heq' as [Heq _].
  apply app_inj_tail in Heq. destruct Heq as [Heq _].
  destruct p2 as [|y p2]; [congruence|]. cbn [app] in Heq.
  injection Heq as _ Heq. subst W.
  apply Forall_app in HW. destruct HW as [_ HW].
  inversion HW as [|? ? Hh _]; subst. discriminate Hh.
Qed.

Lemma sub_from_prefix (r : regex) (repl p s : str) :
  (forall p1 p2, p = p1 ++ p2 -> p2 <> [] -> re_match r (p2 ++ s) = None) ->
  sub_from r repl (p ++ s) 0 = p ++ sub_from r repl s 0.
Proof.
  induction p as [|c p IH]; intros H; [reflexivity|].
  cbn [app]. rewrite sub_from_cons0.
  assert (H0 : re_match r (c :: p ++ s) = None)
    by (apply (H [] (c :: p) eq_refl); discriminate).
  rewrite H0. f_equal. apply IH. intros p1 p2 -> Hp2. apply (H (c :: p1) p2); auto.
Qed.

Lemma sub_from_skip_all (r : regex) (repl s : str) :
  sub_from r repl s (List.length s) = sub_from r repl [] 0.
Proof. induction s as [|c s IH]; [reflexivity|exact IH]. Qed.

(** X5: step 6 removes a trailing hyphen, word, hyphen and "edition" in any
    case, and nothing else: what stands before the suffix is the result. *)
Theorem step6_strips_suffix (p w e : str) :
  w <> [] -> Forall (fun c => is_word c = true) w -> reads_ci e (py "edition") ->
  step6 (p ++ py "-" ++ w ++ py "-" ++ e) = p.
Proof.
  intros Hne Hw He. unfold step6, re_sub.
  change (py "-") with [ch "-"]. cbn [app].
  rewrite sub_from_prefix.
  - rewrite sub_from_cons0, (re_edition_matches Hne Hw He).
    cbn [List.length Nat.sub app]. rewrite sub_from_skip_all.
    cbn. apply app_nil_r.
  - intros p1 p2 _ Hp2. apply re_edition_no_earlier; assumption.
Qed.

Lemma step6_strips_suffix_witness :
  py "deluxe" <> []
  /\ Forall (fun c => is_word c = true) (py "deluxe")
  /\ reads_ci (py "Edition") (py "edition")
  /\ step6 (py "a-b-edition" ++ py "-" ++ py "deluxe" ++ py "-" ++ py "Edition")
     = py "a-b-edition".
Proof.
  assert (H1 : py "deluxe" <> []) by discriminate.
  assert (H2 : Forall (fun c => is_word c = true) (py "deluxe")) by (repeat constructor).
  assert (H3 : reads_ci (py "Edition") (py "edition")) by (repeat constructor).
  split; [exact H1|]. split; [exact H2|]. split; [exact H3|].
  exact (@step6_strips_suffix (py "a-b-edition") _ _ H1 H2 H3).
Defined.

(** *** Capitals *)
















(** ** Field extractor *)

(** X7: the extractor raises in one case only, and then [ValueError]: the
    release-date region is there and its text is no date of the form
    "Jan 05, 2024". *)
Theorem parse_game_info_raises_iff (game : node) (e : exn) :
  parse_game_info game = Raise e
  <-> e = ValueError
      /\ exists t, region_text release_date_path game = Some t
                   /\ forall d, strptime t <> Ok d.
Proof.
  rewrite parse_game_info_raises.
  destruct (region_text release_date_path game) as [t|] eqn:R.
  - rewrite (get_release_date_found _ R).
    destruct (strptime t) as [d|e'] eqn:E.
    + split; [discriminate|].
      intros (_ & t' & [= <-] & Hno). destruct (Hno d). exact E.
    + pose proof (strptime_raises _ E) as He'. subst e'. cbn [is_AttributeError]. split.
      * intros [= <-]. split; [reflexivity|]. exists t. split; [reflexivity|].
        intros d. rewrite E. discriminate.
      * intros [-> _]. reflexivity.
  - rewrite (get_release_date_absent _ R). split; [discriminate|].
    intros (_ & t & Ht & _). discriminate Ht.
Qed.

Lemma get_meta_score_absent game :
  region_text meta_score_path game = None -> get_meta_score game = Ok None.
Proof.
  unfold get_meta_score, meta_score_path. follow_path; try discriminate; reflexivity.
Qed.

Lemma get_meta_reviews_absent game :
  region_text meta_reviews_path game = None -> get_meta_reviews game = Ok None.
Proof.
  unfold get_meta_reviews, meta_reviews_path. follow_path; try discriminate; reflexivity.
Qed.

Lemma get_user_score_absent game :
  region_text user_score_path game = None -> get_user_score game = Ok None.
Proof.
  unfold get_user_score, user_score_path. follow_path; try discriminate; reflexivity.
Qed.

Lemma get_user_reviews_absent game :
  region_text user_reviews_path game = None -> get_user_reviews game = Ok None.
Proof.
  unfold get_user_reviews, user_reviews_path. follow_path; try discriminate; reflexivity.
Qed.

Lemma get_publisher_absent game :
  region_text publisher_path game = None -> get_publisher game = Ok None.
Proof.
  unfold get_publisher, publisher_path. follow_path; try discriminate; reflexivity.
Qed.

Lemma get_genre_absent game :
  region_text genre_path game = None -> get_genre game = Ok None.
Proof.
  unfold get_genre, genre_path. follow_path; try discriminate; reflexivity.
Qed.

(** A page without any region gives the record of seven nulls. *)
Lemma parse_game_info_no_regions (game : node) :
  Forall (fun path => region_text path game = None) region_paths ->
  parse_game_info game = Ok no_info.
Proof.
  intros H. unfold region_paths in H.
  repeat match type of H with
         | Forall _ (_ :: _) =>
             let H1 := fresh "R" in
             inversion H as [|? ? H1 H']; subst; clear H; rename H' into H
         end.
  unfold parse_game_info.
  rewrite get_meta_score_absent, get_meta_reviews_absent, get_user_score_absent,
    get_user_reviews_absent, get_release_date_absent, get_publisher_absent,
    get_genre_absent by assumption.
  reflexivity.
Qed.

(** X8: a field whose region the page lacks is null in the record: a tag
    missing anywhere on the path of [find] calls is no error. *)
Theorem missing_region_gives_null (game : node) (info : game_info) :
  parse_game_info game = Ok info ->
  (region_text meta_score_path game = None -> meta_score info = None)
  /\ (region_text meta_reviews_path game = None -> meta_reviews info = None)
  /\ (region_text user_score_path game = None -> user_score info = None)
  /\ (region_text user_reviews_path game = None -> user_reviews info = None)
  /\ (region_text release_date_path game = None -> release_date info = None)
  /\ (region_text publisher_path game = None -> publisher info = None)
  /\ (region_text genre_path game = None -> genre info = None).
Proof.
  intros H. apply parse_game_info_fields in H.
  destruct H as (H1 & H2 & H3 & H4 & H5 & H6 & H7).
  repeat split; intros R.
  - rewrite (get_meta_score_absent _ R) in H1. injection H1 as <-. reflexivity.
  - rewrite (get_meta_reviews_absent _ R) in H2. injection H2 as <-. reflexivity.
  - rewrite (get_user_score_absent _ R) in H3. injection H3 as <-. reflexivity.
  - rewrite (get_user_reviews_absent _ R) in H4. injection H4 as <-. reflexivity.
  - rewrite (get_release_date_absent _ R) in H5. injection H5 as <-. reflexivity.
  - rewrite (get_publisher_absent _ R) in H6. injection H6 as <-. reflexivity.
  - rewrite (get_genre_absent _ R) in H7. injection H7 as <-. reflexivity.
Qed.

Lemma missing_region_gives_null_witness :
  parse_game_info na_publisher_page
  = Ok (mk_info None None None None None (Some (py "N/A")) None)
  /\ region_text genre_path na_publisher_page = None
  /\ genre (mk_info None None None None None (Some (py "N/A")) None) = None.
Proof.
  assert (H : parse_game_info na_publisher_page
              = Ok (mk_info None None None None None (Some (py "N/A")) None))
    by (vm_compute; reflexivity).
  assert (R : region_text genre_path na_publisher_page = None)
    by (vm_compute; reflexivity).
  split; [exact H|]. split; [exact R|].
  exact (proj2 (proj2 (proj2 (proj2 (proj2 (proj2
           (@missing_region_gives_null _ _ H)))))) R).
Defined.

(** *** Review counts *)

Lemma lang_classes (P : char -> Prop) (r : regex) (m rest : str) :
  lang r m rest -> classes_in P r -> Forall P m.
Proof.
  induction 1 as [rest|p c rest Hp|r1 r2 m1 m2 rest _ IH1 _ IH2
                 |r1 r2 m rest _ IH|r1 r2 m rest _ IH|r rest
                 |r m1 m2 rest _ IH1 _ IH2|rest Hr|n r m rest _ IH];
    cbn [classes_in]; intros Hc.
  - constructor.
  - constructor; [apply Hc, Hp|constructor].
  - apply Forall_app. split; [apply IH1, Hc|apply IH2, Hc].
  - apply IH, Hc.
  - apply IH, Hc.
  - constructor.
  - apply Forall_app. split; [apply IH1, Hc|apply IH2, Hc].
  - constructor.
  - apply IH, Hc.
Qed.

Lemma re_count_classes :
  classes_in (fun c => is_digit c = true \/ c = ch ",") re_count.
Proof.
  unfold re_count, re_digit, Opt, lit. cbn [classes_in].
  assert (Hd : forall c, is_digit c = true -> is_digit c = true \/ c = ch ",")
    by (intros c H; left; exact H).
  assert (Hc : forall c, (ch "," =? c)%N = true -> is_digit c = true \/ c = ch ",")
    by (intros c H; right; symmetry; apply N.eqb_eq, H).
  repeat split; assumption.
Qed.

(** What the count pattern finds, without its commas, is a number. *)
Lemma count_digits (txt m : str) :
  re_search re_count txt = Some m ->
  remove_commas m <> [] /\ Forall (fun c => is_digit c = true) (remove_commas m).
Proof.
  intros H. apply re_search_sound in H. destruct H as (rest & L). split.
  - apply lang_re_count in L. destruct L as (d & m' & -> & Hd).
    apply digit_not_comma in Hd. destruct Hd as [Hc _].
    unfold remove_commas. cbn [filter]. rewrite Hc. discriminate.
  - pose proof (@lang_classes _ _ _ _ L re_count_classes) as Hm.
    unfold remove_commas. apply Forall_forall. intros c Hin.
    apply filter_In in Hin. destruct Hin as [Hin Hc].
    rewrite Forall_forall in Hm. destruct (Hm c Hin) as [Hd| ->]; [exact Hd|].
    rewrite N.eqb_refl in Hc. discriminate Hc.
Qed.

Lemma get_meta_reviews_some (game : node) (s : str) :
  get_meta_reviews game = Ok (Some s) ->
  exists t m, region_text meta_reviews_path game = Some t
              /\ re_search re_count t = Some m /\ s = remove_commas m.
Proof.
  destruct (region_text meta_reviews_path game) as [t|] eqn:R.
  - rewrite (get_meta_reviews_found _ R).
    destruct (re_search re_count t) as [m|] eqn:E; [|discriminate].
    intros [= <-]. eauto.
  - rewrite (get_meta_reviews_absent _ R). discriminate.
Qed.

Lemma get_user_reviews_some (game : node) (s : str) :
  get_user_reviews game = Ok (Some s) ->
  exists t m, region_text user_reviews_path game = Some t
              /\ re_search re_count t = Some m /\ s = remove_commas m.
Proof.
  destruct (region_text user_reviews_path game) as [t|] eqn:R.
  - rewrite (get_user_reviews_found _ R).
    destruct (re_search re_count t) as [m|] eqn:E; [|discriminate].
    intros [= <-]. eauto.
  - rewrite (get_user_reviews_absent _ R). discriminate.
Qed.

(** X9: a review count of the record, when it is not null, is a number: a
    string of decimal digits, not empty, with no comma left in it. *)
Theorem review_counts_are_digits (game : node) (info : game_info) (s : str) :
  parse_game_info game = Ok info ->
  meta_reviews info = Some s \/ user_reviews info = Some s ->
  s <> [] /\ Forall (fun c => is_digit c = true) s.
Proof.
  intros H Hs. apply parse_game_info_fields in H.
  destruct H as (_ & Hm & _ & Hu & _). destruct Hs as [Hs|Hs].
  - rewrite Hs in Hm. apply get_meta_reviews_some in Hm.
    destruct Hm as (t & m & _ & E & ->). exact (count_digits _ E).
  - rewrite Hs in Hu. apply get_user_reviews_some in Hu.
    destruct Hu as (t & m & _ & E & ->). exact (count_digits _ E).
Qed.

Lemma review_counts_are_digits_witness :
  (exists info, parse_game_info full_page = Ok info
                /\ meta_reviews info = Some (py "1234"))
  /\ py "1234" <> [] /\ Forall (fun c => is_digit c = true) (py "1234").
Proof.
  assert (H : parse_game_info full_page
              = Ok (mk_info (Some (py "87")) (Some (py "1234")) None (Some (py "56"))
                            (Some (py "05-01-2024")) (Some (py "Nintendo"))
                            (Some (py "Platformer"))))
    by (vm_compute; reflexivity).
  split; [eexists; split; [exact H|reflexivity]|].
  exact (@review_counts_are_digits _ _ (py "1234") H (or_introl eq_refl)).
Defined.

(** *** Release date *)

(** A date that [strptime] returns is a date of the calendar. *)
Lemma strptime_valid (t : str) (d : date) : strptime t = Ok d -> valid_date d.
Proof.
  unfold strptime.
  destruct (re_match re_date t) as [[rest g]|]; [|discriminate].
  destruct rest; [|discriminate].
  destruct (index_of _ _ _) as [m|]; [|discriminate].
  unfold make_date.
  destruct (_ && _) eqn:H; [|discriminate]. intros [= <-].
  repeat (apply andb_prop in H; let H' := fresh "H" in destruct H as [H H']).
  unfold valid_date. cbn [year month day].
  repeat split; apply Nat.leb_le; assumption.
Qed.

(** X10: a release date of the record, when it is not null, is the
    day-month-year form of a date of the calendar that the text of the
    region was read as. *)
Theorem release_date_is_calendar_date (game : node) (info : game_info) (s : str) :
  parse_game_info game = Ok info ->
  release_date info = Some s ->
  exists t d, region_text release_date_path game = Some t
              /\ strptime t = Ok d /\ valid_date d /\ s = strftime d.
Proof.
  intros H Hs. apply parse_game_info_fields in H.
  destruct H as (_ & _ & _ & _ & Hd & _). rewrite Hs in Hd.
  destruct (region_text release_date_path game) as [t|] eqn:R.
  - rewrite (get_release_date_found _ R) in Hd.
    destruct (strptime t) as [d|e] eqn:E.
    + injection Hd as <-. exists t, d.
      split; [reflexivity|]. split; [exact E|]. split; [|reflexivity].
      exact (strptime_valid _ E).
    + destruct (is_AttributeError e); discriminate Hd.
  - rewrite (get_release_date_absent _ R) in Hd. discriminate Hd.
Qed.

Lemma release_date_is_calendar_date_witness :
  exists info,
    parse_game_info full_page = Ok info
    /\ release_date info = Some (py "05-01-2024")
    /\ exists t d, region_text release_date_path full_page = Some t
                   /\ strptime t = Ok d /\ valid_date d
                   /\ py "05-01-2024" = strftime d.
Proof.
  assert (H : parse_game_info full_page
              = Ok (mk_info (Some (py "87")) (Some (py "1234")) None (Some (py "56"))
                            (Some (py "05-01-2024")) (Some (py "Nintendo"))
                            (Some (py "Platformer"))))
    by (vm_compute; reflexivity).
  eexists. split; [exact H|]. split; [reflexivity|].
  exact (@release_date_is_calendar_date _ _ (py "05-01-2024") H eq_refl).
Defined.

(** *** Genre and publisher *)

Lemma lstrip_head (s : str) (c : char) (s' : str) :
  lstrip s = c :: s' -> is_space c = false.
Proof.
  induction s as [|x s IH]; cbn [lstrip]; [discriminate|].
  destruct (is_space x) eqn:E; [exact IH|]. intros [= <- _]. exact E.
Qed.

Lemma lstrip_split (s : str) :
  exists ws, s = ws ++ lstrip s /\ Forall (fun c => is_space c = true) ws.
Proof.
  induction s as [|x s (ws & Hs & Hws)]; cbn [lstrip]; [exists []; auto|].
  destruct (is_space x) eqn:E.
  - exists (x :: ws). split; [cbn [app]; f_equal; exact Hs|constructor; assumption].
  - exists []. auto.
Qed.

Lemma strip_trimmed (s : str) : trimmed (strip s).
Proof.
  unfold strip, rstrip. split.
  - intros c s' H.
    destruct (lstrip_split (rev (lstrip s))) as (ws & Hs & _).
    apply (f_equal (@rev char)) in Hs.
    rewrite rev_involutive, rev_app_distr, H in Hs.
    cbn [app] in Hs. exact (lstrip_head _ Hs).
  - intros s' c H. apply (f_equal (@rev char)) in H.
    rewrite rev_involutive, rev_app_distr in H. cbn [rev app] in H.
    exact (lstrip_head _ H).
Qed.

Lemma trimmed_strip (s : str) : trimmed s -> strip s = s.
Proof.
  intros [Hh Hl].
  assert (H1 : lstrip s = s).
  { destruct s as [|c s']; [reflexivity|]. cbn [lstrip].
    rewrite (Hh c s' eq_refl). reflexivity. }
  assert (H2 : lstrip (rev s) = rev s).
  { destruct (rev s) as [|c r] eqn:E; [reflexivity|]. cbn [lstrip].
    rewrite (Hl (rev r) c); [reflexivity|].
    rewrite <- (rev_involutive s), E. reflexivity. }
  unfold strip, rstrip. rewrite H1, H2. apply rev_involutive.
Qed.

(** X11: a genre of the record, when it is not null, is the text of its
    region without the blanks around it: no blank at either end, and
    stripping it again changes nothing. *)
Theorem genre_is_trimmed (game : node) (info : game_info) (g : str) :
  parse_game_info game = Ok info ->
  genre info = Some g ->
  (exists t, region_text genre_path game = Some t /\ g = strip t)
  /\ trimmed g /\ strip g = g.
Proof.
  intros H Hg. apply parse_game_info_fields in H.
  destruct H as (_ & _ & _ & _ & _ & _ & H). rewrite Hg in H.
  destruct (region_text genre_path game) as [t|] eqn:R.
  - rewrite (get_genre_found _ R) in H. injection H as <-.
    split; [exists t; split; reflexivity|].
    split; [apply strip_trimmed|apply trimmed_strip, strip_trimmed].
  - rewrite (get_genre_absent _ R) in H. discriminate H.
Qed.

Lemma genre_is_trimmed_witness :
  exists info,
    parse_game_info full_page = Ok info
    /\ genre info = Some (py "Platformer")
    /\ (exists t, region_text genre_path full_page = Some t
                  /\ py "Platformer" = strip t)
    /\ trimmed (py "Platformer") /\ strip (py "Platformer") = py "Platformer".
Proof.
  assert (H : parse_game_info full_page
              = Ok (mk_info (Some (py "87")) (Some (py "1234")) None (Some (py "56"))
                            (Some (py "05-01-2024")) (Some (py "Nintendo"))
                            (Some (py "Platformer"))))
    by (vm_compute; reflexivity).
  eexists. split; [exact H|]. split; [reflexivity|].
  exact (@genre_is_trimmed _ _ (py "Platformer") H eq_refl).
Defined.

(** X12: the publisher of the record is the text of its region as it
    stands, the blanks around it included, and null when the region is
    missing: unlike the genre it is not stripped. *)
Theorem publisher_is_region_text (game : node) (info : game_info) :
  parse_game_info game = Ok info ->
  publisher info = region_text publisher_path game.
Proof.
  intros H. apply parse_game_info_fields in H.
  destruct H as (_ & _ & _ & _ & _ & H & _).
  destruct (region_text publisher_path game) as [t|] eqn:R.
  - rewrite (get_publisher_found _ R) in H. injection H as <-. reflexivity.
  - rewrite (get_publisher_absent _ R) in H. injection H as <-. reflexivity.
Qed.

Lemma publisher_is_region_text_witness :
  parse_game_info padded_publisher_page
  = Ok (mk_info None None None None None (Some (py "  Nintendo  ")) None)
  /\ Some (py "  Nintendo  ") = region_text publisher_path padded_publisher_page.
Proof.
  assert (H : parse_game_info padded_publisher_page
              = Ok (mk_info None None None None None (Some (py "  Nintendo  ")) None))
    by (vm_compute; reflexivity).
  split; [exact H|].
  exact (@publisher_is_region_text _ _ H).
Defined.

(** ** Orchestrator *)

Lemma parse_game_info_bad_date (game : node) (t : str) :
  region_text release_date_path game = Some t ->
  (forall d, strptime t <> Ok d) ->
  parse_game_info game = Raise ValueError.
Proof.
  intros R Hno. apply parse_game_info_raises.
  rewrite (get_release_date_found _ R).
  destruct (strptime t) as [d|e] eqn:E; [destruct (Hno d); reflexivity|].
  rewrite (strptime_raises _ E). reflexivity.
Qed.

Lemma na_row_marker (game : record) : marker_row (dict_update game na_dict) = true.
Proof.
  unfold marker_row. apply forallb_forall. intros k Hk.
  pose proof enrichment_keys_NoDup as Hnd. rewrite <- na_dict_keys in Hnd.
  rewrite (dict_get_update _ _ _ Hnd).
  rewrite (@dict_get_in k NA _ Hnd); [reflexivity|].
  unfold na_dict. apply in_map_iff. exists k. auto.
Qed.

Lemma info_row_not_marker (game : record) (doc : node) (info : game_info) :
  parse_game_info doc = Ok info ->
  marker_row (dict_update game (info_dict info)) = false.
Proof.
  intros Hp. destruct (marker_row _) eqn:E; [exfalso|reflexivity].
  unfold marker_row in E. rewrite forallb_forall in E.
  specialize (E (py "meta_reviews")).
  pose proof enrichment_keys_NoDup as Hnd. rewrite <- (info_dict_keys info) in Hnd.
  rewrite (dict_get_update _ _ _ Hnd) in E.
  change (dict_get (py "meta_reviews") (info_dict info))
    with (Some (of_field (meta_reviews info))) in E.
  apply parse_game_info_fields in Hp. destruct Hp as (_ & Hr & _).
  destruct (meta_reviews info) as [s|]; cbn [of_field is_NA] in E.
  - assert (Hs : str_eqb s (py "N/A") = true)
      by (apply E; cbn; right; left; reflexivity).
    apply str_eqb_eq in Hs. subst s. exact (get_meta_reviews_not_NA _ Hr).
  - assert (Hs : false = true) by (apply E; cbn; right; left; reflexivity).
    discriminate Hs.
Qed.

Lemma keys_of_dict_set (k : str) (v : pyval) (d : record) :
  keys_of (dict_set k v d)
  = if has_key k (keys_of d) then keys_of d else keys_of d ++ [k].
Proof.
  unfold keys_of, has_key. induction d as [|[k' v'] d IH]; [reflexivity|].
  cbn [dict_set map fst existsb].
  destruct (str_eqb k k') eqn:E; cbn [orb map fst].
  - apply str_eqb_eq in E. subst k'. reflexivity.
  - rewrite IH. destruct (existsb (str_eqb k) (map fst d)); reflexivity.
Qed.

Lemma keys_of_dict_update (other : record) : forall d : record,
  NoDup (keys_of other) ->
  keys_of (dict_update d other)
  = keys_of d ++ filter (fun k => negb (has_key k (keys_of d))) (keys_of other).
Proof.
  unfold dict_update.
  induction other as [|[k1 v1] other IH]; intros d Hnd;
    [symmetry; apply app_nil_r|].
  inversion Hnd as [|? ? Hk1 Hnd']; subst.
  cbn [fold_left fst snd]. rewrite (IH _ Hnd'), keys_of_dict_set.
  change (keys_of ((k1, v1) :: other)) with (k1 :: keys_of other).
  cbn [filter]. destruct (has_key k1 (keys_of d)) eqn:E; cbn [negb].
  - reflexivity.
  - rewrite <- app_assoc. cbn [app]. do 2 f_equal.
    apply filter_ext_in. intros k Hin. unfold has_key.
    rewrite existsb_app. cbn [existsb]. rewrite orb_false_r.
    rewrite (@str_eqb_neq k k1); [rewrite orb_false_r; reflexivity|].
    intros ->. apply Hk1, Hin.
Qed.

Section RunFacts.

Variable BeautifulSoup : str -> node.
Variable requests_get : nat -> str -> list (str * str) -> get_outcome.

(** One turn, by what the network answers. *)
Lemma enrich_spec (i : nat) (game : record) (n : nat) (title : str) :
  get_title game = Ok title ->
  enrich BeautifulSoup requests_get i game n
  = match requests_get i (create_metacritic_url title) request_headers with
    | GetRaises e =>
        if is_RequestException e then Ok (dict_update game na_dict, n) else Raise e
    | Response status_code body =>
        if is_http_error status_code then Ok (dict_update game na_dict, n)
        else info <- parse_game_info (BeautifulSoup body);;
             Ok (dict_update game (info_dict info), S n)
    end.
Proof.
  intros Ht. unfold enrich, is_http_error. rewrite Ht. cbn [bind].
  pose proof (get_soup_cases BeautifulSoup (requests_get i)
                (create_metacritic_url title) request_headers) as Hs.
  destruct (requests_get i (create_metacritic_url title) request_headers)
    as [e|status_code body].
  - destruct (is_RequestException e); rewrite Hs; reflexivity.
  - destruct ((400 <=? status_code) && (status_code <? 600))%Z; rewrite Hs; reflexivity.
Qed.

(** X13: a page that is fetched but has none of the seven regions, such as
    an error page served with a status below 400, counts as scraped: the
    record gets seven nulls, not 'N/A', and the count goes up by one. *)
Theorem page_without_regions_is_counted
        (i : nat) (game : record) (n : nat) (title : str)
        (status_code : Z) (body : str) :
  get_title game = Ok title ->
  requests_get i (create_metacritic_url title) request_headers
  = Response status_code body ->
  is_http_error status_code = false ->
  Forall (fun path => region_text path (BeautifulSoup body) = None) region_paths ->
  enrich BeautifulSoup requests_get i game n
  = Ok (dict_update game (info_dict no_info), S n)
  /\ forall k, In k enrichment_keys ->
               dict_get k (dict_update game (info_dict no_info)) = Some PyNone.
Proof.
  intros Ht Hnet Hsc Hno. split.
  - rewrite (enrich_spec i game n Ht), Hnet, Hsc.
    rewrite (@parse_game_info_no_regions _ Hno). reflexivity.
  - intros k Hk.
    pose proof enrichment_keys_NoDup as Hnd.
    rewrite <- (info_dict_keys no_info) in Hnd.
    rewrite (dict_get_update _ _ _ Hnd).
    rewrite (@dict_get_in k PyNone _ Hnd); [reflexivity|].
    unfold enrichment_keys in Hk. cbn [map In] in Hk. cbn.
    repeat (destruct Hk as [<-|Hk]; [tauto|]). destruct Hk.
Qed.

Lemma enrich_loop_count (catalogue : list record) : forall i n out n',
  enrich_loop BeautifulSoup requests_get i catalogue n = Ok (out, n') ->
  n' = (n + List.length (filter (fun r => negb (marker_row r)) out))%nat.
Proof.
  induction catalogue as [|game rest IH]; intros i n out n'; cbn [enrich_loop].
  - intros [= <- <-]. cbn. lia.
  - destruct (enrich BeautifulSoup requests_get i game n) as [[rec m]|e] eqn:E;
      [|discriminate].
    cbn [bind fst snd].
    destruct (enrich_loop BeautifulSoup requests_get (S i) rest m) as [[out' m']|e] eqn:E';
      [|discriminate].
    cbn [bind fst snd]. intros [= <- <-].
    apply IH in E'. apply enrich_cases in E. cbn [filter].
    destruct E as [[-> ->]|(doc & info & Hp & -> & ->)].
    + rewrite na_row_marker. cbn [negb]. exact E'.
    + rewrite (@info_row_not_marker game doc info Hp). cbn [negb List.length]. lia.
Qed.

Lemma filter_length (A : Type) (f : A -> bool) (l : list A) :
  (List.length (filter f l) <= List.length l)%nat.
Proof.
  induction l as [|x l IH]; cbn [filter List.length]; [lia|].
  destruct (f x); cbn [List.length]; lia.
Qed.

(** X14: the count the run prints is the number of rows that are not all
    'N/A', so it is at most the number of records, and the success rate
    lies between 0 and 1. *)
Theorem count_is_rows_without_marker
        (catalogue out : list record) (st : statistics) :
  scrape_game_info BeautifulSoup requests_get catalogue = Ok (out, st) ->
  total_game_info_scraped st
  = List.length (filter (fun r => negb (marker_row r)) out)
  /\ (total_game_info_scraped st <= List.length catalogue)%nat
  /\ (0 <= scrape_success_rate st)%Q /\ (scrape_success_rate st <= 1)%Q.
Proof.
  intros H.
  pose proof (@scrape_game_info_turns _ _ _ _ _ H) as Hlen.
  apply Forall2_length in Hlen.
  pose proof (@success_rate_is_quotient _ _ _ _ _ H) as [Hpos Hrate].
  assert (Hcount : total_game_info_scraped st
                   = List.length (filter (fun r => negb (marker_row r)) out)).
  { revert H. unfold scrape_game_info.
    destruct (enrich_loop BeautifulSoup requests_get 0 catalogue 0)
      as [[out' n']|e] eqn:E; [|discriminate].
    cbn [bind fst snd]. destruct (true_div _ _); [|discriminate].
    cbn [bind]. intros [= <- <-]. cbn [total_game_info_scraped].
    apply enrich_loop_count in E. exact E. }
  assert (Hle : (total_game_info_scraped st <= List.length catalogue)%nat).
  { rewrite Hcount, Hlen. apply filter_length. }
  split; [exact Hcount|]. split; [exact Hle|].
  rewrite Hrate. unfold Qle. cbn [Qnum Qden].
  assert (Hden : Z.pos (Pos.of_nat (List.length catalogue))
                 = Z.of_nat (List.length catalogue)).
  { rewrite <- positive_nat_Z, Nat2Pos.id by lia. reflexivity. }
  rewrite Hden. split; lia.
Qed.

Lemma turned_has_title (game : record) :
  (exists j m r, enrich BeautifulSoup requests_get j game m = Ok r) ->
  exists s, dict_get (py "title") game = Some (PyStr s).
Proof.
  intros (j & m & r & H). unfold enrich, get_title in H.
  destruct (dict_get (py "title") game) as [[|s|q]|]; try discriminate H.
  eauto.
Qed.

(** X15: a run ends only on a catalogue in which every record has the key
    'title' with a string for its value. *)
Theorem run_needs_titles (catalogue out : list record) (st : statistics) :
  scrape_game_info BeautifulSoup requests_get catalogue = Ok (out, st) ->
  Forall (fun game => exists s, dict_get (py "title") game = Some (PyStr s)) catalogue.
Proof.
  intros H. apply scrape_game_info_turns in H.
  induction H as [|game rec cat' out' (j & m & m' & Hturn) _ IH]; constructor;
    [|exact IH].
  apply turned_has_title. exists j, m, (rec, m'). exact Hturn.
Qed.

(** What a turn raises, the loop raises, whatever rows came before. *)
Lemma enrich_loop_abort (game : record) (post : list record) (e : exn)
      (pre : list record) : forall i n out m,
  enrich_loop BeautifulSoup requests_get i pre n = Ok (out, m) ->
  enrich BeautifulSoup requests_get (i + List.length pre) game m = Raise e ->
  enrich_loop BeautifulSoup requests_get i (pre ++ game :: post) n = Raise e.
Proof.
  induction pre as [|g pre IH]; intros i n out m; cbn [enrich_loop app List.length].
  - intros [= <- <-]. rewrite Nat.add_0_r. intros ->. reflexivity.
  - destruct (enrich BeautifulSoup requests_get i g n) as [[rec m1]|e1]; [|discriminate].
    cbn [bind fst snd].
    destruct (enrich_loop BeautifulSoup requests_get (S i) pre m1)
      as [[out' m']|e'] eqn:E'; [|discriminate].
    cbn [bind fst snd]. intros [= <- <-] Hturn.
    rewrite Nat.add_succ_r in Hturn.
    rewrite (IH (S i) m1 out' m' E' Hturn). reflexivity.
Qed.

Lemma run_abort (game : record) (pre post out : list record) (m : nat) (e : exn) :
  enrich_loop BeautifulSoup requests_get 0 pre 0 = Ok (out, m) ->
  enrich BeautifulSoup requests_get (List.length pre) game m = Raise e ->
  scrape_game_info BeautifulSoup requests_get (pre ++ game :: post) = Raise e.
Proof.
  intros Hpre Hturn. unfold scrape_game_info.
  rewrite (@enrich_loop_abort game post e pre 0 0 out m Hpre Hturn). reflexivity.
Qed.

(** X16: a record without a string under 'title' aborts the run when its
    turn comes: [KeyError] when the key is missing, [TypeError] when the
    value is no string; the rows enriched before it are not returned. *)
Theorem title_error_aborts_run
        (pre : list record) (game : record) (post out : list record) (m : nat) :
  enrich_loop BeautifulSoup requests_get 0 pre 0 = Ok (out, m) ->
  (forall s, dict_get (py "title") game <> Some (PyStr s)) ->
  scrape_game_info BeautifulSoup requests_get (pre ++ game :: post)
  = Raise (match dict_get (py "title") game with
           | None => KeyError
           | Some _ => TypeError
           end).
Proof.
  intros Hpre Hno. apply (@run_abort game pre post out m _ Hpre).
  unfold enrich, get_title.
  destruct (dict_get (py "title") game) as [[|s|q]|]; try reflexivity.
  destruct (Hno s). reflexivity.
Qed.

(** X17: one fetched page whose release date does not parse aborts the
    whole run with [ValueError]; no row is returned, not even those of the
    records before it. *)
Theorem unparseable_date_aborts_run
        (pre : list record) (game : record) (post out : list record) (m : nat)
        (title : str) (status_code : Z) (body t : str) :
  enrich_loop BeautifulSoup requests_get 0 pre 0 = Ok (out, m) ->
  get_title game = Ok title ->
  requests_get (List.length pre) (create_metacritic_url title) request_headers
  = Response status_code body ->
  is_http_error status_code = false ->
  region_text release_date_path (BeautifulSoup body) = Some t ->
  (forall d, strptime t <> Ok d) ->
  scrape_game_info BeautifulSoup requests_get (pre ++ game :: post)
  = Raise ValueError.
Proof.
  intros Hpre Ht Hnet Hsc R Hno. apply (@run_abort game pre post out m _ Hpre).
  rewrite (enrich_spec _ _ _ Ht), Hnet, Hsc.
  rewrite (parse_game_info_bad_date _ R Hno). reflexivity.
Qed.

(** X18: the columns of a row are those of the record it was, in their
    order, followed by those of the seven fields that the record did not
    have, in the order of the fields; a field the record had keeps its
    place. *)
Theorem columns_keep_order (catalogue out : list record) (st : statistics) :
  scrape_game_info BeautifulSoup requests_get catalogue = Ok (out, st) ->
  Forall2 (fun game rec => keys_of rec = columns_after game) catalogue out.
Proof.
  intros H. apply scrape_game_info_turns in H.
  eapply Forall2_impl; [|exact H].
  intros game rec (j & m & m' & Hturn). apply enrich_cases in Hturn.
  unfold columns_after.
  destruct Hturn as [[-> _]|(doc & info & _ & -> & _)];
    rewrite keys_of_dict_update; try reflexivity; apply enrichment_keys_NoDup.
Qed.

(** X19: when no request succeeds, the run still ends: every row is the
    record with 'N/A' under the seven fields, the count is 0 and so is the
    rate. *)
Theorem network_down_run (catalogue : list record) :
  catalogue <> [] ->
  Forall (fun game => exists title, get_title game = Ok title) catalogue ->
  (forall i url,
     match requests_get i url request_headers with
     | GetRaises e => is_RequestException e = true
     | Response status_code _ => is_http_error status_code = true
     end) ->
  exists st,
    scrape_game_info BeautifulSoup requests_get catalogue
    = Ok (map (fun game => dict_update game na_dict) catalogue, st)
    /\ total_game_info_scraped st = 0%nat
    /\ (scrape_success_rate st == 0)%Q.
Proof.
  intros Hne Ht Hnet.
  assert (Hloop : forall i,
             enrich_loop BeautifulSoup requests_get i catalogue 0
             = Ok (map (fun game => dict_update game na_dict) catalogue, 0%nat)).
  { clear Hne. induction Ht as [|game rest [title Hg] _ IH]; intros i;
      cbn [enrich_loop map]; [reflexivity|].
    rewrite (enrich_spec i game 0 Hg).
    pose proof (Hnet i (create_metacritic_url title)) as Hn.
    destruct (requests_get i (create_metacritic_url title) request_headers)
      as [e|status_code body]; rewrite Hn; cbn [bind fst snd];
      rewrite IH; reflexivity. }
  unfold scrape_game_info. rewrite Hloop. cbn [bind fst snd]. unfold true_div.
  destruct catalogue as [|game rest]; [congruence|]. cbn [List.length bind].
  eexists. split; [reflexivity|]. split; reflexivity.
Qed.

End RunFacts.

Lemma page_without_regions_is_counted_witness :
  get_title (titled "Some Game") = Ok (py "Some Game")
  /\ Forall (fun path => region_text path error_page = None) region_paths
  /\ enrich (fun _ => error_page) always_found 0 (titled "Some Game") 0
     = Ok (dict_update (titled "Some Game") (info_dict no_info), 1%nat)
  /\ forall k, In k enrichment_keys ->
               dict_get k (dict_update (titled "Some Game") (info_dict no_info))
               = Some PyNone.
Proof.
  assert (Ht : get_title (titled "Some Game") = Ok (py "Some Game")) by reflexivity.
  assert (Hno : Forall (fun path => region_text path error_page = None) region_paths)
    by (unfold region_paths; repeat constructor).
  split; [exact Ht|]. split; [exact Hno|].
  exact (@page_without_regions_is_counted (fun _ => error_page) always_found
           0%nat (titled "Some Game") 0%nat (py "Some Game") 200%Z
           (py "<html>...</html>") Ht eq_refl eq_refl Hno).
Defined.

Lemma count_is_rows_without_marker_witness :
  scrape_game_info (fun _ => full_page) first_found two_games
  = Ok (two_games_enriched, mk_stats 1 (Qmake 1 2))
  /\ 1%nat = List.length (filter (fun r => negb (marker_row r)) two_games_enriched)
  /\ (1 <= List.length two_games)%nat
  /\ (0 <= Qmake 1 2)%Q /\ (Qmake 1 2 <= 1)%Q.
Proof.
  assert (H : scrape_game_info (fun _ => full_page) first_found two_games
              = Ok (two_games_enriched, mk_stats 1 (Qmake 1 2)))
    by (vm_compute; reflexivity).
  split; [exact H|].
  exact (@count_is_rows_without_marker _ _ _ _ _ H).
Defined.

Lemma run_needs_titles_witness :
  scrape_game_info (fun _ => full_page) first_found two_games
  = Ok (two_games_enriched, mk_stats 1 (Qmake 1 2))
  /\ Forall (fun game => exists s, dict_get (py "title") game = Some (PyStr s))
            two_games.
Proof.
  assert (H : scrape_game_info (fun _ => full_page) first_found two_games
              = Ok (two_games_enriched, mk_stats 1 (Qmake 1 2)))
    by (vm_compute; reflexivity).
  split; [exact H|].
  exact (@run_needs_titles _ _ _ _ _ H).
Defined.

Lemma title_error_aborts_run_witness :
  enrich_loop plain_text_parser all_down 0 [titled "A Game"] 0
  = Ok ([dict_update (titled "A Game") na_dict], 0%nat)
  /\ (forall s, dict_get (py "title") untitled <> Some (PyStr s))
  /\ scrape_game_info plain_text_parser all_down ([titled "A Game"] ++ [untitled])
     = Raise KeyError.
Proof.
  assert (Hpre : enrich_loop plain_text_parser all_down 0 [titled "A Game"] 0
                 = Ok ([dict_update (titled "A Game") na_dict], 0%nat))
    by (vm_compute; reflexivity).
  assert (Hno : forall s, dict_get (py "title") untitled <> Some (PyStr s))
    by (intros s; vm_compute; discriminate).
  split; [exact Hpre|]. split; [exact Hno|].
  exact (@title_error_aborts_run plain_text_parser all_down
           [titled "A Game"] untitled [] _ _ Hpre Hno).
Defined.

Lemma unparseable_date_aborts_run_witness :
  region_text release_date_path tba_page = Some (py "TBA")
  /\ (forall d, strptime (py "TBA") <> Ok d)
  /\ scrape_game_info (fun _ => tba_page) always_found
                      ([] ++ titled "Some Game" :: [titled "Other Game"])
     = Raise ValueError.
Proof.
  assert (R : region_text release_date_path tba_page = Some (py "TBA"))
    by (vm_compute; reflexivity).
  assert (Hno : forall d, strptime (py "TBA") <> Ok d)
    by (intros d; vm_compute; discriminate).
  split; [exact R|]. split; [exact Hno|].
  exact (@unparseable_date_aborts_run (fun _ => tba_page) always_found
           [] (titled "Some Game") [titled "Other Game"] [] 0%nat
           (py "Some Game") 200%Z (py "<html>...</html>") (py "TBA")
           eq_refl eq_refl eq_refl eq_refl R Hno).
Defined.

Lemma columns_keep_order_witness :
  columns_after with_genre
  = map py ["genre"; "title"; "meta_score"; "meta_reviews"; "user_score";
            "user_reviews"; "release_date"; "publisher"]%string
  /\ exists out st,
       scrape_game_info (fun _ => full_page) always_found [with_genre] = Ok (out, st)
       /\ Forall2 (fun game rec => keys_of rec = columns_after game) [with_genre] out.
Proof.
  split; [vm_compute; reflexivity|].
  destruct (scrape_game_info (fun _ => full_page) always_found [with_genre])
    as [[out st]|e] eqn:H.
  - exists out, st. split; [reflexivity|].
    exact (@columns_keep_order _ _ _ _ _ H).
  - vm_compute in H. discriminate H.
Defined.

Lemma network_down_run_witness :
  exists st,
    scrape_game_info plain_text_parser all_down two_games
    = Ok (map (fun game => dict_update game na_dict) two_games, st)
    /\ total_game_info_scraped st = 0%nat
    /\ (scrape_success_rate st == 0)%Q.
Proof.
  assert (Hne : two_games <> []) by discriminate.
  assert (Ht : Forall (fun game => exists title, get_title game = Ok title) two_games)
    by (repeat constructor; eexists; reflexivity).
  assert (Hnet : forall i url,
             match all_down i url request_headers with
             | GetRaises e => is_RequestException e = true
             | Response status_code _ => is_http_error status_code = true
             end)
    by (intros [|i] url; reflexivity).
  exact (@network_down_run plain_text_parser all_down two_games Hne Ht Hnet).
Defined.


